(** * Verification of the dataset construction stage (src/dataset.py)

    A shallow embedding of the data-reconciliation pipeline: the source
    cleaners, the geometry processor, the station aggregator, the dataset
    merger, the derived price per square meter, and the entry point that
    chains them.

    The pandas objects the code manipulates are embedded as follows.
    - A [DataFrame] is its list of column labels and its list of rows; the
      row index is positional (every Series the code combines comes from
      the frame it is assigned to, so index alignment is positional).
    - A cell is a [value]: a string (object column), a binary64 float
      (float64 column; the missing value is the float NaN, as in pandas)
      or an integer (int64 column).
    - binary64 arithmetic is the IEEE-754 specification of the standard
      library ([SpecFloat], precision 53, maximal exponent 1024).
    - A Python exception is the [Raise] branch of [result]. *)

From Stdlib Require Import ZArith List String Ascii Bool Lia.
From Stdlib Require Import Floats.
From Stdlib Require Import QArith Qreals Reals Lra.
From stdpp Require Import base option list gmap strings sorting.

Local Open Scope string_scope.
Local Open Scope Z_scope.
Local Open Scope list_scope.

(** ** Python exceptions and fallible computations *)

Inductive exn : Type :=
| KeyError (label : string)
| IndexError
| TypeError
| ValueError.

Inductive result (A : Type) : Type :=
| Ok (a : A)
| Raise (e : exn).
Arguments Ok {A} a.
Arguments Raise {A} e.

#[global] Instance result_bind : MBind result := fun A B k r =>
  match r with
  | Ok a => k a
  | Raise e => Raise e
  end.

Definition raises {A} (r : result A) : Prop := exists e, r = Raise e.

(** [try: ... except Exception: handler] *)
Definition try_except {A} (body : result A) (handler : A) : A :=
  match body with
  | Ok a => a
  | Raise _ => handler
  end.

Fixpoint mapM {A B} (f : A -> result B) (l : list A) : result (list B) :=
  match l with
  | [] => Ok []
  | a :: l' => b ← f a; bs ← mapM f l'; Ok (b :: bs)
  end.

(** ** binary64 floats *)

Definition float64 : Type := spec_float.

Definition f64_prec : Z := 53.
Definition f64_emax : Z := 1024.

Definition f64_div : float64 -> float64 -> float64 := SFdiv f64_prec f64_emax.

(** Conversion of an integer to the nearest binary64, ties to even. *)
Definition f64_of_Z (z : Z) : float64 :=
  binary_normalize f64_prec f64_emax z 0 false.

Definition f64_nan : float64 := S754_nan.
Definition f64_zero : float64 := S754_zero false.
Definition f64_inf : float64 := S754_infinity false.

Definition f64_isnan (f : float64) : bool :=
  match f with
  | S754_nan => true
  | _ => false
  end.

(** [numpy.isfinite] *)
Definition f64_isfinite (f : float64) : bool :=
  match f with
  | S754_zero _ | S754_finite _ _ _ => true
  | S754_infinity _ | S754_nan => false
  end.

(** [x == 0.0] *)
Definition f64_is_zero (f : float64) : bool :=
  match f with
  | S754_zero _ => true
  | _ => false
  end.

#[global] Instance float64_eq_dec : EqDecision float64.
Proof. unfold float64. solve_decision. Defined.

(** ** Cells, Series and DataFrames *)

Inductive value : Type :=
| VStr (s : string)
| VFloat (f : float64)
| VInt (z : Z).

#[global] Instance value_eq_dec : EqDecision value.
Proof. solve_decision. Defined.

(** The missing value of pandas. *)
Definition NaN : value := VFloat f64_nan.

(** [pd.isna] on a cell *)
Definition isna (v : value) : bool :=
  match v with
  | VFloat f => f64_isnan f
  | _ => false
  end.

Definition Series : Type := list value.

Record DataFrame : Type := mkDataFrame {
  columns : list string;
  rows : list (list value)
}.

(** A frame is rectangular: every row has one cell per column. *)
Definition rectangular (df : DataFrame) : Prop :=
  Forall (fun r => length r = length (columns df)) (rows df).

(** Positions of [label] among the column labels, starting at [i]. *)
Fixpoint positions_from (i : nat) (label : string) (cols : list string) : list nat :=
  match cols with
  | [] => []
  | c :: cols' =>
      if String.eqb c label then i :: positions_from (S i) label cols'
      else positions_from (S i) label cols'
  end.

Definition positions (label : string) (cols : list string) : list nat :=
  positions_from 0 label cols.

(** The position of the one column called [label].  [df[label]] raises
    KeyError when there is none; with a duplicated label it is a frame and
    not a Series, and every use the code makes of it (to_numeric,
    arithmetic with a Series, assignment to one column) raises. *)
Definition col_pos (df : DataFrame) (label : string) : result nat :=
  match positions label (columns df) with
  | [] => Raise (KeyError label)
  | [i] => Ok i
  | _ => Raise ValueError
  end.

Definition cell (i : nat) (r : list value) : value := nth i r NaN.

(** [df[label]] *)
Definition getitem (df : DataFrame) (label : string) : result Series :=
  i ← col_pos df label;
  Ok (map (cell i) (rows df)).

(** [df[label] = s] : overwrites the column when the label exists, and
    appends a new last column otherwise. *)
Definition setitem (df : DataFrame) (label : string) (s : Series) : result DataFrame :=
  if negb (Nat.eqb (length s) (length (rows df))) then Raise ValueError
  else
    match positions label (columns df) with
    | [] =>
        Ok (mkDataFrame (columns df ++ [label])
              (zip_with (fun r v => r ++ [v]) (rows df) s))
    | ps =>
        Ok (mkDataFrame (columns df)
              (zip_with (fun r v => foldr (fun i r' => <[i:=v]> r') r ps) (rows df) s))
    end.

(** ** Name reconciliation *)

(** [municipality_name_mapping.get(original_name, original_name)]
    (load_and_process_geojson); the table itself lives in src/utils.py and
    is a parameter here. *)
Definition canonicalize (municipality_name_mapping : gmap string string)
    (name : string) : string :=
  match municipality_name_mapping !! name with
  | Some canonical => canonical
  | None => name
  end.

(** Modelled from the spec: the table [municipality_name_mapping] of
    src/utils.py is not among the sources.  Section 3 describes it as "a
    fixed mapping from known alternate spellings to canonical names": no
    canonical name is itself listed as an alternate spelling of another
    name. *)
Definition canonical_targets (m : gmap string string) : Prop :=
  forall alias canonical, m !! alias = Some canonical ->
    m !! canonical = None \/ m !! canonical = Some canonical.

(** ** The dataset merger: price per square meter *)

(** Operand of a float64 division: int64 cells are converted, strings are
    not numbers. *)
Definition as_float (v : value) : result float64 :=
  match v with
  | VFloat f => Ok f
  | VInt z => Ok (f64_of_Z z)
  | VStr _ => Raise TypeError
  end.

(** One cell of [a / b] on numeric columns: numpy true division, which
    follows IEEE-754 and raises nothing. *)
Definition truediv (a b : value) : result value :=
  x ← as_float a;
  y ← as_float b;
  Ok (VFloat (f64_div x y)).

(** [a / b] on two Series of one frame. *)
Fixpoint series_truediv (a b : Series) : result Series :=
  match a, b with
  | x :: a', y :: b' =>
      q ← truediv x y; qs ← series_truediv a' b'; Ok (q :: qs)
  | _, _ => Ok []
  end.

Definition process_merged_data (data : DataFrame) : result DataFrame :=
  avg_price ← getitem data "avg_price";
  avg_surface ← getitem data "avg_surface";
  m2_price ← series_truediv avg_price avg_surface;
  setitem data "m2_price" m2_price.

(** ** pandas operations used by the source cleaners *)

(** All positions of a label; KeyError when the frame has no such column. *)
Definition label_positions (df : DataFrame) (label : string) : result (list nat) :=
  match positions label (columns df) with
  | [] => Raise (KeyError label)
  | ps => Ok ps
  end.

(** [df.rename(columns=mapping)] : labels outside the mapping are kept. *)
Definition rename (mapping : gmap string string) (df : DataFrame) : DataFrame :=
  mkDataFrame (map (fun c => default c (mapping !! c)) (columns df)) (rows df).

(** [df.columns = labels] : ValueError on a length mismatch. *)
Definition set_columns (df : DataFrame) (labels : list string) : result DataFrame :=
  if Nat.eqb (length labels) (length (columns df))
  then Ok (mkDataFrame labels (rows df))
  else Raise ValueError.

(** [df[[l1, ..., ln]]] : the requested columns in the requested order. *)
Definition select (df : DataFrame) (labels : list string) : result DataFrame :=
  ps ← mapM (label_positions df) labels;
  let idx := concat ps in
  Ok (mkDataFrame (map (fun i => nth i (columns df) "") idx)
        (map (fun r => map (fun i => cell i r) idx) (rows df))).

(** Removal of the cells at the given positions of a row, counting
    positions from [i]. *)
Fixpoint remove_positions_from {A} (i : nat) (ps : list nat) (l : list A) : list A :=
  match l with
  | [] => []
  | a :: l' =>
      if existsb (Nat.eqb i) ps then remove_positions_from (S i) ps l'
      else a :: remove_positions_from (S i) ps l'
  end.

(** [df.drop(columns=labels)] *)
Definition drop_columns (df : DataFrame) (labels : list string) : result DataFrame :=
  ps ← mapM (label_positions df) labels;
  let idx := concat ps in
  Ok (mkDataFrame (remove_positions_from 0 idx (columns df))
        (map (remove_positions_from 0 idx) (rows df))).

(** [df.dropna()] : rows with a missing cell in any column are dropped. *)
Definition dropna (df : DataFrame) : DataFrame :=
  mkDataFrame (columns df)
    (List.filter (fun r => forallb (fun v => negb (isna v)) r) (rows df)).

(** [df.dropna(subset=labels)] *)
Definition dropna_subset (df : DataFrame) (labels : list string) : result DataFrame :=
  ps ← mapM (label_positions df) labels;
  let idx := concat ps in
  Ok (mkDataFrame (columns df)
        (List.filter (fun r => forallb (fun i => negb (isna (cell i r))) idx) (rows df))).

(** [df[1:]] *)
Definition drop_first_row (df : DataFrame) : DataFrame :=
  mkDataFrame (columns df) (tail (rows df)).

(** [df.reset_index(drop=True)] : rows are addressed by position here, so
    renumbering the index changes nothing. *)
Definition reset_index (df : DataFrame) : DataFrame := df.

(** [pd.to_numeric(s, errors='coerce')].  The text parser of pandas is a
    parameter: [str_to_float s] is the number [s] denotes, and NaN when
    [s] is not the text of a number.  Numeric cells are kept. *)
Definition to_numeric (str_to_float : string -> float64) (s : Series) : Series :=
  map (fun v =>
         match v with
         | VStr t => VFloat (str_to_float t)
         | _ => v
         end) s.

(** [s.fillna(other)] with a Series of the same frame *)
Definition fillna (s other : Series) : Series :=
  zip_with (fun v o => if isna v then o else v) s other.

(** [s.map(table)] with a dict keyed by strings: a cell that is not a key
    of the dict becomes NaN. *)
Definition series_map (table : gmap string float64) (s : Series) : Series :=
  map (fun v =>
         match v with
         | VStr k => match table !! k with
                     | Some f => VFloat f
                     | None => NaN
                     end
         | _ => NaN
         end) s.

(** *** The regular-expression replacements of the income cleaner *)

Definition byte_code (c : ascii) : nat := nat_of_ascii c.

(** [','] replaced by ['.'] *)
Fixpoint comma_to_dot (s : string) : string :=
  match s with
  | EmptyString => EmptyString
  | String c s' =>
      if Nat.eqb (byte_code c) 44 then String "." (comma_to_dot s')
      else String c (comma_to_dot s')
  end.

(** Length in bytes of the white-space character (Python's [\s] on str)
    that starts the UTF-8 text [s], or 0 when [s] does not start with one. *)
Definition space_prefix (s : string) : nat :=
  match s with
  | EmptyString => 0%nat
  | String c s1 =>
      let b := byte_code c in
      if (Nat.leb 9 b && Nat.leb b 13) || (Nat.leb 28 b && Nat.leb b 32) then 1%nat
      else
        match s1 with
        | EmptyString => 0%nat
        | String c1 s2 =>
            let b1 := byte_code c1 in
            if Nat.eqb b 194 && (Nat.eqb b1 133 || Nat.eqb b1 160) then 2%nat
            else
              match s2 with
              | EmptyString => 0%nat
              | String c2 _ =>
                  let b2 := byte_code c2 in
                  if (Nat.eqb b 225 && Nat.eqb b1 154 && Nat.eqb b2 128)
                     || (Nat.eqb b 226 && Nat.eqb b1 128
                         && ((Nat.leb 128 b2 && Nat.leb b2 138)
                             || Nat.eqb b2 168 || Nat.eqb b2 169 || Nat.eqb b2 175))
                     || (Nat.eqb b 226 && Nat.eqb b1 129 && Nat.eqb b2 159)
                     || (Nat.eqb b 227 && Nat.eqb b1 128 && Nat.eqb b2 128)
                  then 3%nat
                  else 0%nat
              end
        end
  end.

(** [r'\s+'] replaced by [''] : [skip] counts the bytes still to drop of
    the white-space character being removed. *)
Fixpoint remove_spaces_from (skip : nat) (s : string) : string :=
  match s with
  | EmptyString => EmptyString
  | String c s' =>
      match skip with
      | S k => remove_spaces_from k s'
      | O =>
          match space_prefix s with
          | O => String c (remove_spaces_from 0 s')
          | S k => remove_spaces_from k s'
          end
      end
  end.

Definition remove_spaces (s : string) : string := remove_spaces_from 0 s.

(** [s.replace({',': '.', r'\s+': ''}, regex=True)] : the patterns are
    applied in turn to the string cells; other cells are left alone. *)
Definition replace_separators (s : Series) : Series :=
  map (fun v =>
         match v with
         | VStr t => VStr (remove_spaces (comma_to_dot t))
         | _ => v
         end) s.

(** ** Source cleaners

    Each cleaner takes the frame [pd.read_csv] returns for its file. *)

Definition corrected_columns : gmap string string :=
  {[ "Unnamed: 0" := "municipality"; "Totaal.1" := "avg_surface" ]}.

Definition clean_price_data (str_to_float : string -> float64)
    (data : DataFrame) : result DataFrame :=
  data ← set_columns data ["municipality"; "Subject"; "Currency"; "avg_price"];
  data ← drop_columns data ["Subject"; "Currency"];
  avg_price ← getitem data "avg_price";
  data ← setitem data "avg_price" (to_numeric str_to_float avg_price);
  dropna_subset data ["avg_price"].

Definition clean_surface_data (str_to_float : string -> float64)
    (data : DataFrame) : result DataFrame :=
  let data := rename corrected_columns data in
  data ← select data ["municipality"; "avg_surface"];
  let data := dropna data in
  let data := drop_first_row data in
  let data := reset_index data in
  avg_surface ← getitem data "avg_surface";
  setitem data "avg_surface" (to_numeric str_to_float avg_surface).

(** The loop [for col in data.columns[1:]: data[col] = data[col].replace(...)] *)
Fixpoint replace_in_columns (data : DataFrame) (cols : list string) : result DataFrame :=
  match cols with
  | [] => Ok data
  | col :: cols' =>
      s ← getitem data col;
      data ← setitem data col (replace_separators s);
      replace_in_columns data cols'
  end.

Definition clean_income_data (str_to_float : string -> float64)
    (missing_incomes : gmap string float64) (data : DataFrame) : result DataFrame :=
  data ← set_columns data ["municipality"; "avg_income"];
  let data := reset_index data in
  data ← replace_in_columns data (tail (columns data));
  avg_income ← getitem data "avg_income";
  data ← setitem data "avg_income" (to_numeric str_to_float avg_income);
  avg_income ← getitem data "avg_income";
  municipality ← getitem data "municipality";
  data ← setitem data "avg_income"
           (fillna avg_income (series_map missing_incomes municipality));
  dropna_subset data ["avg_income"].

(** A text parser for the examples: the digit strings, read in base ten.
    It agrees with [pd.to_numeric] on them and on the texts it rejects
    below. *)
Fixpoint digits_value (acc : Z) (s : string) : option Z :=
  match s with
  | EmptyString => Some acc
  | String c s' =>
      let b := byte_code c in
      if Nat.leb 48 b && Nat.leb b 57
      then digits_value (10 * acc + Z.of_nat (b - 48)) s'
      else None
  end.

Definition digits_to_float (s : string) : float64 :=
  match s with
  | EmptyString => f64_nan
  | _ => match digits_value 0 s with
         | Some z => f64_of_Z z
         | None => f64_nan
         end
  end.

(** The binary64 nearest to 45.2 *)
Definition f64_45_2 : float64 := Eval vm_compute in Prim2SF 0x1.699999999999ap+5%float.

(** ** Geometry processor *)

(** Python's float arithmetic and the functions of the [math] module the
    code calls.  [math.sqrt] raises ValueError on a negative argument.
    The operations are an interface so that claims about exact values can
    be read in the arithmetic they are meant in. *)
Class PyFloat (F : Type) : Type := {
  float_lit : Q -> F;                (* a numeric literal of the source *)
  fadd : F -> F -> F;
  fsub : F -> F -> F;
  fmul : F -> F -> F;
  fdiv : F -> F -> F;
  fpow : F -> nat -> F;              (* [x ** n] *)
  math_radians : F -> F;
  math_sin : F -> F;
  math_cos : F -> F;
  math_atan2 : F -> F -> F;
  math_sqrt : F -> result F
}.

(** The functions of shapely and pyproj the code calls. *)
Record GeoLib (F : Type) : Type := mkGeoLib {
  geojson_geometry : Type;           (* the "geometry" member of a feature *)
  shapely_geometry : Type;
  shape : geojson_geometry -> result shapely_geometry;
  centroid_coords : shapely_geometry -> list (F * F);   (* [g.centroid.coords] *)
  transform_to_3857 : F -> F -> result (F * F);
  transform_to_4326 : F -> F -> result (F * F);
  (* [shapely.ops.transform(f, g)]: [g] with [f] applied to every
     coordinate pair.  The code never calls it; it states the centroid of
     the projected geometry below. *)
  transform_geometry : (F -> F -> result (F * F)) -> shapely_geometry -> result shapely_geometry
}.
Arguments geojson_geometry {F} _.
Arguments shapely_geometry {F} _.
Arguments shape {F} _ _.
Arguments centroid_coords {F} _ _.
Arguments transform_to_3857 {F} _ _ _.
Arguments transform_to_4326 {F} _ _ _.
Arguments transform_geometry {F} _ _ _.

(** [coords[0]] *)
Definition first_coord {A} (coords : list A) : result A :=
  match coords with
  | [] => Raise IndexError
  | c :: _ => Ok c
  end.

(** Returns [(lat, lon)], each a float or None. *)
Definition calculate_centroid_lat_lon {F} (lib : GeoLib F)
    (geometry : geojson_geometry lib) : result (option F * option F) :=
  shapely_geometry ← shape lib geometry;
  Ok (try_except
        (c ← first_coord (centroid_coords lib shapely_geometry);
         centroid_3857 ← transform_to_3857 lib (fst c) (snd c);
         centroid_4326 ← transform_to_4326 lib (fst centroid_3857) (snd centroid_3857);
         Ok (Some (snd centroid_4326), Some (fst centroid_4326)))
        (None, None)).

(** The centroid section 4.3 of the spec describes: the geometry is
    projected to EPSG:3857, the centroid is taken there, and that centroid
    is projected back. *)
Definition planar_centroid_lat_lon {F} (lib : GeoLib F)
    (geometry : geojson_geometry lib) : result (option F * option F) :=
  shapely_geometry ← shape lib geometry;
  Ok (try_except
        (projected ← transform_geometry lib (transform_to_3857 lib) shapely_geometry;
         centroid_3857 ← first_coord (centroid_coords lib projected);
         centroid_4326 ← transform_to_4326 lib (fst centroid_3857) (snd centroid_3857);
         Ok (Some (snd centroid_4326), Some (fst centroid_4326)))
        (None, None)).

Definition haversine {F} `{PyFloat F} (lat1 lon1 lat2 lon2 : F) : result F :=
  let R := float_lit 6371%Q in
  let phi1 := math_radians lat1 in
  let phi2 := math_radians lat2 in
  let delta_phi := math_radians (fsub lat2 lat1) in
  let delta_lambda := math_radians (fsub lon2 lon1) in
  let a := fadd (fpow (math_sin (fdiv delta_phi (float_lit 2%Q))) 2)
                (fmul (fmul (math_cos phi1) (math_cos phi2))
                      (fpow (math_sin (fdiv delta_lambda (float_lit 2%Q))) 2)) in
  sqrt_a ← math_sqrt a;
  sqrt_1_a ← math_sqrt (fsub (float_lit 1%Q) a);
  let c := fmul (float_lit 2%Q) (math_atan2 sqrt_a sqrt_1_a) in
  let distance := fmul R c in
  Ok distance.

(** A float argument of a [math] function: None is a TypeError. *)
Definition as_real_number {F} (x : option F) : result F :=
  match x with
  | Some v => Ok v
  | None => Raise TypeError
  end.

Record feature (G : Type) : Type := mkFeature {
  statnaam : string;                 (* [feature['properties']['statnaam']] *)
  geometry : G
}.
Arguments mkFeature {G} _ _.
Arguments statnaam {G} _.
Arguments geometry {G} _.

Definition schiphol_coords {F} `{PyFloat F} : F * F :=
  (float_lit (523158 # 10000)%Q, float_lit (47480 # 10000)%Q).

(** The rows ['municipality', 'schiphol_distance'] of the returned frame. *)
Definition load_and_process_geojson {F} `{PyFloat F} (lib : GeoLib F)
    (municipality_name_mapping : gmap string string)
    (features : list (feature (geojson_geometry lib))) : result (list (string * F)) :=
  mapM (fun feature =>
          let original_name := statnaam feature in
          let corrected_name := canonicalize municipality_name_mapping original_name in
          centroid ← calculate_centroid_lat_lon lib (geometry feature);
          lat ← as_real_number (fst centroid);
          lon ← as_real_number (snd centroid);
          schiphol_distance ← haversine lat lon (fst schiphol_coords) (snd schiphol_coords);
          Ok (corrected_name, schiphol_distance))
       features.

(** *** The arithmetic of the real numbers *)

Definition R_atan2 (y x : R) : R :=
  if Rlt_dec 0 x then atan (y / x)
  else if Rlt_dec x 0 then
    (if Rle_dec 0 y then atan (y / x) + PI else atan (y / x) - PI)%R
  else if Rlt_dec 0 y then (PI / 2)%R
  else if Rlt_dec y 0 then (- PI / 2)%R
  else 0%R.

Definition R_sqrt (x : R) : result R :=
  if Rlt_dec x 0 then Raise ValueError else Ok (sqrt x).

#[global] Instance real_arithmetic : PyFloat R := {
  float_lit := Q2R;
  fadd := Rplus;
  fsub := Rminus;
  fmul := Rmult;
  fdiv := Rdiv;
  fpow := pow;
  math_radians := fun x => (x * (PI / 180))%R;
  math_sin := sin;
  math_cos := cos;
  math_atan2 := R_atan2;
  math_sqrt := R_sqrt
}.

(** Spherical Web Mercator (EPSG:3857) and its inverse on the reals,
    longitude and latitude in degrees. *)
Definition earth_radius : R := 6378137%R.

Definition mercator (lon lat : R) : result (R * R) :=
  Ok ((earth_radius * (lon * (PI / 180)))%R,
      (earth_radius * ln (tan (PI / 4 + lat * (PI / 180) / 2)))%R).

Definition mercator_inverse (x y : R) : result (R * R) :=
  Ok ((x / earth_radius * (180 / PI))%R,
      ((2 * atan (exp (y / earth_radius)) - PI / 2) * (180 / PI))%R).

(** The mean of a non-empty list of points: the centroid shapely gives for
    the vertices of a triangle. *)
Definition vertex_mean (ps : list (R * R)) : list (R * R) :=
  match ps with
  | [] => []
  | _ =>
      let n := INR (length ps) in
      [((fold_right Rplus 0 (map fst ps) / n)%R,
        (fold_right Rplus 0 (map snd ps) / n)%R)]
  end.

Definition triangle_lib : GeoLib R :=
  mkGeoLib R (list (R * R)) (list (R * R)) Ok vertex_mean mercator mercator_inverse
    (fun f ps => mapM (fun p => f (fst p) (snd p)) ps).

(** A triangle with two vertices on the equator and one at about 68.2
    degrees north. *)
Definition north_latitude : R := ((2 * atan (3 * sqrt 3) - PI / 2) * (180 / PI))%R.

Definition tall_triangle : list (R * R) :=
  [ (0, 0); (3, 0); (0, north_latitude) ]%R.

(** A feature whose polygon has no coordinates. *)
Definition empty_feature : feature (list (R * R)) := mkFeature "Texel" [].

(** ** [pd.merge(left, right, on=key, how=...)] *)

Inductive join : Type := inner | left.

(** Labels other than the key that occur in both frames get a suffix. *)
Definition add_suffix (key suffix : string) (others cols : list string) : list string :=
  map (fun c =>
         if negb (String.eqb c key) && existsb (String.eqb c) others
         then String.append c suffix
         else c) cols.

Definition merge_columns (key : string) (j : nat) (lcols rcols : list string) : list string :=
  add_suffix key "_x" rcols lcols
    ++ remove_positions_from 0 [j] (add_suffix key "_y" lcols rcols).

(** The rows of [right] whose key equals the key [k]; missing keys match
    each other, as in pandas. *)
Definition matching (j : nat) (k : value) (rrows : list (list value)) : list (list value) :=
  List.filter (fun r => bool_decide (cell j r = k)) rrows.

(** A column that receives a missing value can no longer be int64: its
    integers are converted to float64. *)
Definition upcast (v : value) : value :=
  match v with
  | VInt z => VFloat (f64_of_Z z)
  | _ => v
  end.

Definition merge_rows (how : join) (i j : nat) (width : nat)
    (lrows rrows : list (list value)) : list (list value) :=
  match how with
  | inner =>
      flat_map (fun l =>
                  map (fun r => l ++ remove_positions_from 0 [j] r)
                      (matching j (cell i l) rrows)) lrows
  | left =>
      let unmatched :=
        existsb (fun l => Nat.eqb (length (matching j (cell i l) rrows)) 0) lrows in
      let cast := if unmatched then upcast else (fun v => v) in
      flat_map (fun l =>
                  match matching j (cell i l) rrows with
                  | [] => [l ++ repeat NaN width]
                  | ms => map (fun r => l ++ map cast (remove_positions_from 0 [j] r)) ms
                  end) lrows
  end.

(** Whether a label of [new] repeats an earlier label of [new] at a
    position where [old] had no repetition: a duplicate the suffixes
    created. *)
Fixpoint created_duplicates (seen_old seen_new old new : list string) : bool :=
  match old, new with
  | o :: old', n :: new' =>
      (existsb (String.eqb n) seen_new && negb (existsb (String.eqb o) seen_old))
      || created_duplicates (o :: seen_old) (n :: seen_new) old' new'
  | _, _ => false
  end.

(** pandas refuses a merge whose suffixes make two labels of one side
    equal (MergeError, a ValueError). *)
Definition suffix_clash (key : string) (j : nat) (lcols rcols : list string) : bool :=
  created_duplicates [] [] lcols (add_suffix key "_x" rcols lcols)
  || created_duplicates [] [] (remove_positions_from 0 [j] rcols)
       (remove_positions_from 0 [j] (add_suffix key "_y" lcols rcols)).

Definition merge (lframe rframe : DataFrame) (key : string) (how : join) : result DataFrame :=
  i ← col_pos lframe key;
  j ← col_pos rframe key;
  if suffix_clash key j (columns lframe) (columns rframe) then Raise ValueError
  else
    Ok (mkDataFrame (merge_columns key j (columns lframe) (columns rframe))
          (merge_rows how i j (length (columns rframe) - 1) (rows lframe) (rows rframe))).

(** ** Dataset merger *)

(** Modelled from the spec: [apply_name_mapping] is defined in src/utils.py,
    which is not among the sources.  Section 4.1: the canonical form of a
    name is looked up in the static table, and a name that is not a known
    alias is returned unchanged; it is "applied consistently to the join
    key of every table". *)
Definition apply_name_mapping (df : DataFrame) (column : string)
    (mapping : gmap string string) : result DataFrame :=
  s ← getitem df column;
  setitem df column
    (map (fun v =>
            match v with
            | VStr name => VStr (canonicalize mapping name)
            | _ => v
            end) s).

(** The loop [for data in datasets[1:]: merged_data = pd.merge(...)] *)
Fixpoint merge_all (merged_data : DataFrame) (datasets : list DataFrame) : result DataFrame :=
  match datasets with
  | [] => Ok merged_data
  | data :: datasets' =>
      merged_data ← merge merged_data data "municipality" inner;
      merge_all merged_data datasets'
  end.

Definition merge_datasets (municipality_name_mapping : gmap string string)
    (datasets : list DataFrame) : result DataFrame :=
  datasets ← mapM (fun data =>
                     apply_name_mapping data "municipality" municipality_name_mapping)
                  datasets;
  match datasets with
  | [] => Raise IndexError
  | first :: others => merge_all first others
  end.

(** The municipality keys of a frame. *)
Definition keys (df : DataFrame) : result Series := getitem df "municipality".

(** ** Reading a numeric cell *)

Definition numeric (v : value) : Prop :=
  match v with
  | VStr _ => False
  | _ => True
  end.

(** The float64 a numeric cell stands for in a division. *)
Definition to_float (v : value) : float64 :=
  match v with
  | VFloat f => f
  | VInt z => f64_of_Z z
  | VStr _ => f64_nan
  end.

Definition quotient (price surface : value) : value :=
  VFloat (f64_div (to_float price) (to_float surface)).

(** ** Example inputs *)

Definition example_mapping : gmap string string :=
  {[ "Den Haag" := "'s-Gravenhage"; "Bergen (NH)" := "Bergen (NH.)" ]}.

Definition chained_mapping : gmap string string :=
  {[ "A" := "B"; "B" := "C" ]}.

Definition priced_data : DataFrame :=
  mkDataFrame ["municipality"; "avg_price"; "avg_surface"]
    [ [VStr "Utrecht"; VInt 450000; VInt 100];
      [VStr "Almere"; VFloat (f64_of_Z 300000); VFloat (f64_of_Z 120)] ].

Definition zero_surface_data : DataFrame :=
  mkDataFrame ["municipality"; "avg_price"; "avg_surface"]
    [ [VStr "Utrecht"; VFloat (f64_of_Z 1); VFloat f64_zero] ].

Definition overwritten_data : DataFrame :=
  mkDataFrame ["avg_price"; "avg_surface"; "m2_price"]
    [ [VInt 6; VInt 2; VInt 7] ].


(** ** The income cleaner, row by row *)

Definition replace_cell (v : value) : value :=
  match v with
  | VStr t => VStr (remove_spaces (comma_to_dot t))
  | _ => v
  end.

Definition coerce_cell (str_to_float : string -> float64) (v : value) : value :=
  match v with
  | VStr t => VFloat (str_to_float t)
  | _ => v
  end.

Definition fallback_cell (table : gmap string float64) (v : value) : value :=
  match v with
  | VStr k => match table !! k with
              | Some f => VFloat f
              | None => NaN
              end
  | _ => NaN
  end.

(** What the spec says of one income row: the coerced value, filled from
    the fallback table when it is missing, and the row dropped when it is
    still missing. *)
Definition income_row (str_to_float : string -> float64)
    (missing_incomes : gmap string float64) (r : list value) : option (list value) :=
  let municipality := cell 0 r in
  let income := coerce_cell str_to_float (replace_cell (cell 1 r)) in
  let filled := if isna income then fallback_cell missing_incomes municipality else income in
  if isna filled then None else Some [municipality; filled].

Definition utrecht_incomes : gmap string float64 := {[ "Utrecht" := f64_45_2 ]}.

Definition income_csv : DataFrame :=
  mkDataFrame ["Regio's"; "Gemiddeld inkomen"]
    [ [VStr "Utrecht"; VStr "."];
      [VStr "Almere"; VStr " 41"];
      [VStr "Ameland"; NaN] ].

Definition surface_csv : DataFrame :=
  mkDataFrame ["Unnamed: 0"; "Totaal"; "Totaal.1"]
    [ [VStr "Onderwerp"; VStr "m2"; VStr "m2"];
      [VStr "Aa en Hunze"; VStr "."; VStr "."];
      [VStr "Almere"; VStr "118"; VStr "118"] ].


(** The three assignments of the income cleaner to one row: separators
    replaced, text coerced, missing value filled. *)
Definition income_steps (str_to_float : string -> float64)
    (missing_incomes : gmap string float64) (r : list value) : list value :=
  let r1 := <[1%nat := replace_cell (cell 1 r)]> r in
  let r2 := <[1%nat := coerce_cell str_to_float (cell 1 r1)]> r1 in
  <[1%nat := (if isna (cell 1 r2)
              then fallback_cell missing_incomes (cell 0 r2)
              else cell 1 r2)]> r2.


(** ** Keys of the merger's inputs *)

(** The cell of the key column after name reconciliation. *)
Definition canonical_cell (mapping : gmap string string) (v : value) : value :=
  match v with
  | VStr name => VStr (canonicalize mapping name)
  | _ => v
  end.

(** The frame has one column called 'municipality'. *)
Definition has_key (df : DataFrame) : Prop :=
  exists i, col_pos df "municipality" = Ok i.

(** The municipality keys of a frame after reconciliation, row by row. *)
Definition canonical_keys (mapping : gmap string string) (df : DataFrame) : list value :=
  match col_pos df "municipality" with
  | Ok i => map (fun r => canonical_cell mapping (cell i r)) (rows df)
  | Raise _ => []
  end.

Definition prices_table : DataFrame :=
  mkDataFrame ["municipality"; "avg_price"]
    [ [VStr "Utrecht"; VInt 450000]; [VStr "Den Haag"; VInt 400000] ].

Definition surfaces_table : DataFrame :=
  mkDataFrame ["municipality"; "avg_surface"]
    [ [VStr "'s-Gravenhage"; VInt 95]; [VStr "Almere"; VInt 120] ].


(** The municipality keys of a frame as they stand, row by row. *)
Definition raw_keys (df : DataFrame) : list value :=
  match col_pos df "municipality" with
  | Ok i => map (cell i) (rows df)
  | Raise _ => []
  end.

(** The labels of a frame other than the key. *)
Definition non_key_labels (df : DataFrame) : list string :=
  List.filter (fun c => negb (String.eqb c "municipality")) (columns df).

(** The frame [apply_name_mapping] returns for a frame with a key column. *)
Definition renamed (mapping : gmap string string) (df : DataFrame) : DataFrame :=
  match col_pos df "municipality" with
  | Ok i =>
      mkDataFrame (columns df)
        (map (fun r => <[i := canonical_cell mapping (cell i r)]> r) (rows df))
  | Raise _ => df
  end.


(** ** Station aggregator *)

(** One record of the stations CSV: the columns 'municipality', 'type' and
    'traffic_count', the last one an int64 column. *)
Record station : Type := mkStation {
  st_municipality : string;
  st_type : string;
  traffic_count : Z
}.

(** int64 arithmetic wraps around. *)
Definition wrap_int64 (z : Z) : Z := (z + 2 ^ 63) mod 2 ^ 64 - 2 ^ 63.

(** The integer part of a finite float64. *)
Definition f64_trunc (f : float64) : option Z :=
  match f with
  | S754_zero _ => Some 0
  | S754_finite s m e =>
      Some (cond_Zopp s (if 0 <=? e then Z.pos m * 2 ^ e else Z.pos m / 2 ^ (- e)))
  | S754_infinity _ | S754_nan => None
  end.

(** [astype(int)] on one cell.  pandas refuses NaN and the infinities; a
    finite float outside the int64 range converts to the smallest int64
    (x86-64).  The converted columns hold no text. *)
Definition astype_int (v : value) : result value :=
  match v with
  | VInt z => Ok (VInt z)
  | VFloat f =>
      match f64_trunc f with
      | Some z =>
          Ok (VInt (if (- 2 ^ 63 <=? z) && (z <? 2 ^ 63) then z else - 2 ^ 63))
      | None => Raise ValueError
      end
  | VStr _ => Raise ValueError
  end.

(** ['_count' in col] *)
Fixpoint has_substring (p s : string) : bool :=
  String.prefix p s
  || match s with
     | EmptyString => false
     | String _ s' => has_substring p s'
     end.

Definition str_le (a b : string) : Prop := String.leb a b = true.

#[global] Instance str_le_dec : RelDecision str_le.
Proof. intros a b. unfold str_le. apply _. Defined.

(** The group keys of a [groupby]: the distinct values, sorted. *)
Definition group_keys (l : list string) : list string :=
  merge_sort str_le (remove_dups l).

(** [df.drop_duplicates()] keeps the first of equal rows. *)
Fixpoint drop_duplicates_from {A} `{EqDecision A} (seen l : list A) : list A :=
  match l with
  | [] => []
  | x :: l' =>
      if bool_decide (x ∈ seen) then drop_duplicates_from seen l'
      else x :: drop_duplicates_from (x :: seen) l'
  end.

Definition drop_duplicates (df : DataFrame) : DataFrame :=
  mkDataFrame (columns df) (drop_duplicates_from [] (rows df)).

(** The records of one municipality, and those of one type among them. *)
Definition stations_in (m : string) (station_df : list station) : list station :=
  List.filter (fun s => String.eqb (st_municipality s) m) station_df.

Definition stations_of_type (t : string) (l : list station) : list station :=
  List.filter (fun s => String.eqb (st_type s) t) l.

Definition size (l : list station) : Z := Z.of_nat (length l).

Definition traffic (l : list station) : Z :=
  fold_right Z.add 0 (map traffic_count l).

(** [station_df.groupby('municipality').size().reset_index(name='station_count')] *)
Definition station_count_frame (station_df : list station) : DataFrame :=
  mkDataFrame ["municipality"; "station_count"]
    (map (fun m => [VStr m; VInt (size (stations_in m station_df))])
         (group_keys (map st_municipality station_df))).

(** [station_df.groupby(['municipality', 'type']).size().unstack(fill_value=0)
    .reset_index()] with the type columns renamed to [f'{col}_count'].
    [reset_index] cannot insert the index as 'municipality' when a type
    has that very name. *)
Definition station_type_count_frame (station_df : list station) : result DataFrame :=
  let types := group_keys (map st_type station_df) in
  if existsb (String.eqb "municipality") types then Raise ValueError
  else
    Ok (mkDataFrame ("municipality" :: map (fun t => String.append t "_count") types)
          (map (fun m =>
                  VStr m ::
                  map (fun t => VInt (size (stations_of_type t (stations_in m station_df))))
                      types)
               (group_keys (map st_municipality station_df)))).

(** [station_df.groupby('municipality')['traffic_count'].sum()
    .reset_index(name='total_traffic')] *)
Definition traffic_sum_frame (station_df : list station) : DataFrame :=
  mkDataFrame ["municipality"; "total_traffic"]
    (map (fun m => [VStr m; VInt (wrap_int64 (traffic (stations_in m station_df)))])
         (group_keys (map st_municipality station_df))).

(** [df.fillna(0)] : a missing cell of an object column becomes the
    integer 0, one of a float64 column the float 0.0. *)
Definition is_text (v : value) : bool :=
  match v with
  | VStr _ => true
  | _ => false
  end.

Definition fillna_zero (df : DataFrame) : DataFrame :=
  mkDataFrame (columns df)
    (map (fun r =>
            imap (fun j v =>
                    if isna v
                    then (if existsb (fun r' => is_text (cell j r')) (rows df)
                          then VInt 0 else VFloat f64_zero)
                    else v) r)
         (rows df)).

(** [df[labels] = df[labels].astype(int)] *)
Definition astype_int_columns (df : DataFrame) (labels : list string) : result DataFrame :=
  _ ← mapM (label_positions df) labels;
  rs ← mapM (fun r =>
               mapM (fun cv =>
                       if existsb (String.eqb (fst cv)) labels
                       then astype_int (snd cv) else Ok (snd cv))
                    (zip (columns df) r))
            (rows df);
  Ok (mkDataFrame (columns df) rs).

(** Modelled from the spec: [apply_name_mapping] of src/utils.py on the
    stations table, whose 'municipality' column is reconciled like the key
    of every other table (section 4.4, step 2). *)
Definition apply_name_mapping_stations (station_df : list station)
    (mapping : gmap string string) : list station :=
  map (fun s => mkStation (canonicalize mapping (st_municipality s))
                          (st_type s) (traffic_count s)) station_df.

(** [station_df] is the table [pd.read_csv(stations_path)] returns. *)
Definition count_stations_per_municipality (municipality_name_mapping : gmap string string)
    (station_df : list station) (municipalities_df : DataFrame) : result DataFrame :=
  let station_df := apply_name_mapping_stations station_df municipality_name_mapping in
  municipalities_df ←
    apply_name_mapping municipalities_df "municipality" municipality_name_mapping;
  municipalities_df ← select municipalities_df ["municipality"];
  let municipalities_df := reset_index (drop_duplicates municipalities_df) in
  let station_count := station_count_frame station_df in
  station_type_count ← station_type_count_frame station_df;
  let traffic_sum := traffic_sum_frame station_df in
  merged_df ← merge municipalities_df station_count "municipality" left;
  merged_df ← merge merged_df station_type_count "municipality" left;
  merged_df ← merge merged_df traffic_sum "municipality" left;
  let merged_df := fillna_zero merged_df in
  let count_columns :=
    List.filter (has_substring "_count") (columns merged_df) ++ ["total_traffic"] in
  astype_int_columns merged_df count_columns.

(** The spec's scenario: three records of one municipality, of types A, A
    and B, with traffic counts 10, 20 and 5. *)
Definition scenario_stations : list station :=
  [ mkStation "Utrecht" "A" 10; mkStation "Utrecht" "A" 20; mkStation "Utrecht" "B" 5 ].

Definition scenario_municipalities : DataFrame :=
  mkDataFrame ["municipality"] [ [VStr "Utrecht"]; [VStr "Almere"]; [VStr "Utrecht"] ].


(** *** The shape of the aggregator's frames *)

(** A frame keyed by municipality whose other cells are a function of the
    key. *)
Definition keyed_frame (cols : list string) (data : value -> list value)
    (ks : list value) : DataFrame :=
  mkDataFrame ("municipality" :: cols) (map (fun k => k :: data k) ks).

(** The cells a left merge appends to the row of key [k]: those of the
    right frame when it has the key, missing values otherwise; int64
    columns that receive a missing value become float64. *)
Definition joined (ks rks : list value) (width : nat) (rdata : value -> list value)
    (k : value) : list value :=
  if bool_decide (k ∈ rks)
  then map (if existsb (fun k' => negb (bool_decide (k' ∈ rks))) ks
            then upcast else (fun v => v)) (rdata k)
  else repeat NaN width.

(** The station records of the municipality named by a key cell. *)
Definition records (stations : list station) (k : value) : list station :=
  match k with
  | VStr m => stations_in m stations
  | _ => []
  end.

(** The key cell after [fillna(0)]. *)
Definition fill_key (ks : list value) (k : value) : value :=
  if isna k
  then (if existsb is_text ks then VInt 0 else VFloat f64_zero)
  else k.

(** A cell of a numeric column after [fillna(0)]. *)
Definition fill_float (v : value) : value :=
  if isna v then VFloat f64_zero else v.

(** The row of the aggregate for one key of the reference list. *)
Definition aggregate_row (stations : list station) (types : list string)
    (reference : list value) (k : value) : list value :=
  fill_key reference k
  :: VInt (size (records stations k))
  :: map (fun t => VInt (size (stations_of_type t (records stations k)))) types
  ++ [VInt (traffic (records stations k))].

Definition aggregate_columns (types : list string) : list string :=
  "municipality" :: "station_count"
  :: map (fun t => String.append t "_count") types ++ ["total_traffic"].

Definition big_traffic_stations : list station :=
  [ mkStation "Utrecht" "A" (2 ^ 53 + 1) ].

Definition two_municipalities : DataFrame :=
  mkDataFrame ["municipality"] [ [VStr "Utrecht"]; [VStr "Almere"] ].

Definition station_typed_stations : list station :=
  [ mkStation "Utrecht" "station" 5 ].

Definition one_municipality : DataFrame :=
  mkDataFrame ["municipality"] [ [VStr "Utrecht"] ].


Definition municipality_typed_stations : list station :=
  [ mkStation "Utrecht" "municipality" 5 ].


(** ** The price and surface cleaners, row by row *)

(** What the price cleaner makes of one row of the four-column file: the
    name and the coerced price, and no row when the price is missing. *)
Definition price_row (str_to_float : string -> float64) (r : list value) : option (list value) :=
  let avg_price := coerce_cell str_to_float (cell 3 r) in
  if isna avg_price then None else Some [cell 0 r; avg_price].

(** A row without a missing cell: the rows [dropna()] keeps. *)
Definition complete (r : list value) : bool := forallb (fun v => negb (isna v)) r.

(** The cells of a row the surface cleaner selects, and its last
    assignment to the selected row. *)
Definition surface_cells (i j : nat) (r : list value) : list value := [cell i r; cell j r].

Definition surface_row (str_to_float : string -> float64) (r : list value) : list value :=
  [cell 0 r; coerce_cell str_to_float (cell 1 r)].

(** A raw surface file with two header rows left after [skiprows]. *)
Definition wide_surface_csv : DataFrame :=
  mkDataFrame ["Unnamed: 0"; "Totaal"; "Totaal.1"]
    [ [VStr "Onderwerp"; NaN; VStr "m2"];
      [VStr "Perioden"; VStr "2023"; VStr "2023"];
      [VStr "Almere"; VStr "118"; VStr "118"];
      [VStr "Bron: CBS"; NaN; NaN];
      [VStr "Ameland"; VStr "."; VStr "."] ].

Definition price_csv : DataFrame :=
  mkDataFrame ["Regio's"; "Onderwerp"; "Unnamed: 2"; "2023"]
    [ [VStr "Utrecht"; VStr "Gemiddelde verkoopprijs"; VStr "euro"; VStr "450000"];
      [VStr "Ameland"; VStr "Gemiddelde verkoopprijs"; VStr "euro"; VStr "."];
      [VStr "Almere"; VStr "Gemiddelde verkoopprijs"; VStr "euro"; VStr "300000"] ].

(** A surface file without the column of the totals. *)
Definition narrow_surface_csv : DataFrame :=
  mkDataFrame ["Unnamed: 0"; "Totaal"]
    [ [VStr "Onderwerp"; VStr "m2"]; [VStr "Almere"; VStr "118"] ].

(** *** The regular-expression replacements of the municipality cleaner *)

(** [re.sub(p, '', s)] for a literal pattern [p]: its occurrences are
    removed from left to right; [skip] counts the bytes still to drop of
    the occurrence being removed. *)
Fixpoint remove_all_from (skip : nat) (p s : string) : string :=
  match s with
  | EmptyString => EmptyString
  | String c s' =>
      match skip with
      | S k => remove_all_from k p s'
      | O =>
          if String.prefix p s then remove_all_from (String.length p - 1) p s'
          else String c (remove_all_from 0 p s')
      end
  end.

Definition remove_all (p s : string) : string := remove_all_from 0 p s.

(** [re.search(r'\s+', s)] *)
Fixpoint has_space (s : string) : bool :=
  match s with
  | EmptyString => false
  | String _ s' => negb (Nat.eqb (space_prefix s) 0) || has_space s'
  end.

(** [s.replace({',': '', ' km²': '', ' aantal': '', r'\s+': ''}, regex=True)]
    on one text.  pandas searches every pattern in the original text, and
    then substitutes, in the order of the dict, the patterns it found
    there. *)
Definition strip_units (t : string) : string :=
  let t1 := if has_substring "," t then remove_all "," t else t in
  let t2 := if has_substring " km²" t then remove_all " km²" t1 else t1 in
  let t3 := if has_substring " aantal" t then remove_all " aantal" t2 else t2 in
  if has_space t then remove_spaces t3 else t3.

Definition units_cell (v : value) : value :=
  match v with
  | VStr t => VStr (strip_units t)
  | _ => v
  end.

Definition replace_units (s : Series) : Series := map units_cell s.

(** The loop [for col in data.columns[1:]: data[col] = data[col].replace(...)]
    of the municipality cleaner. *)
Fixpoint replace_units_in_columns (data : DataFrame) (cols : list string) : result DataFrame :=
  match cols with
  | [] => Ok data
  | col :: cols' =>
      s ← getitem data col;
      data ← setitem data col (replace_units s);
      replace_units_in_columns data cols'
  end.

Definition clean_municipality_data (str_to_float : string -> float64)
    (data : DataFrame) : result DataFrame :=
  data ← set_columns data ["municipality"; "year"; "population"; "pop_density"; "size"];
  data ← drop_columns data ["year"];
  data ← replace_units_in_columns data (tail (columns data));
  population ← getitem data "population";
  data ← setitem data "population" (to_numeric str_to_float population);
  pop_density ← getitem data "pop_density";
  data ← setitem data "pop_density" (to_numeric str_to_float pop_density);
  mun_size ← getitem data "size";
  data ← setitem data "size" (to_numeric str_to_float mun_size);
  data ← dropna_subset data ["population"; "pop_density"; "size"];
  Ok (reset_index data).

(** What the municipality cleaner makes of one row of the five-column
    file: the name and the three coerced measures, and no row when one of
    them is missing. *)
Definition municipality_row (str_to_float : string -> float64) (r : list value)
    : option (list value) :=
  let population := coerce_cell str_to_float (units_cell (cell 2 r)) in
  let pop_density := coerce_cell str_to_float (units_cell (cell 3 r)) in
  let mun_size := coerce_cell str_to_float (units_cell (cell 4 r)) in
  if isna population || isna pop_density || isna mun_size then None
  else Some [cell 0 r; population; pop_density; mun_size].

(** The column assignments of the municipality cleaner on one row of the
    frame without the year. *)
Definition municipality_steps (str_to_float : string -> float64) (r : list value) : list value :=
  let r1 := <[1%nat := units_cell (cell 1 r)]> r in
  let r2 := <[2%nat := units_cell (cell 2 r1)]> r1 in
  let r3 := <[3%nat := units_cell (cell 3 r2)]> r2 in
  let r4 := <[1%nat := coerce_cell str_to_float (cell 1 r3)]> r3 in
  let r5 := <[2%nat := coerce_cell str_to_float (cell 2 r4)]> r4 in
  <[3%nat := coerce_cell str_to_float (cell 3 r5)]> r5.

Definition municipality_csv : DataFrame :=
  mkDataFrame ["Regio's"; "Perioden"; "Bevolking"; "Dichtheid"; "Oppervlakte"]
    [ [VStr "Utrecht"; VStr "2023"; VStr "361 699 aantal"; VStr "3 846"; VStr "99,21 km²"];
      [VStr "Ameland"; VStr "2023"; VStr "."; VStr "64"; VStr "268 km²"];
      [VStr "Almere"; VStr "2023"; VStr "222 825 aantal"; VStr "1 719"; VStr "248,77 km²"] ].

(** The ASCII white-space characters: tab to carriage return, the four
    separators and the space. *)
Definition is_ascii_space (c : ascii) : bool :=
  let b := byte_code c in
  (Nat.leb 9 b && Nat.leb b 13) || (Nat.leb 28 b && Nat.leb b 32).

(** A byte of a cleaned number text: neither a comma nor ASCII white space. *)
Definition no_separator (c : ascii) : Prop :=
  byte_code c <> 44%nat /\ is_ascii_space c = false.

(** ** The distance column of the geometry processor *)

(** The haversine term [a] on the reals, from the angles in radians. *)
Definition haversine_a (phi1 phi2 delta_lambda : R) : R :=
  (sin ((phi2 - phi1) / 2) ^ 2 + cos phi1 * cos phi2 * sin (delta_lambda / 2) ^ 2)%R.

(** The great-circle distance on the reals, from the haversine term. *)
Definition great_circle (lat1 lon1 lat2 lon2 : R) : R :=
  let a := haversine_a (lat1 * (PI / 180)) (lat2 * (PI / 180))
             ((lon2 - lon1) * (PI / 180)) in
  (6371 * (2 * R_atan2 (sqrt a) (sqrt (1 - a))))%R.

Definition den_haag_feature : feature (list (R * R)) := mkFeature "Den Haag" tall_triangle.

(** ** Keys of the merged table *)

(** Whether every frame of a list has the key [k] after reconciliation. *)
Definition in_all (mapping : gmap string string) (datasets : list DataFrame)
    (k : value) : bool :=
  forallb (fun d => bool_decide (k ∈ canonical_keys mapping d)) datasets.

(** A price table in which a municipality occurs twice. *)
Definition repeated_prices_table : DataFrame :=
  mkDataFrame ["municipality"; "avg_price"]
    [ [VStr "Utrecht"; VInt 450000]; [VStr "Almere"; VInt 300000];
      [VStr "Den Haag"; VInt 400000]; [VStr "Almere"; VInt 310000] ].

Definition incomes_table : DataFrame :=
  mkDataFrame ["avg_income"; "municipality"]
    [ [VInt 41; VStr "Almere"]; [VInt 45; VStr "Den Haag"]; [VInt 39; VStr "Ameland"] ].

(** ** Frames the price computation refuses *)




(** A merged table with a missing price and a missing surface. *)
Definition gapped_data : DataFrame :=
  mkDataFrame ["municipality"; "avg_price"; "avg_surface"]
    [ [VStr "Utrecht"; NaN; VInt 100];
      [VStr "Almere"; VInt 300000; NaN];
      [VStr "Ameland"; VInt 300000; VInt 120] ].

(** ** Totals over the aggregate *)

Definition total (zs : list Z) : Z := fold_right Z.add 0 zs.

(** Station records of three municipalities, one of them outside the
    reference list of the scenario. *)
Definition regional_stations : list station :=
  [ mkStation "Utrecht" "A" 10; mkStation "Den Haag" "B" 7;
    mkStation "Zwolle" "A" 3; mkStation "Utrecht" "B" 5 ].

Definition regional_municipalities : DataFrame :=
  mkDataFrame ["municipality"]
    [ [VStr "Utrecht"]; [VStr "'s-Gravenhage"]; [VStr "Almere"]; [VStr "Den Haag"] ].

(** ** Multiplicity of a key *)

(** How often the key [k] occurs in a key column. *)
Definition occurrences (k : value) (ks : list value) : nat :=
  length (List.filter (fun x => bool_decide (x = k)) ks).

(** The product of the multiplicities of [k] in the reconciled key columns
    of the tables. *)
Definition multiplicity (mapping : gmap string string) (datasets : list DataFrame)
    (k : value) : nat :=
  fold_right Nat.mul 1%nat (map (fun d => occurrences k (canonical_keys mapping d)) datasets).

(** A surface table in which a municipality occurs twice. *)
Definition repeated_surfaces_table : DataFrame :=
  mkDataFrame ["municipality"; "avg_surface"]
    [ [VStr "Almere"; VInt 120]; [VStr "Utrecht"; VInt 100]; [VStr "Almere"; VInt 125] ].

(** ** The pipeline of the entry point *)

(** [pd.DataFrame(list_data)] for the records the geometry processor
    collects; without a record the frame has no column. *)
Definition records_frame (list_data : list (string * float64)) : DataFrame :=
  match list_data with
  | [] => mkDataFrame [] []
  | _ =>
      mkDataFrame ["municipality"; "schiphol_distance"]
        (map (fun row => [VStr (fst row); VFloat (snd row)]) list_data)
  end.

(** The block under [if __name__ == '__main__'], up to the frame it writes
    to the output file.  The arguments are the frames and records read
    from the six input files; the float operations of Python are those of
    the [PyFloat] instance on binary64. *)
Definition main `{PyFloat float64} (lib : GeoLib float64)
    (str_to_float : string -> float64)
    (municipality_name_mapping : gmap string string)
    (missing_incomes : gmap string float64)
    (prices surface mun_size incomes : DataFrame)
    (geojson_features : list (feature (geojson_geometry lib)))
    (stations : list station) : result DataFrame :=
  data_prices ← clean_price_data str_to_float prices;
  data_surface ← clean_surface_data str_to_float surface;
  data_mun_size ← clean_municipality_data str_to_float mun_size;
  data_incomes ← clean_income_data str_to_float missing_incomes incomes;
  data_schiphol ← load_and_process_geojson lib municipality_name_mapping geojson_features;
  reference ← select data_prices ["municipality"];
  data_stations_count ←
    count_stations_per_municipality municipality_name_mapping stations reference;
  final_data ←
    merge_datasets municipality_name_mapping
      [data_prices; data_surface; data_mun_size; data_incomes;
       records_frame data_schiphol; data_stations_count];
  process_merged_data final_data.

(** An arithmetic that answers NaN everywhere, and a library whose
    geometries are lists of points, for runs of the pipeline in which the
    value of the distance plays no part. *)
Definition nan_arithmetic : PyFloat float64 := {|
  float_lit := fun _ => f64_nan;
  fadd := fun _ _ => f64_nan;
  fsub := fun _ _ => f64_nan;
  fmul := fun _ _ => f64_nan;
  fdiv := fun _ _ => f64_nan;
  fpow := fun _ _ => f64_nan;
  math_radians := fun _ => f64_nan;
  math_sin := fun _ => f64_nan;
  math_cos := fun _ => f64_nan;
  math_atan2 := fun _ _ => f64_nan;
  math_sqrt := fun _ => Ok f64_nan
|}.

Definition point_lib : GeoLib float64 :=
  mkGeoLib float64 (list (float64 * float64)) (list (float64 * float64))
    Ok (fun ps => firstn 1 ps) (fun x y => Ok (x, y)) (fun x y => Ok (x, y))
    (fun f ps => mapM (fun p => f (fst p) (snd p)) ps).

Definition utrecht_point : feature (list (float64 * float64)) :=
  mkFeature "Utrecht" [(f64_of_Z 5, f64_of_Z 52)].

Definition pointless_feature : feature (list (float64 * float64)) :=
  mkFeature "Almere" [].

Definition utrecht_prices_csv : DataFrame :=
  mkDataFrame ["Regio's"; "Onderwerp"; "Unnamed: 2"; "2023"]
    [ [VStr "Utrecht"; VStr "Gemiddelde verkoopprijs"; VStr "euro"; VStr "450000"];
      [VStr "Ameland"; VStr "Gemiddelde verkoopprijs"; VStr "euro"; VStr "."] ].

Definition utrecht_surface_csv : DataFrame :=
  mkDataFrame ["Unnamed: 0"; "Totaal.1"]
    [ [VStr "Onderwerp"; VStr "m2"]; [VStr "Utrecht"; VStr "100"] ].

Definition utrecht_mun_size_csv : DataFrame :=
  mkDataFrame ["Regio's"; "Perioden"; "Bevolking"; "Dichtheid"; "Oppervlakte"]
    [ [VStr "Utrecht"; VStr "2023"; VStr "361 699 aantal"; VStr "3 846"; VStr "99 km²"] ].

Definition utrecht_incomes_csv : DataFrame :=
  mkDataFrame ["Regio's"; "Gemiddeld inkomen"] [ [VStr "Utrecht"; VStr "45"] ].

(** The table the pipeline builds from the Utrecht files. *)
Definition utrecht_final_data : DataFrame :=
  mkDataFrame
    ["municipality"; "avg_price"; "avg_surface"; "population"; "pop_density"; "size";
     "avg_income"; "schiphol_distance"; "station_count"; "A_count"; "B_count";
     "total_traffic"; "m2_price"]
    [ [VStr "Utrecht"; VFloat (f64_of_Z 450000); VFloat (f64_of_Z 100);
       VFloat (f64_of_Z 361699); VFloat (f64_of_Z 3846); VFloat (f64_of_Z 99);
       VFloat (f64_of_Z 45); NaN; VInt 3; VInt 2; VInt 1; VInt 35;
       VFloat (f64_of_Z 4500)] ].

(** * Theorems *)

(** ** Fallible computations *)

Lemma bind_Ok {A B} (r : result A) (k : A -> result B) (b : B) :
  r ≫= k = Ok b -> exists a, r = Ok a /\ k a = Ok b.
Proof. destruct r as [a|e]; [eauto | discriminate]. Qed.

Lemma mapM_Ok_total {A B} (f : A -> result B) (g : A -> B) (l : list A) :
  (forall a, a ∈ l -> f a = Ok (g a)) -> mapM f l = Ok (map g l).
Proof.
  induction l as [|a l IH]; intros Hf; [reflexivity|].
  cbn [mapM map]. rewrite (Hf a) by left. cbn.
  rewrite IH; [reflexivity|]. intros b Hb. apply Hf. by right.
Qed.

Lemma mapM_Raise {A B} (f : A -> result B) (l : list A) (a : A) :
  a ∈ l -> raises (f a) -> raises (mapM f l).
Proof.
  intros Hin [e He]. induction Hin as [a l|a b l Hin IH].
  - exists e. cbn [mapM]. by rewrite He.
  - cbn [mapM]. destruct (f b) as [y|e1]; [|eexists; reflexivity].
    destruct (IH He) as [e2 E]. rewrite E. eexists; reflexivity.
Qed.

(** ** Columns and their positions *)

Lemma positions_from_app k label c1 c2 :
  positions_from k label (c1 ++ c2) =
  positions_from k label c1 ++ positions_from (k + length c1) label c2.
Proof.
  revert k. induction c1 as [|c c1 IH]; intros k; cbn [positions_from app length].
  - by rewrite Nat.add_0_r.
  - rewrite IH, <- Nat.add_succ_comm. by destruct (String.eqb c label).
Qed.

Lemma positions_from_elem k label cols i :
  i ∈ positions_from k label cols ->
  (k <= i < k + length cols)%nat /\ cols !! (i - k)%nat = Some label.
Proof.
  revert k. induction cols as [|c cols IH]; intros k; cbn [positions_from length].
  - intros H. by apply elem_of_nil in H.
  - intros H.
    assert (Hrec : i ∈ positions_from (S k) label cols ->
              (k <= i < k + S (length cols))%nat /\ (c :: cols) !! (i - k)%nat = Some label).
    { intros H'. apply IH in H' as [Hlt Hl]. split; [lia|].
      replace (i - k)%nat with (S (i - S k)) by lia. exact Hl. }
    destruct (String.eqb_spec c label) as [->|Hne]; [|by apply Hrec].
    apply elem_of_cons in H as [->|H]; [|by apply Hrec].
    split; [lia|]. by rewrite Nat.sub_diag.
Qed.

Lemma positions_from_absent k label cols :
  label ∉ cols -> positions_from k label cols = [].
Proof.
  revert k. induction cols as [|c cols IH]; intros k Hnin; [reflexivity|].
  cbn [positions_from]. apply not_elem_of_cons in Hnin as [Hne Hnin].
  destruct (String.eqb_spec c label) as [->|_]; [done|]. by apply IH.
Qed.

Lemma positions_from_present k label cols :
  label ∈ cols -> positions_from k label cols <> [].
Proof.
  revert k. induction cols as [|c cols IH]; intros k Hin.
  - by apply elem_of_nil in Hin.
  - cbn [positions_from]. destruct (String.eqb_spec c label) as [->|Hne]; [done|].
    apply elem_of_cons in Hin as [->|Hin]; [done|]. by apply IH.
Qed.

Lemma positions_from_NoDup k label cols :
  NoDup cols ->
  positions_from k label cols = [] \/ exists i, positions_from k label cols = [i].
Proof.
  intros Hnd. revert k. induction Hnd as [|c cols Hnin Hnd IH]; intros k; [by left|].
  cbn [positions_from]. destruct (String.eqb_spec c label) as [->|_]; [|apply IH].
  right. exists k. by rewrite positions_from_absent.
Qed.

Lemma col_pos_Ok df label i :
  col_pos df label = Ok i ->
  positions label (columns df) = [i] /\ (i < length (columns df))%nat.
Proof.
  unfold col_pos. destruct (positions label (columns df)) as [|j [|? ?]] eqn:E; try discriminate.
  intros [= ->]. split; [done|].
  assert (Hin : i ∈ positions_from 0 label (columns df)) by (unfold positions in E; rewrite E; by left).
  apply positions_from_elem in Hin. lia.
Qed.

Lemma col_pos_ne df l1 l2 i j :
  col_pos df l1 = Ok i -> col_pos df l2 = Ok j -> l1 <> l2 -> i <> j.
Proof.
  intros H1 H2 Hne ->.
  apply col_pos_Ok in H1 as [H1 _]. apply col_pos_Ok in H2 as [H2 _].
  assert (E1 : j ∈ positions_from 0 l1 (columns df)) by (unfold positions in H1; rewrite H1; by left).
  assert (E2 : j ∈ positions_from 0 l2 (columns df)) by (unfold positions in H2; rewrite H2; by left).
  apply positions_from_elem in E1 as [_ E1]. apply positions_from_elem in E2 as [_ E2].
  congruence.
Qed.


Lemma col_pos_NoDup df label :
  NoDup (columns df) -> label ∈ columns df -> exists i, col_pos df label = Ok i.
Proof.
  intros Hnd Hin. unfold col_pos, positions.
  destruct (positions_from_NoDup 0 label _ Hnd) as [E|[i E]].
  - by apply (positions_from_present 0) in Hin.
  - exists i. by rewrite E.
Qed.

Lemma getitem_length df label s :
  getitem df label = Ok s -> length s = length (rows df).
Proof.
  unfold getitem. intros H. apply bind_Ok in H as (i & _ & [= <-]). apply length_map.
Qed.

(** ** Assignment of a column *)

Lemma map_zip_with_rows {A B C D} (f : A -> B -> C) (g : C -> D) (h : A -> B -> D)
    (l : list A) (s : list B) :
  (forall a b, a ∈ l -> g (f a b) = h a b) ->
  map g (zip_with f l s) = zip_with h l s.
Proof.
  revert s. induction l as [|a l IH]; intros s Hg; [reflexivity|].
  destruct s as [|b s]; [reflexivity|]. cbn [zip_with map].
  rewrite Hg by left. f_equal. apply IH. intros a' b' Hin. apply Hg. by right.
Qed.

Lemma zip_with_fst_eq {A B} (l : list A) (s : list B) :
  length s = length l -> zip_with (fun a _ => a) l s = l.
Proof.
  revert s. induction l as [|a l IH]; intros [|b s] Hlen; try discriminate; [reflexivity|].
  cbn [zip_with]. f_equal. apply IH. by injection Hlen.
Qed.

Lemma zip_with_snd_eq {A B} (l : list A) (s : list B) :
  length s = length l -> zip_with (fun _ b => b) l s = s.
Proof.
  revert s. induction l as [|a l IH]; intros [|b s] Hlen; try discriminate; [reflexivity|].
  cbn [zip_with]. f_equal. apply IH. by injection Hlen.
Qed.

Lemma Forall_zip_with_rows {A B C} (f : A -> B -> C) (P : C -> Prop) (l : list A) (s : list B) :
  (forall a b, a ∈ l -> P (f a b)) -> Forall P (zip_with f l s).
Proof.
  revert s. induction l as [|a l IH]; intros s HP; [constructor|].
  destruct s as [|b s]; [constructor|]. cbn [zip_with]. constructor.
  - apply HP. by left.
  - apply IH. intros a' b' Hin. apply HP. by right.
Qed.

Lemma cell_app_l i (r : list value) (v : value) :
  (i < length r)%nat -> cell i (r ++ [v]) = cell i r.
Proof. intros H. unfold cell. by rewrite app_nth1. Qed.

Lemma cell_app_last (r : list value) (v : value) n :
  length r = n -> cell n (r ++ [v]) = v.
Proof. intros <-. unfold cell. rewrite app_nth2 by lia. by rewrite Nat.sub_diag. Qed.

Lemma cell_insert_eq i (r : list value) (v : value) :
  (i < length r)%nat -> cell i (<[i:=v]> r) = v.
Proof.
  intros H. unfold cell. apply nth_lookup_Some with (d := NaN).
  by apply list_lookup_insert_eq.
Qed.

Lemma cell_insert_ne i j (r : list value) (v : value) :
  i <> j -> cell j (<[i:=v]> r) = cell j r.
Proof.
  intros H. unfold cell. rewrite !nth_lookup. by rewrite list_lookup_insert_ne.
Qed.

(** Assigning a column of a rectangular frame with distinct labels sets
    that column and no other. *)
Lemma setitem_spec df label s :
  rectangular df -> NoDup (columns df) -> length s = length (rows df) ->
  exists out,
    setitem df label s = Ok out /\
    rectangular out /\
    NoDup (columns out) /\
    length (rows out) = length (rows df) /\
    getitem out label = Ok s /\
    (forall l', l' <> label -> getitem out l' = getitem df l') /\
    columns out =
      (if bool_decide (label ∈ columns df) then columns df else columns df ++ [label]).
Proof.
  intros Hrect Hnd Hlen. unfold setitem.
  rewrite Hlen, Nat.eqb_refl. cbn [negb].
  unfold rectangular in Hrect. rewrite Forall_forall in Hrect.
  destruct (positions_from_NoDup 0 label _ Hnd) as [E|[i E]];
    unfold positions; rewrite E.
  - assert (Hnin : label ∉ columns df).
    { intros Hin. by apply (positions_from_present 0) in Hin. }
    eexists. split; [reflexivity|]. cbn [columns rows].
    repeat split.
    + unfold rectangular. cbn [columns rows]. apply Forall_zip_with_rows.
      intros r v Hr. rewrite !length_app. cbn. by rewrite (Hrect r).
    + apply NoDup_app. repeat split; [done| |apply NoDup_singleton].
      intros x Hx Hx'. apply list_elem_of_singleton in Hx'. by subst.
    + rewrite length_zip_with. lia.
    + unfold getitem, col_pos, positions. cbn [columns rows].
      rewrite positions_from_app, E. cbn [positions_from app].
      rewrite String.eqb_refl. cbn.
      rewrite (map_zip_with_rows _ _ (fun _ v => v)).
      * by rewrite zip_with_snd_eq.
      * intros r v Hr. apply cell_app_last. by apply Hrect.
    + intros l' Hne. unfold getitem, col_pos, positions. cbn [columns rows].
      rewrite positions_from_app. cbn [positions_from].
      destruct (String.eqb_spec label l') as [->|_]; [done|]. rewrite app_nil_r.
      destruct (positions_from 0 l' (columns df)) as [|j [|? ?]] eqn:Ej; try reflexivity.
      cbn. f_equal.
      rewrite (map_zip_with_rows _ _ (fun r _ => cell j r)).
      * rewrite <- (zip_with_fst_eq (rows df) s) at 2 by done.
        symmetry. apply (map_zip_with_rows (fun r _ => r)). done.
      * intros r v Hr. apply cell_app_l. rewrite (Hrect r) by done.
        assert (Hj : j ∈ positions_from 0 l' (columns df)) by (rewrite Ej; by left).
        apply positions_from_elem in Hj. lia.
    + by rewrite bool_decide_eq_false_2.
  - assert (Hin : label ∈ columns df).
    { assert (Hi : i ∈ positions_from 0 label (columns df)) by (rewrite E; by left).
      apply positions_from_elem in Hi as [_ Hi]. by apply list_elem_of_lookup_2 in Hi. }
    assert (Hi : (i < length (columns df))%nat).
    { assert (Hi : i ∈ positions_from 0 label (columns df)) by (rewrite E; by left).
      apply positions_from_elem in Hi. lia. }
    eexists. split; [reflexivity|]. cbn [columns rows foldr].
    repeat split.
    + unfold rectangular. cbn [columns rows]. apply Forall_zip_with_rows.
      intros r v Hr. rewrite length_insert. by apply Hrect.
    + done.
    + rewrite length_zip_with. lia.
    + unfold getitem, col_pos, positions. cbn [columns rows]. rewrite E. cbn.
      rewrite (map_zip_with_rows _ _ (fun _ v => v)).
      * by rewrite zip_with_snd_eq.
      * intros r v Hr. apply cell_insert_eq. by rewrite (Hrect r).
    + intros l' Hne. unfold getitem. cbn [columns rows].
      destruct (col_pos df l') as [j|e] eqn:Ej.
      * assert (Ej' : col_pos (mkDataFrame (columns df)
                  (zip_with (fun r v => <[i:=v]> r) (rows df) s)) l' = Ok j) by exact Ej.
        rewrite Ej'. cbn. f_equal.
        assert (Hij : i <> j).
        { apply (col_pos_ne df label l'); [|done|done].
          unfold col_pos, positions. by rewrite E. }
        rewrite (map_zip_with_rows _ _ (fun r _ => cell j r)).
        -- rewrite <- (zip_with_fst_eq (rows df) s) at 2 by done.
           symmetry. apply (map_zip_with_rows (fun r _ => r)). done.
        -- intros r v Hr. by apply cell_insert_ne.
      * assert (Ej' : col_pos (mkDataFrame (columns df)
                  (zip_with (fun r v => <[i:=v]> r) (rows df) s)) l' = Raise e) by exact Ej.
        by rewrite Ej'.
    + by rewrite bool_decide_eq_true_2.
Qed.

(** ** Name reconciliation *)

Lemma canonicalize_not_alias m name :
  m !! name = None -> canonicalize m name = name.
Proof. intros H. unfold canonicalize. by rewrite H. Qed.

(** C8: name reconciliation is idempotent.  The lookup is
    [municipality_name_mapping.get(x, x)]; the table maps alternate
    spellings to canonical names, so a canonical name is not the alternate
    spelling of another name. *)
Theorem canonicalize_idempotent (m : gmap string string) (x : string) :
  canonical_targets m ->
  canonicalize m (canonicalize m x) = canonicalize m x.
Proof.
  intros Hm. unfold canonicalize at 2 3.
  destruct (m !! x) as [c|] eqn:E.
  - unfold canonicalize. destruct (Hm x c E) as [-> | ->]; reflexivity.
  - by apply canonicalize_not_alias.
Qed.

Lemma canonical_targets_example : canonical_targets example_mapping.
Proof.
  intros alias canonical H. left. unfold example_mapping in *.
  apply lookup_insert_Some in H as [[<- <-]|[_ H]]; [by vm_compute|].
  apply lookup_singleton_Some in H as [<- <-]. by vm_compute.
Defined.

Lemma canonicalize_idempotent_witness :
  canonical_targets example_mapping /\
  canonicalize example_mapping (canonicalize example_mapping "Den Haag")
  = canonicalize example_mapping "Den Haag".
Proof.
  split; [exact canonical_targets_example|].
  apply (canonicalize_idempotent example_mapping "Den Haag" canonical_targets_example).
Defined.

(** A table that chains two renamings is outside the domain of C8: the
    lookup is a single step. *)
Lemma canonicalize_chained :
  canonicalize chained_mapping (canonicalize chained_mapping "A") = "C"
  /\ canonicalize chained_mapping "A" = "B".
Proof. split; by vm_compute. Qed.

(** ** Price per square meter *)

Lemma f64_div_zero_not_finite (x y : float64) :
  f64_is_zero y = true -> f64_isfinite (f64_div x y) = false.
Proof. destruct y; try discriminate. intros _. by destruct x. Qed.

Lemma as_float_numeric v : numeric v -> as_float v = Ok (to_float v).
Proof. by destruct v. Qed.

Lemma series_truediv_numeric (a b : Series) :
  Forall numeric a -> Forall numeric b -> length a = length b ->
  series_truediv a b = Ok (zip_with quotient a b).
Proof.
  intros Ha. revert b. induction Ha as [|x a Hx Ha IH]; intros b Hb Hlen.
  - by destruct b.
  - destruct Hb as [|y b Hy Hb]; [discriminate|].
    cbn [series_truediv zip_with]. unfold truediv.
    rewrite (as_float_numeric x Hx), (as_float_numeric y Hy). cbn.
    rewrite IH; [reflexivity|done|]. by injection Hlen.
Qed.

(** The call succeeds on numeric price and surface columns and assigns the
    float64 quotients. *)
Lemma process_merged_data_Ok data prices surfaces :
  getitem data "avg_price" = Ok prices ->
  getitem data "avg_surface" = Ok surfaces ->
  Forall numeric prices -> Forall numeric surfaces ->
  process_merged_data data = setitem data "m2_price" (zip_with quotient prices surfaces)
  /\ length (zip_with quotient prices surfaces) = length (rows data).
Proof.
  intros Hp Hs Hnp Hns. unfold process_merged_data. rewrite Hp, Hs. cbn.
  apply getitem_length in Hp, Hs.
  rewrite series_truediv_numeric by (done || congruence). cbn.
  split; [reflexivity|]. rewrite length_zip_with. lia.
Qed.

(** C3, as the code has it: on numeric price and surface columns the call
    raises nothing, keeps every row, and sets m2_price to the IEEE-754
    quotient avg_price / avg_surface of the row; a row whose avg_surface
    is zero stays in the output with a non-finite m2_price. *)
Theorem m2_price_quotient data prices surfaces :
  rectangular data -> NoDup (columns data) ->
  getitem data "avg_price" = Ok prices ->
  getitem data "avg_surface" = Ok surfaces ->
  Forall numeric prices -> Forall numeric surfaces ->
  exists out,
    process_merged_data data = Ok out /\
    length (rows out) = length (rows data) /\
    getitem out "avg_price" = Ok prices /\
    getitem out "avg_surface" = Ok surfaces /\
    getitem out "m2_price" = Ok (zip_with quotient prices surfaces) /\
    (forall i p s, prices !! i = Some p -> surfaces !! i = Some s ->
       f64_is_zero (to_float s) = true ->
       f64_isfinite (to_float (quotient p s)) = false).
Proof.
  intros Hrect Hnd Hp Hs Hnp Hns.
  destruct (process_merged_data_Ok data prices surfaces Hp Hs Hnp Hns) as [E Hlen].
  destruct (setitem_spec data "m2_price" _ Hrect Hnd Hlen)
    as (out & Hout & _ & _ & Hrows & Hm2 & Hother & _).
  exists out. rewrite E. repeat split; try done.
  - by rewrite Hother.
  - by rewrite Hother.
  - intros i p s _ _ Hz. cbn. by apply f64_div_zero_not_finite.
Qed.

Lemma m2_price_quotient_witness :
  exists out,
    process_merged_data priced_data = Ok out /\
    length (rows out) = length (rows priced_data) /\
    getitem out "avg_price" = Ok [VInt 450000; VFloat (f64_of_Z 300000)] /\
    getitem out "avg_surface" = Ok [VInt 100; VFloat (f64_of_Z 120)] /\
    getitem out "m2_price"
    = Ok (zip_with quotient [VInt 450000; VFloat (f64_of_Z 300000)]
                            [VInt 100; VFloat (f64_of_Z 120)]) /\
    (forall i p s,
       [VInt 450000; VFloat (f64_of_Z 300000)] !! i = Some p ->
       [VInt 100; VFloat (f64_of_Z 120)] !! i = Some s ->
       f64_is_zero (to_float s) = true ->
       f64_isfinite (to_float (quotient p s)) = false).
Proof.
  apply (m2_price_quotient priced_data).
  - repeat constructor.
  - apply NoDup_ListNoDup. repeat constructor; cbn; intuition discriminate.
  - reflexivity.
  - reflexivity.
  - repeat constructor.
  - repeat constructor.
Defined.

(** C3, as stated, fails: a row with avg_surface zero is neither rejected
    nor dropped, and its m2_price is infinity. *)
Lemma m2_price_zero_surface_counterexample :
  process_merged_data zero_surface_data
  = Ok (mkDataFrame ["municipality"; "avg_price"; "avg_surface"; "m2_price"]
          [ [VStr "Utrecht"; VFloat (f64_of_Z 1); VFloat f64_zero; VFloat f64_inf] ])
  /\ ~ (forall data out surfaces,
          process_merged_data data = Ok out ->
          getitem out "avg_surface" = Ok surfaces ->
          Forall (fun s => f64_is_zero (to_float s) = false) surfaces)
  /\ ~ (forall data surfaces,
          getitem data "avg_surface" = Ok surfaces ->
          Exists (fun s => f64_is_zero (to_float s) = true) surfaces ->
          raises (process_merged_data data)).
Proof.
  assert (E : process_merged_data zero_surface_data
    = Ok (mkDataFrame ["municipality"; "avg_price"; "avg_surface"; "m2_price"]
          [ [VStr "Utrecht"; VFloat (f64_of_Z 1); VFloat f64_zero; VFloat f64_inf] ]))
    by (by vm_compute).
  split; [exact E|]. split.
  - intros H. specialize (H _ _ [VFloat f64_zero] E eq_refl).
    apply Forall_cons in H as [H _]. discriminate H.
  - intros H. destruct (H zero_surface_data [VFloat f64_zero] eq_refl) as [e He].
    + constructor. reflexivity.
    + rewrite E in He. discriminate He.
Qed.

(** C10, as the code has it: on a frame that has no m2_price column yet,
    the call appends m2_price as the one new column; every row is the input
    row with one more cell, in the input order, and every column of the
    input reads as before. *)
Theorem process_merged_data_frame data prices surfaces :
  rectangular data -> NoDup (columns data) ->
  "m2_price" ∉ columns data ->
  getitem data "avg_price" = Ok prices ->
  getitem data "avg_surface" = Ok surfaces ->
  Forall numeric prices -> Forall numeric surfaces ->
  exists out m2_price,
    process_merged_data data = Ok out /\
    columns out = columns data ++ ["m2_price"] /\
    length m2_price = length (rows data) /\
    rows out = zip_with (fun r v => r ++ [v]) (rows data) m2_price /\
    (forall label, label ∈ columns data -> getitem out label = getitem data label).
Proof.
  intros Hrect Hnd Hnew Hp Hs Hnp Hns.
  destruct (process_merged_data_Ok data prices surfaces Hp Hs Hnp Hns) as [E Hlen].
  destruct (setitem_spec data "m2_price" _ Hrect Hnd Hlen)
    as (out & Hout & _ & _ & _ & _ & Hother & _).
  exists out, (zip_with quotient prices surfaces).
  rewrite E. split; [done|].
  unfold setitem in Hout. rewrite Hlen, Nat.eqb_refl in Hout. cbn [negb] in Hout.
  unfold positions in Hout. rewrite (positions_from_absent 0 _ _ Hnew) in Hout.
  injection Hout as <-. cbn [columns rows]. repeat split; try done.
  intros label Hin. apply Hother. intros ->. done.
Qed.

Lemma process_merged_data_frame_witness :
  exists out m2_price,
    process_merged_data priced_data = Ok out /\
    columns out = columns priced_data ++ ["m2_price"] /\
    length m2_price = length (rows priced_data) /\
    rows out = zip_with (fun r v => r ++ [v]) (rows priced_data) m2_price /\
    (forall label, label ∈ columns priced_data ->
       getitem out label = getitem priced_data label).
Proof.
  apply (process_merged_data_frame priced_data
           [VInt 450000; VFloat (f64_of_Z 300000)] [VInt 100; VFloat (f64_of_Z 120)]).
  - repeat constructor.
  - apply NoDup_ListNoDup. repeat constructor; cbn; intuition discriminate.
  - cbn. rewrite !elem_of_cons, elem_of_nil. intuition discriminate.
  - reflexivity.
  - reflexivity.
  - repeat constructor.
  - repeat constructor.
Defined.

(** C10, as stated, fails on a frame that already has an m2_price column:
    no column is added and the values of that column are overwritten. *)
Lemma process_merged_data_overwrites :
  process_merged_data overwritten_data
  = Ok (mkDataFrame ["avg_price"; "avg_surface"; "m2_price"]
          [ [VInt 6; VInt 2; VFloat (f64_of_Z 3)] ])
  /\ getitem overwritten_data "m2_price" = Ok [VInt 7]
  /\ ~ (forall data out label,
          process_merged_data data = Ok out ->
          label ∈ columns data ->
          getitem out label = getitem data label).
Proof.
  assert (E : process_merged_data overwritten_data
    = Ok (mkDataFrame ["avg_price"; "avg_surface"; "m2_price"]
            [ [VInt 6; VInt 2; VFloat (f64_of_Z 3)] ])) by (by vm_compute).
  split; [exact E|]. split; [reflexivity|].
  intros H. specialize (H _ _ "m2_price" E).
  assert (Hin : "m2_price" ∈ columns overwritten_data).
  { cbn. rewrite !elem_of_cons. tauto. }
  specialize (H Hin). vm_compute in H. discriminate H.
Qed.

(** ** Source cleaners *)

Lemma getitem_at df label i :
  positions label (columns df) = [i] ->
  getitem df label = Ok (map (cell i) (rows df)).
Proof. intros H. unfold getitem, col_pos. by rewrite H. Qed.

Lemma zip_with_map_r {A B C} (f : A -> B -> C) (g : A -> B) (l : list A) :
  zip_with f l (map g l) = map (fun a => f a (g a)) l.
Proof. induction l as [|a l IH]; [reflexivity|]. cbn. by rewrite IH. Qed.

Lemma setitem_at cols rs label i (g : list value -> value) :
  positions label cols = [i] ->
  setitem (mkDataFrame cols rs) label (map g rs)
  = Ok (mkDataFrame cols (map (fun r => <[i:=g r]> r) rs)).
Proof.
  intros H. unfold setitem. cbn [columns rows].
  rewrite length_map, Nat.eqb_refl, H. cbn [negb foldr].
  by rewrite zip_with_map_r.
Qed.

Lemma zip_with_map_map {A B C D} (f : B -> C -> D) (g : A -> B) (h : A -> C) (l : list A) :
  zip_with f (map g l) (map h l) = map (fun a => f (g a) (h a)) l.
Proof. induction l as [|a l IH]; [reflexivity|]. cbn. by rewrite IH. Qed.

(** One income row through the column operations of the cleaner. *)
Lemma income_rows_filter str_to_float missing_incomes (rs : list (list value)) :
  Forall (fun r => length r = 2%nat) rs ->
  List.filter (fun r => forallb (fun i => negb (isna (cell i r))) [1%nat])
    (map (income_steps str_to_float missing_incomes) rs)
  = omap (income_row str_to_float missing_incomes) rs.
Proof.
  induction 1 as [|r rs Hr _ IH]; [reflexivity|].
  cbn [map List.filter omap]. rewrite IH.
  destruct r as [|m [|v [|? ?]]]; try discriminate Hr.
  unfold income_row, income_steps. cbn.
  destruct (isna (coerce_cell str_to_float (replace_cell v))) eqn:E1; cbn.
  - destruct (isna (fallback_cell missing_incomes m)); reflexivity.
  - rewrite E1. reflexivity.
Qed.

Lemma clean_income_data_rows str_to_float missing_incomes data :
  rectangular data -> length (columns data) = 2%nat ->
  clean_income_data str_to_float missing_incomes data
  = Ok (mkDataFrame ["municipality"; "avg_income"]
          (omap (income_row str_to_float missing_incomes) (rows data))).
Proof.
  intros Hrect Hcols. unfold clean_income_data, set_columns, reset_index.
  rewrite Hcols. cbn [length Nat.eqb mbind result_bind columns tail replace_in_columns].
  remember (rows data) as rs0 eqn:Ers.
  (* separators *)
  rewrite (getitem_at _ "avg_income" 1) by reflexivity. cbn [rows mbind result_bind].
  change (replace_separators (map (cell 1) rs0)) with (map replace_cell (map (cell 1) rs0)).
  rewrite map_map, (setitem_at _ _ _ 1) by reflexivity. cbn [mbind result_bind].
  remember (map (fun r => <[1%nat:=replace_cell (cell 1 r)]> r) rs0) as rs1 eqn:Ers1.
  (* coercion *)
  rewrite (getitem_at _ "avg_income" 1) by reflexivity. cbn [rows mbind result_bind].
  change (to_numeric str_to_float (map (cell 1) rs1))
    with (map (coerce_cell str_to_float) (map (cell 1) rs1)).
  rewrite map_map, (setitem_at _ _ _ 1) by reflexivity. cbn [mbind result_bind].
  remember (map (fun r => <[1%nat:=coerce_cell str_to_float (cell 1 r)]> r) rs1) as rs2 eqn:Ers2.
  (* fallback *)
  rewrite (getitem_at _ "avg_income" 1), (getitem_at _ "municipality" 0) by reflexivity.
  cbn [rows mbind result_bind].
  change (series_map missing_incomes (map (cell 0) rs2))
    with (map (fallback_cell missing_incomes) (map (cell 0) rs2)).
  unfold fillna. rewrite map_map, zip_with_map_map.
  rewrite (setitem_at _ _ _ 1) by reflexivity. cbn [mbind result_bind].
  (* drop *)
  unfold dropna_subset. cbn [mapM mbind result_bind label_positions columns rows].
  cbn [positions positions_from]. cbn. f_equal. f_equal.
  subst rs2 rs1 rs0. rewrite !map_map.
  unfold rectangular in Hrect. rewrite Hcols in Hrect.
  exact (income_rows_filter str_to_float missing_incomes (rows data) Hrect).
Qed.

(** C7: a row whose avg_income fails coercion is filled from the fallback
    table, looked up by its municipality name, and only the rows still
    missing after the fill are dropped; a missing income for "Utrecht",
    with "Utrecht" mapped to 45.2 in the table, gives the row
    ("Utrecht", 45.2). *)
Theorem income_fallback str_to_float missing_incomes data :
  rectangular data -> length (columns data) = 2%nat ->
  exists out,
    clean_income_data str_to_float missing_incomes data = Ok out /\
    columns out = ["municipality"; "avg_income"] /\
    rows out = omap (income_row str_to_float missing_incomes) (rows data) /\
    (forall v,
       missing_incomes !! "Utrecht" = Some f64_45_2 ->
       [VStr "Utrecht"; v] ∈ rows data ->
       isna (coerce_cell str_to_float (replace_cell v)) = true ->
       [VStr "Utrecht"; VFloat f64_45_2] ∈ rows out).
Proof.
  intros Hrect Hcols. eexists. split; [by apply clean_income_data_rows|].
  cbn [columns rows]. repeat split.
  intros v Htable Hin Hmissing. apply list_elem_of_omap.
  exists [VStr "Utrecht"; v]. split; [done|].
  unfold income_row. cbn [cell nth]. rewrite Hmissing.
  cbn [fallback_cell]. rewrite Htable. reflexivity.
Qed.

Lemma income_fallback_witness :
  exists out,
    clean_income_data digits_to_float utrecht_incomes income_csv = Ok out /\
    columns out = ["municipality"; "avg_income"] /\
    rows out = omap (income_row digits_to_float utrecht_incomes) (rows income_csv) /\
    (forall v,
       utrecht_incomes !! "Utrecht" = Some f64_45_2 ->
       [VStr "Utrecht"; v] ∈ rows income_csv ->
       isna (coerce_cell digits_to_float (replace_cell v)) = true ->
       [VStr "Utrecht"; VFloat f64_45_2] ∈ rows out).
Proof.
  apply (income_fallback digits_to_float utrecht_incomes income_csv).
  - repeat constructor.
  - reflexivity.
Defined.

(** The cleaned table of the example file. *)
Lemma clean_income_data_example :
  clean_income_data digits_to_float utrecht_incomes income_csv
  = Ok (mkDataFrame ["municipality"; "avg_income"]
          [ [VStr "Utrecht"; VFloat f64_45_2];
            [VStr "Almere"; VFloat (f64_of_Z 41)] ]).
Proof. by vm_compute. Qed.

(** The price cleaner drops the rows whose price fails coercion: its
    output has no missing avg_price. *)
Lemma clean_price_data_no_missing str_to_float data out prices :
  clean_price_data str_to_float data = Ok out ->
  getitem out "avg_price" = Ok prices ->
  Forall (fun v => isna v = false) prices.
Proof.
  intros H Hprices. revert H. unfold clean_price_data, set_columns.
  destruct (Nat.eqb _ _); [|discriminate].
  cbn [mbind result_bind].
  assert (Hdrop : forall rs,
    drop_columns (mkDataFrame ["municipality"; "Subject"; "Currency"; "avg_price"] rs)
      ["Subject"; "Currency"]
    = Ok (mkDataFrame ["municipality"; "avg_price"]
            (map (remove_positions_from 0 [1%nat; 2%nat]) rs))) by reflexivity.
  rewrite Hdrop. cbn [mbind result_bind].
  rewrite (getitem_at _ "avg_price" 1) by reflexivity. cbn [rows mbind result_bind].
  change (to_numeric str_to_float ?s) with (map (coerce_cell str_to_float) s).
  rewrite map_map, (setitem_at _ _ _ 1) by reflexivity. cbn [mbind result_bind].
  assert (Hsub : forall rs,
    dropna_subset (mkDataFrame ["municipality"; "avg_price"] rs) ["avg_price"]
    = Ok (mkDataFrame ["municipality"; "avg_price"]
            (List.filter (fun r => forallb (fun i => negb (isna (cell i r))) [1%nat]) rs)))
    by reflexivity.
  rewrite Hsub. intros [= <-].
  rewrite (getitem_at _ "avg_price" 1) in Hprices by reflexivity.
  injection Hprices as <-. cbn [rows]. apply Forall_map, Forall_forall.
  intros r Hr. apply list_elem_of_In, filter_In in Hr as [_ Hr].
  cbn in Hr. rewrite andb_true_r in Hr. by apply negb_true_iff in Hr.
Qed.

(** C4 fails on the code: the surface cleaner coerces after its only
    [dropna], so a surface cell that is not the text of a number is
    returned as a missing value.  Whatever the text parser, the second row
    of a two-row file comes back with the coerced cell, and the example
    file keeps the row of "Aa en Hunze" with a missing avg_surface. *)
Theorem clean_surface_data_keeps_missing :
  (forall str_to_float (m t : string),
     clean_surface_data str_to_float
       (mkDataFrame ["Unnamed: 0"; "Totaal.1"]
          [ [VStr "Onderwerp"; VStr "m2"]; [VStr m; VStr t] ])
     = Ok (mkDataFrame ["municipality"; "avg_surface"]
             [ [VStr m; VFloat (str_to_float t)] ]))
  /\ clean_surface_data digits_to_float surface_csv
     = Ok (mkDataFrame ["municipality"; "avg_surface"]
             [ [VStr "Aa en Hunze"; NaN];
               [VStr "Almere"; VFloat (f64_of_Z 118)] ]).
Proof.
  split; [intros str_to_float m t|]; by vm_compute.
Qed.

(** ** Haversine distance *)

Lemma Q2R_one : Q2R 1 = 1%R.
Proof. unfold Q2R. cbn. lra. Qed.

Lemma R_sqrt_nonneg x : (0 <= x)%R -> R_sqrt x = Ok (sqrt x).
Proof. intros H. unfold R_sqrt. destruct (Rlt_dec x 0); [lra|reflexivity]. Qed.

Lemma sin_sqr_neg x : (sin (- x) ^ 2 = sin x ^ 2)%R.
Proof. rewrite sin_neg. ring. Qed.

(** C9: over the real numbers the haversine distance is symmetric, and
    the distance from a point to itself is 0. *)
Theorem haversine_symmetric (lat1 lon1 lat2 lon2 : R) :
  haversine lat1 lon1 lat2 lon2 = haversine lat2 lon2 lat1 lon1
  /\ haversine lat1 lon1 lat1 lon1 = Ok 0%R.
Proof.
  split.
  - unfold haversine. cbn [float_lit fadd fsub fmul fdiv fpow math_radians math_sin
                            math_cos math_atan2 math_sqrt real_arithmetic].
    replace ((lat1 - lat2) * (PI / 180) / Q2R 2)%R
      with (- ((lat2 - lat1) * (PI / 180) / Q2R 2))%R by (unfold Rdiv; ring).
    replace ((lon1 - lon2) * (PI / 180) / Q2R 2)%R
      with (- ((lon2 - lon1) * (PI / 180) / Q2R 2))%R by (unfold Rdiv; ring).
    rewrite !sin_sqr_neg.
    rewrite (Rmult_comm (cos (lat2 * (PI / 180))) (cos (lat1 * (PI / 180)))).
    reflexivity.
  - unfold haversine. cbn [float_lit fadd fsub fmul fdiv fpow math_radians math_sin
                            math_cos math_atan2 math_sqrt real_arithmetic].
    replace ((lat1 - lat1) * (PI / 180) / Q2R 2)%R with 0%R by (unfold Rdiv; ring).
    replace ((lon1 - lon1) * (PI / 180) / Q2R 2)%R with 0%R by (unfold Rdiv; ring).
    rewrite sin_0.
    replace (0 ^ 2 + cos (lat1 * (PI / 180)) * cos (lat1 * (PI / 180)) * 0 ^ 2)%R
      with 0%R by ring.
    rewrite Q2R_one, Rminus_0_r.
    rewrite !R_sqrt_nonneg by lra. cbn [mbind result_bind].
    rewrite sqrt_0, sqrt_1. unfold R_atan2.
    destruct (Rlt_dec 0 1) as [_|H]; [|lra].
    replace (0 / 1)%R with 0%R by lra. rewrite atan_0. f_equal. ring.
Qed.

(** ** Geometry processor *)

Lemma mercator_longitude_round_trip lon :
  (earth_radius * (lon * (PI / 180)) / earth_radius * (180 / PI))%R = lon.
Proof.
  unfold earth_radius. field. apply Rgt_not_eq, PI_RGT_0.
Qed.

Lemma mercator_latitude_round_trip lat :
  (-90 < lat < 90)%R ->
  ((2 * atan (exp (earth_radius * ln (tan (PI / 4 + lat * (PI / 180) / 2)) / earth_radius))
    - PI / 2) * (180 / PI))%R = lat.
Proof.
  intros Hlat. pose proof PI_RGT_0 as Hpi.
  replace (earth_radius * ln (tan (PI / 4 + lat * (PI / 180) / 2)) / earth_radius)%R
    with (ln (tan (PI / 4 + lat * (PI / 180) / 2))) by (unfold earth_radius; field).
  assert (Hu : (0 < PI / 4 + lat * (PI / 180) / 2 < PI / 2)%R).
  { split.
    - replace (PI / 4 + lat * (PI / 180) / 2)%R with (PI * ((90 + lat) / 360))%R by field.
      apply Rmult_lt_0_compat; lra.
    - replace (PI / 4 + lat * (PI / 180) / 2)%R
        with (PI / 2 - PI * ((90 - lat) / 360))%R by field.
      assert (0 < PI * ((90 - lat) / 360))%R by (apply Rmult_lt_0_compat; lra). lra. }
  rewrite exp_ln by (apply tan_gt_0; lra).
  rewrite atan_tan by lra. field. lra.
Qed.

Lemma sqrt3_gt_1 : (1 < sqrt 3)%R.
Proof. rewrite <- sqrt_1 at 1. apply sqrt_lt_1_alt. lra. Qed.

Lemma atan_3_sqrt3_bounds : (PI / 4 < atan (3 * sqrt 3) < PI / 2)%R.
Proof.
  split; [|apply atan_bound].
  rewrite <- atan_1. apply atan_increasing. pose proof sqrt3_gt_1. lra.
Qed.

Lemma north_latitude_bounds : (0 < north_latitude < 90)%R.
Proof.
  pose proof PI_RGT_0 as Hpi. pose proof atan_3_sqrt3_bounds as [H1 H2].
  unfold north_latitude. split.
  - apply Rmult_lt_0_compat; [lra|]. apply Rdiv_lt_0_compat; lra.
  - replace 90%R with (PI / 2 * (180 / PI))%R by (field; lra).
    apply Rmult_lt_compat_r; [apply Rdiv_lt_0_compat; lra|]. lra.
Qed.

Lemma atan_sqrt3 : atan (sqrt 3) = (PI / 3)%R.
Proof.
  rewrite <- tan_PI3. apply atan_tan. pose proof PI_RGT_0. lra.
Qed.

Lemma ln_3_sqrt3 : ln (3 * sqrt 3) = (3 * ln (sqrt 3))%R.
Proof.
  pose proof sqrt3_gt_1 as H.
  rewrite <- (sqrt_sqrt 3) at 1 by lra.
  rewrite !ln_mult; try lra.
  apply Rmult_lt_0_compat; lra.
Qed.

(** The latitude the projection of the northern vertex is computed from. *)
Lemma tan_north_latitude :
  tan (PI / 4 + north_latitude * (PI / 180) / 2) = (3 * sqrt 3)%R.
Proof.
  pose proof PI_RGT_0 as Hpi.
  replace (PI / 4 + north_latitude * (PI / 180) / 2)%R with (atan (3 * sqrt 3)).
  - apply tan_atan.
  - unfold north_latitude. field. lra.
Qed.

Lemma tan_equator : tan (PI / 4 + 0 * (PI / 180) / 2) = 1%R.
Proof. replace (PI / 4 + 0 * (PI / 180) / 2)%R with (PI / 4)%R by field. apply tan_PI4. Qed.

Lemma INR_3 : INR 3 = 3%R.
Proof. cbn. lra. Qed.

(** What the code returns for the triangle: the mean of the geographic
    coordinates of its vertices. *)
Lemma calculate_centroid_tall_triangle :
  calculate_centroid_lat_lon triangle_lib tall_triangle
  = Ok (Some (north_latitude / 3)%R, Some 1%R).
Proof.
  unfold calculate_centroid_lat_lon, tall_triangle.
  cbn [triangle_lib shape centroid_coords transform_to_3857 transform_to_4326
       mbind result_bind vertex_mean first_coord try_except mercator mercator_inverse
       map fold_right fst snd length].
  rewrite INR_3.
  replace ((0 + (0 + (north_latitude + 0))) / 3)%R with (north_latitude / 3)%R by lra.
  replace ((0 + (3 + (0 + 0))) / 3)%R with 1%R by lra.
  rewrite mercator_longitude_round_trip, mercator_latitude_round_trip; [reflexivity|].
  pose proof north_latitude_bounds. lra.
Qed.

(** What the spec describes for the triangle: the centroid of the
    projected vertices, projected back. *)
Lemma planar_centroid_tall_triangle :
  planar_centroid_lat_lon triangle_lib tall_triangle = Ok (Some 30%R, Some 1%R).
Proof.
  pose proof PI_RGT_0 as Hpi.
  unfold planar_centroid_lat_lon, tall_triangle.
  cbn [triangle_lib shape centroid_coords transform_to_3857 transform_to_4326 transform_geometry
       mbind result_bind vertex_mean first_coord try_except mercator mercator_inverse
       map fold_right fst snd length mapM].
  rewrite INR_3, tan_equator, tan_north_latitude, ln_1, ln_3_sqrt3.
  replace ((earth_radius * 0 + (earth_radius * 0 + (earth_radius * (3 * ln (sqrt 3)) + 0)))
           / 3 / earth_radius)%R
    with (ln (sqrt 3)) by (unfold earth_radius; field).
  rewrite exp_ln by (pose proof sqrt3_gt_1; lra).
  rewrite atan_sqrt3.
  do 3 f_equal.
  - field. lra.
  - unfold earth_radius. field. lra.
Qed.

(** C1 fails on the code: [calculate_centroid_lat_lon] takes the centroid
    of the geometry in geographic coordinates and only sends that point
    through the projection and back.  For the triangle it returns the mean
    latitude of the vertices, one third of the northern latitude, which is
    south of latitude 30, the centroid of the projected triangle. *)
Theorem centroid_is_not_planar :
  calculate_centroid_lat_lon triangle_lib tall_triangle
  = Ok (Some (north_latitude / 3)%R, Some 1%R)
  /\ planar_centroid_lat_lon triangle_lib tall_triangle = Ok (Some 30%R, Some 1%R)
  /\ (north_latitude / 3 < 30)%R.
Proof.
  split; [exact calculate_centroid_tall_triangle|].
  split; [exact planar_centroid_tall_triangle|].
  pose proof north_latitude_bounds. lra.
Qed.

(** Whatever the libraries, when the projection of a point followed by
    the inverse projection gives the point back, the code returns the
    centroid shapely computes on the unprojected geometry. *)
Lemma calculate_centroid_geographic {F} (lib : GeoLib F) g sg lon lat rest p :
  shape lib g = Ok sg ->
  centroid_coords lib sg = (lon, lat) :: rest ->
  transform_to_3857 lib lon lat = Ok p ->
  transform_to_4326 lib (fst p) (snd p) = Ok (lon, lat) ->
  calculate_centroid_lat_lon lib g = Ok (Some lat, Some lon).
Proof.
  intros Hs Hc H1 H2. unfold calculate_centroid_lat_lon.
  rewrite Hs. cbn [mbind result_bind]. rewrite Hc. cbn [first_coord mbind result_bind fst snd].
  rewrite H1. cbn [mbind result_bind]. rewrite H2. reflexivity.
Qed.

(** A feature whose centroid cannot be computed, or whose geometry shapely
    rejects, makes the whole call raise. *)
Lemma load_and_process_geojson_raises {F} `{PyFloat F} (lib : GeoLib F) mapping
    (features : list (feature (geojson_geometry lib))) f :
  f ∈ features ->
  calculate_centroid_lat_lon lib (geometry f) = Ok (None, None)
  \/ raises (shape lib (geometry f)) ->
  raises (load_and_process_geojson lib mapping features).
Proof.
  intros Hin Hf. unfold load_and_process_geojson.
  apply (mapM_Raise _ _ f Hin).
  destruct Hf as [Hf|[e Hf]].
  - rewrite Hf. eexists. reflexivity.
  - unfold calculate_centroid_lat_lon. rewrite Hf. eexists. reflexivity.
Qed.

(** C2 fails on the code: the (None, None) that [calculate_centroid_lat_lon]
    returns for a failed centroid is passed to [haversine], whose first
    [math.radians] raises TypeError, and nothing catches it.  The call on a
    collection that starts with a feature without coordinates raises, and
    no table is returned. *)
Theorem geometry_failure_is_fatal :
  calculate_centroid_lat_lon triangle_lib (geometry empty_feature) = Ok (None, None)
  /\ load_and_process_geojson triangle_lib example_mapping
       [empty_feature; mkFeature "Utrecht" tall_triangle]
     = Raise TypeError
  /\ (forall F (arith : PyFloat F) (lib : GeoLib F) mapping
        (features : list (feature (geojson_geometry lib))) f,
        f ∈ features ->
        calculate_centroid_lat_lon lib (geometry f) = Ok (None, None) ->
        raises (load_and_process_geojson lib mapping features)).
Proof.
  split; [reflexivity|]. split; [reflexivity|].
  intros F arith lib mapping features f Hin Hf.
  apply (load_and_process_geojson_raises lib mapping features f Hin). by left.
Qed.

(** ** Dataset merger *)

(** No label with a merge suffix is the key label. *)
Lemma suffixed_not_key (c sfx : string) :
  sfx = "_x" \/ sfx = "_y" -> String.append c sfx <> "municipality".
Proof.
  intros Hs H.
  do 12 (destruct c as [|? c]; cbn in H;
         [destruct Hs as [-> | ->]; discriminate H | injection H as _ H]).
  destruct c; destruct Hs as [-> | ->]; discriminate H.
Qed.

Lemma positions_from_add_suffix k sfx others cols :
  sfx = "_x" \/ sfx = "_y" ->
  positions_from k "municipality" (add_suffix "municipality" sfx others cols)
  = positions_from k "municipality" cols.
Proof.
  intros Hs. revert k. induction cols as [|c cols IH]; intros k; [reflexivity|].
  cbn [add_suffix map positions_from]. fold (add_suffix "municipality" sfx others cols).
  rewrite IH. destruct (String.eqb_spec c "municipality") as [->|Hne].
  - cbn [negb andb]. by rewrite String.eqb_refl.
  - cbn [negb andb]. destruct (existsb (String.eqb c) others).
    + destruct (String.eqb_spec (String.append c sfx) "municipality") as [E|_]; [|done].
      by apply suffixed_not_key in E.
    + destruct (String.eqb_spec c "municipality"); done.
Qed.

Lemma remove_positions_from_subset {A} k ps (l : list A) x :
  x ∈ remove_positions_from k ps l -> x ∈ l.
Proof.
  revert k. induction l as [|a l IH]; intros k; cbn [remove_positions_from]; [done|].
  destruct (existsb (Nat.eqb k) ps).
  - intros H. right. by apply (IH (S k)).
  - intros H. apply elem_of_cons in H as [->|H]; [by left|]. right. by apply (IH (S k)).
Qed.

Lemma key_removed k label j cols :
  positions_from k label cols = [j] ->
  label ∉ remove_positions_from k [j] cols.
Proof.
  revert k. induction cols as [|c cols IH]; intros k; [discriminate|].
  cbn [positions_from remove_positions_from existsb].
  destruct (String.eqb_spec c label) as [->|Hne].
  - intros [= <- Hrest]. rewrite Nat.eqb_refl. cbn [orb].
    intros Hin. apply remove_positions_from_subset in Hin.
    by apply (positions_from_present (S k)) in Hin.
  - intros Hpos.
    assert (Hj : j ∈ positions_from (S k) label cols) by (rewrite Hpos; by left).
    apply positions_from_elem in Hj as [Hj _].
    destruct (Nat.eqb_spec k j) as [->|_]; [lia|]. cbn [orb].
    intros Hin. apply elem_of_cons in Hin as [->|Hin]; [done|].
    by apply (IH (S k)) in Hin.
Qed.

(** The key column of a merged frame is where it was in the left frame. *)
Lemma col_pos_merge lcols rcols lrows rrows how i j :
  positions "municipality" lcols = [i] ->
  positions "municipality" rcols = [j] ->
  col_pos (mkDataFrame (merge_columns "municipality" j lcols rcols)
             (merge_rows how i j (length rcols - 1) lrows rrows)) "municipality" = Ok i.
Proof.
  intros Hl Hr. unfold col_pos, positions, merge_columns. cbn [columns].
  rewrite positions_from_app, positions_from_add_suffix by tauto.
  unfold positions in Hl, Hr. rewrite Hl.
  rewrite (positions_from_absent _ "municipality"); [reflexivity|].
  intros Hin. eapply (key_removed 0 _ j); [|exact Hin].
  by rewrite positions_from_add_suffix by tauto.
Qed.

Lemma matching_NoDup j k (rrows : list (list value)) :
  NoDup (map (cell j) rrows) ->
  length (matching j k rrows)
  = if bool_decide (k ∈ map (cell j) rrows) then 1%nat else 0%nat.
Proof.
  induction rrows as [|r rrows IH]; intros Hnd; [reflexivity|].
  cbn [map] in Hnd. apply NoDup_cons in Hnd as [Hnin Hnd].
  unfold matching in *. cbn [List.filter map].
  destruct (decide (cell j r = k)) as [E|E].
  - rewrite bool_decide_eq_true_2 by done. cbn [length].
    rewrite IH by done. subst k.
    rewrite (bool_decide_eq_false_2 _ Hnin).
    rewrite bool_decide_eq_true_2; [done|]. by left.
  - rewrite bool_decide_eq_false_2 by done. rewrite IH by done.
    destruct (decide (k ∈ map (cell j) rrows)) as [Hin|Hin].
    + rewrite !bool_decide_eq_true_2; [done| by right | done].
    + rewrite !bool_decide_eq_false_2; [done| |done].
      intros H. apply elem_of_cons in H as [->|H]; done.
Qed.

(** The keys of an inner merge, when the right keys are distinct: the left
    keys that are keys of the right frame, in the order of the left frame. *)
Lemma merge_inner_keys i j w (lrows rrows : list (list value)) :
  Forall (fun l => (i < length l)%nat) lrows ->
  NoDup (map (cell j) rrows) ->
  map (cell i) (merge_rows inner i j w lrows rrows)
  = List.filter (fun k => bool_decide (k ∈ map (cell j) rrows)) (map (cell i) lrows).
Proof.
  intros Hl Hnd. induction Hl as [|l lrows Hlen _ IH]; [reflexivity|].
  cbn [merge_rows flat_map map List.filter] in *. rewrite map_app, IH, map_map.
  pose proof (matching_NoDup j (cell i l) rrows Hnd) as Hm.
  destruct (bool_decide (cell i l ∈ map (cell j) rrows)).
  - destruct (matching j (cell i l) rrows) as [|r [|? ?]]; try discriminate Hm.
    cbn [map app]. f_equal. unfold cell. by rewrite app_nth1.
  - destruct (matching j (cell i l) rrows) as [|? ?]; [reflexivity|discriminate Hm].
Qed.

Lemma merge_inner_row_length i j w (lrows rrows : list (list value)) :
  Forall (fun l => (i < length l)%nat) lrows ->
  Forall (fun l => (i < length l)%nat) (merge_rows inner i j w lrows rrows).
Proof.
  intros Hl. cbn [merge_rows]. apply Forall_flat_map.
  eapply Forall_impl; [exact Hl|]. intros l Hlen. cbn beta in Hlen |- *.
  apply Forall_map, Forall_forall. intros r _. cbn. rewrite length_app. lia.
Qed.

Lemma raw_keys_length df : has_key df -> length (raw_keys df) = length (rows df).
Proof. intros [i Hi]. unfold raw_keys. rewrite Hi. apply length_map. Qed.

Lemma keys_raw_keys df : has_key df -> keys df = Ok (raw_keys df).
Proof. intros [i Hi]. unfold keys, getitem, raw_keys. by rewrite Hi. Qed.

(** One step of the merge loop, when the merge is accepted. *)
Lemma merge_step merged data i out :
  col_pos merged "municipality" = Ok i ->
  Forall (fun l => (i < length l)%nat) (rows merged) ->
  has_key data -> NoDup (raw_keys data) ->
  merge merged data "municipality" inner = Ok out ->
  col_pos out "municipality" = Ok i /\
  Forall (fun l => (i < length l)%nat) (rows out) /\
  raw_keys out
  = List.filter (fun k => bool_decide (k ∈ raw_keys data)) (raw_keys merged).
Proof.
  intros Hi Hlen [j Hj] Hnd. unfold merge. rewrite Hi, Hj. cbn [mbind result_bind].
  destruct (suffix_clash _ _ _ _); [discriminate|]. intros [= <-].
  apply col_pos_Ok in Hi as Hi'. destruct Hi' as [Hpi _].
  apply col_pos_Ok in Hj as Hj'. destruct Hj' as [Hpj _].
  pose proof (col_pos_merge (columns merged) (columns data) (rows merged) (rows data)
                inner i j Hpi Hpj) as Hcol.
  cbn [merge_rows] in Hcol.
  split; [exact Hcol|]. split.
  - cbn [rows]. by apply (merge_inner_row_length i j (length (columns data) - 1)).
  - unfold raw_keys in *. rewrite Hcol, Hi. rewrite Hj in Hnd |- *. cbn [rows].
    by apply (merge_inner_keys i j (length (columns data) - 1)).
Qed.

(** The merge loop keeps the keys of the first frame that every later
    frame has. *)
Lemma merge_all_keys others : forall merged i out,
  col_pos merged "municipality" = Ok i ->
  Forall (fun l => (i < length l)%nat) (rows merged) ->
  NoDup (raw_keys merged) ->
  Forall has_key others ->
  Forall (fun d => NoDup (raw_keys d)) others ->
  merge_all merged others = Ok out ->
  has_key out /\
  NoDup (raw_keys out) /\
  (forall k, k ∈ raw_keys out <->
             k ∈ raw_keys merged /\ Forall (fun d => k ∈ raw_keys d) others).
Proof.
  induction others as [|data others IH]; intros merged i out Hi Hlen Hnd Hkeys Hnds Hout.
  - injection Hout as <-. split; [by exists i|]. split; [done|].
    intros k. split; [by split|]. by intros [H _].
  - apply Forall_cons in Hkeys as [Hk Hkeys]. apply Forall_cons in Hnds as [Hn Hnds].
    cbn [merge_all] in Hout.
    destruct (merge merged data "municipality" inner) as [m|e] eqn:Hm; [|discriminate Hout].
    cbn [mbind result_bind] in Hout.
    destruct (merge_step merged data i m Hi Hlen Hk Hn Hm) as (Hmi & Hmlen & Hmkeys).
    assert (Hmnd : NoDup (raw_keys m)).
    { rewrite Hmkeys. apply NoDup_ListNoDup, List.NoDup_filter. by apply NoDup_ListNoDup. }
    destruct (IH m i out Hmi Hmlen Hmnd Hkeys Hnds Hout) as (Hhas & Hond & Hiff).
    split; [done|]. split; [done|]. intros k. split.
    + intros Hk'. apply Hiff in Hk' as [Hk' Hrest]. rewrite Hmkeys in Hk'.
      apply list_elem_of_In, filter_In in Hk' as [Hk1 Hk2].
      split; [by apply list_elem_of_In|]. constructor; [|done].
      by apply bool_decide_eq_true in Hk2.
    + intros [Hk' Hall]. apply Forall_cons in Hall as [Hd Hall]. apply Hiff. split; [|done].
      rewrite Hmkeys. apply list_elem_of_In, filter_In. split; [by apply list_elem_of_In|].
      by apply bool_decide_eq_true.
Qed.

Lemma add_suffix_disjoint key sfx others cols :
  (forall c, c ∈ cols -> c = key \/ c ∉ others) ->
  add_suffix key sfx others cols = cols.
Proof.
  induction cols as [|c cols IH]; intros H; [reflexivity|].
  cbn [add_suffix map]. fold (add_suffix key sfx others cols).
  rewrite IH by (intros c' Hc'; apply H; by right). f_equal.
  destruct (H c) as [->|Hc]; [by left| |].
  - by rewrite String.eqb_refl.
  - destruct (existsb (String.eqb c) others) eqn:E; [|by rewrite andb_false_r].
    apply existsb_exists in E as (x & Hx & Hcx). apply String.eqb_eq in Hcx. subst x.
    by apply list_elem_of_In in Hx.
Qed.

(** Tables that share no label but the key are merged without a clash. *)
Lemma created_duplicates_same seen cols : created_duplicates seen seen cols cols = false.
Proof.
  revert seen. induction cols as [|c cols IH]; intros seen; [reflexivity|].
  cbn [created_duplicates]. rewrite IH. by destruct (existsb (String.eqb c) seen).
Qed.

Lemma no_suffix_clash key j lcols rcols :
  (forall c, c ∈ lcols -> c ∈ rcols -> c = key) ->
  add_suffix key "_x" rcols lcols = lcols /\
  add_suffix key "_y" lcols rcols = rcols /\
  suffix_clash key j lcols rcols = false.
Proof.
  intros H.
  assert (E1 : add_suffix key "_x" rcols lcols = lcols).
  { apply add_suffix_disjoint. intros c Hc.
    destruct (decide (c ∈ rcols)) as [Hr|Hr]; [left; by apply H|by right]. }
  assert (E2 : add_suffix key "_y" lcols rcols = rcols).
  { apply add_suffix_disjoint. intros c Hc.
    destruct (decide (c ∈ lcols)) as [Hl|Hl]; [left; by apply H|by right]. }
  split; [done|]. split; [done|]. unfold suffix_clash.
  by rewrite E1, E2, !created_duplicates_same.
Qed.

Lemma merge_all_total others : forall merged seen,
  has_key merged ->
  (forall c, c ∈ columns merged -> c = "municipality" \/ c ∈ seen) ->
  Forall has_key others ->
  NoDup (seen ++ concat (map non_key_labels others)) ->
  exists out, merge_all merged others = Ok out.
Proof.
  induction others as [|data others IH]; intros merged seen Hm Hseen Hkeys Hnd.
  - by exists merged.
  - apply Forall_cons in Hkeys as [[j Hj] Hkeys]. destruct Hm as [i Hi].
    cbn [map concat] in Hnd.
    assert (Hcompat : forall c, c ∈ columns merged -> c ∈ columns data -> c = "municipality").
    { intros c Hc Hc'. destruct (String.eqb_spec c "municipality") as [|Hne]; [done|].
      exfalso. destruct (Hseen c Hc) as [|Hs]; [done|].
      apply NoDup_app in Hnd as (_ & Hdisj & _). apply (Hdisj c Hs).
      apply elem_of_app. left. apply list_elem_of_In, filter_In.
      split; [by apply list_elem_of_In|]. by apply negb_true_iff, String.eqb_neq. }
    destruct (no_suffix_clash "municipality" j _ _ Hcompat) as (E1 & E2 & Eclash).
    cbn [merge_all]. unfold merge. rewrite Hi, Hj. cbn [mbind result_bind].
    rewrite Eclash. cbn [mbind result_bind].
    apply col_pos_Ok in Hi as Hi'. destruct Hi' as [Hpi _].
    apply col_pos_Ok in Hj as Hj'. destruct Hj' as [Hpj _].
    apply (IH _ (seen ++ non_key_labels data)).
    + exists i. by apply col_pos_merge.
    + cbn [columns]. unfold merge_columns. rewrite E1, E2. intros c Hc.
      apply elem_of_app in Hc as [Hc|Hc].
      * destruct (Hseen c Hc) as [|Hs]; [by left|]. right. apply elem_of_app. by left.
      * apply remove_positions_from_subset in Hc.
        destruct (String.eqb_spec c "municipality") as [|Hne]; [by left|]. right.
        apply elem_of_app. right. apply list_elem_of_In, filter_In.
        split; [by apply list_elem_of_In|]. by apply negb_true_iff, String.eqb_neq.
    + done.
    + by rewrite <- app_assoc.
Qed.

Lemma apply_name_mapping_renamed mapping df :
  has_key df ->
  apply_name_mapping df "municipality" mapping = Ok (renamed mapping df).
Proof.
  intros [i Hi]. unfold apply_name_mapping, renamed. rewrite Hi.
  apply col_pos_Ok in Hi as [Hpi _]. destruct df as [cols rs]. cbn [columns rows] in *.
  rewrite (getitem_at _ _ i) by done. cbn [mbind result_bind rows].
  change (map (fun v => match v with
                        | VStr name => VStr (canonicalize mapping name)
                        | _ => v
                        end) (map (cell i) rs))
    with (map (canonical_cell mapping) (map (cell i) rs)).
  rewrite map_map. by rewrite (setitem_at _ _ _ i).
Qed.

Lemma renamed_facts mapping df :
  rectangular df -> has_key df ->
  has_key (renamed mapping df) /\
  raw_keys (renamed mapping df) = canonical_keys mapping df /\
  length (rows (renamed mapping df)) = length (rows df) /\
  exists i, col_pos (renamed mapping df) "municipality" = Ok i /\
            Forall (fun l => (i < length l)%nat) (rows (renamed mapping df)).
Proof.
  intros Hrect [i Hi].
  assert (Hcol : col_pos (renamed mapping df) "municipality" = Ok i).
  { unfold renamed. rewrite Hi. exact Hi. }
  apply col_pos_Ok in Hi as Hi'. destruct Hi' as [_ Hlt].
  unfold rectangular in Hrect. rewrite Forall_forall in Hrect.
  split; [by exists i|]. split; [|split].
  - unfold raw_keys, canonical_keys. rewrite Hcol, Hi. unfold renamed. rewrite Hi.
    cbn [rows]. rewrite map_map. apply map_ext_in. intros r Hr.
    apply cell_insert_eq. rewrite (Hrect r); [done|]. by apply list_elem_of_In.
  - unfold renamed. rewrite Hi. cbn [rows]. apply length_map.
  - exists i. split; [done|]. unfold renamed. rewrite Hi. cbn [rows].
    apply Forall_map, Forall_forall. intros r Hr. cbn. rewrite length_insert.
    by rewrite (Hrect r).
Qed.

Lemma canonical_keys_length mapping df :
  has_key df -> length (canonical_keys mapping df) = length (rows df).
Proof. intros [i Hi]. unfold canonical_keys. rewrite Hi. apply length_map. Qed.

Lemma NoDup_subset_length (ks kd : list value) :
  NoDup ks -> (forall k, k ∈ ks -> k ∈ kd) -> (length ks <= length kd)%nat.
Proof. intros Hnd Hsub. apply submseteq_length. by apply NoDup_submseteq. Qed.

(** C5: for input tables whose municipality keys are distinct after
    reconciliation, the merged table has exactly one row for each key that
    every input table has, and no other row; its row count is the number
    of those common keys and is at most the row count of each input.  The
    merged table exists when the tables share no label but the key. *)
Theorem merge_datasets_common_keys mapping first others :
  Forall rectangular (first :: others) ->
  Forall has_key (first :: others) ->
  Forall (fun d => NoDup (canonical_keys mapping d)) (first :: others) ->
  (NoDup (concat (map non_key_labels (first :: others))) ->
   exists out, merge_datasets mapping (first :: others) = Ok out)
  /\
  (forall out, merge_datasets mapping (first :: others) = Ok out ->
   exists ks,
     keys out = Ok ks /\
     length (rows out) = length ks /\
     NoDup ks /\
     (forall k, k ∈ ks <->
                Forall (fun d => k ∈ canonical_keys mapping d) (first :: others)) /\
     Forall (fun d => (length (rows out) <= length (rows d))%nat) (first :: others)).
Proof.
  intros Hrect Hkey Hnd.
  assert (HmapM : mapM (fun data => apply_name_mapping data "municipality" mapping)
                    (first :: others)
                  = Ok (map (renamed mapping) (first :: others))).
  { apply mapM_Ok_total. intros d Hd. apply apply_name_mapping_renamed.
    rewrite Forall_forall in Hkey. by apply Hkey. }
  unfold merge_datasets. rewrite HmapM. cbn [mbind result_bind map].
  apply Forall_cons in Hrect as [Hr1 Hrs]. apply Forall_cons in Hkey as Hkey'.
  destruct Hkey' as [Hk1 Hks]. apply Forall_cons in Hnd as Hnd'. destruct Hnd' as [Hn1 Hns].
  destruct (renamed_facts mapping first Hr1 Hk1) as (Hhas1 & Hraw1 & _ & i & Hi & Hlen).
  assert (Hothers : forall d, d ∈ others ->
            has_key (renamed mapping d) /\
            raw_keys (renamed mapping d) = canonical_keys mapping d).
  { intros d Hd. rewrite Forall_forall in Hrs, Hks.
    destruct (renamed_facts mapping d (Hrs d Hd) (Hks d Hd)) as (H1 & H2 & _). done. }
  assert (Hcols : forall d, has_key d -> columns (renamed mapping d) = columns d).
  { intros d [j Hj]. unfold renamed. by rewrite Hj. }
  split.
  - intros Hlabels.
    apply (merge_all_total _ _ (non_key_labels first)).
    + done.
    + rewrite (Hcols first Hk1). intros c Hc.
      destruct (String.eqb_spec c "municipality") as [|Hne]; [by left|]. right.
      apply list_elem_of_In, filter_In. split; [by apply list_elem_of_In|].
      by apply negb_true_iff, String.eqb_neq.
    + apply Forall_map, Forall_forall. intros d Hd. by apply Hothers.
    + cbn [map concat] in Hlabels.
      replace (map non_key_labels (map (renamed mapping) others))
        with (map non_key_labels others); [done|].
      rewrite map_map. apply map_ext_in. intros d Hd. unfold non_key_labels.
      rewrite Hcols; [done|]. rewrite Forall_forall in Hks. by apply Hks, list_elem_of_In.
  - intros out Hout.
    destruct (merge_all_keys (map (renamed mapping) others) (renamed mapping first) i out
                Hi Hlen) as (Hhas & Hond & Hiff); [| | |done|].
    { by rewrite Hraw1. }
    { apply Forall_map, Forall_forall. intros d Hd. by apply Hothers. }
    { apply Forall_map, Forall_forall. intros d Hd. cbn.
      destruct (Hothers d Hd) as [_ ->]. rewrite Forall_forall in Hns. by apply Hns. }
    assert (Hmem : forall k, k ∈ raw_keys out <->
              Forall (fun d => k ∈ canonical_keys mapping d) (first :: others)).
    { intros k. rewrite Hiff, Hraw1, Forall_cons, Forall_map, !Forall_forall.
      split; intros [H1 H2]; (split; [done|]); intros d Hd; specialize (H2 d Hd);
        cbn in *; destruct (Hothers d Hd) as [_ E]; by rewrite E in *. }
    exists (raw_keys out). split; [by apply keys_raw_keys|].
    split; [by rewrite raw_keys_length|]. split; [done|]. split; [done|].
    rewrite Forall_forall. intros d Hd.
    rewrite <- (raw_keys_length out Hhas), <- (canonical_keys_length mapping d).
    + apply NoDup_subset_length; [done|]. intros k Hk. apply Hmem in Hk.
      rewrite Forall_forall in Hk. by apply Hk.
    + assert (Hall : Forall has_key (first :: others)) by (by constructor).
      rewrite Forall_forall in Hall. by apply Hall.
Qed.

(** The merged table of the example: "Den Haag" is reconciled with
    "'s-Gravenhage", the one key the two tables share. *)
Lemma merge_datasets_example :
  merge_datasets example_mapping [prices_table; surfaces_table]
  = Ok (mkDataFrame ["municipality"; "avg_price"; "avg_surface"]
          [ [VStr "'s-Gravenhage"; VInt 400000; VInt 95] ]).
Proof. by vm_compute. Qed.

Lemma merge_datasets_common_keys_witness :
  (NoDup (concat (map non_key_labels [prices_table; surfaces_table])) ->
   exists out, merge_datasets example_mapping [prices_table; surfaces_table] = Ok out)
  /\
  (forall out, merge_datasets example_mapping [prices_table; surfaces_table] = Ok out ->
   exists ks,
     keys out = Ok ks /\
     length (rows out) = length ks /\
     NoDup ks /\
     (forall k, k ∈ ks <->
                Forall (fun d => k ∈ canonical_keys example_mapping d)
                       [prices_table; surfaces_table]) /\
     Forall (fun d => (length (rows out) <= length (rows d))%nat)
            [prices_table; surfaces_table]).
Proof.
  apply (merge_datasets_common_keys example_mapping prices_table [surfaces_table]).
  - repeat constructor.
  - repeat constructor; by exists 0%nat.
  - assert (E1 : canonical_keys example_mapping prices_table
                 = [VStr "Utrecht"; VStr "'s-Gravenhage"]) by (by vm_compute).
    assert (E2 : canonical_keys example_mapping surfaces_table
                 = [VStr "'s-Gravenhage"; VStr "Almere"]) by (by vm_compute).
    apply Forall_cons. split; [rewrite E1|apply Forall_cons; split; [rewrite E2|constructor]];
      apply NoDup_ListNoDup; repeat constructor; cbn; intuition discriminate.
Defined.

(** ** Station aggregator *)

Lemma count_stations_scenario :
  count_stations_per_municipality example_mapping scenario_stations scenario_municipalities
  = Ok (mkDataFrame ["municipality"; "station_count"; "A_count"; "B_count"; "total_traffic"]
          [ [VStr "Utrecht"; VInt 3; VInt 2; VInt 1; VInt 35];
            [VStr "Almere"; VInt 0; VInt 0; VInt 0; VInt 0] ]).
Proof. by vm_compute. Qed.

(** *** Integers that survive the passage through float64 *)

Lemma digits2_pos_iter_xO p n :
  digits2_pos (Pos.iter xO p n) = (digits2_pos p + n)%positive.
Proof.
  induction n as [|n IH] using Pos.peano_ind.
  - cbn. by rewrite Pos.add_1_r.
  - rewrite Pos.iter_succ. cbn [digits2_pos]. rewrite IH. by rewrite Pos.add_succ_r.
Qed.

Lemma Zpos_iter_xO p n : Z.pos (Pos.iter xO p n) = Z.pos p * 2 ^ Z.pos n.
Proof.
  induction n as [|n IH] using Pos.peano_ind.
  - cbn. lia.
  - rewrite Pos.iter_succ, (Pos2Z.inj_xO (Pos.iter xO p n)), IH, Pos2Z.inj_succ,
      Z.pow_succ_r by lia. ring.
Qed.

Lemma digits2_pos_lower p : 2 ^ (Z.pos (digits2_pos p) - 1) <= Z.pos p.
Proof.
  induction p as [p IH|p IH|]; cbn [digits2_pos]; [| |cbn; lia].
  - rewrite Pos2Z.inj_succ, (Pos2Z.inj_xI p).
    replace (Z.succ (Z.pos (digits2_pos p)) - 1) with (Z.succ (Z.pos (digits2_pos p) - 1)) by lia.
    rewrite Z.pow_succ_r by lia. lia.
  - rewrite Pos2Z.inj_succ, (Pos2Z.inj_xO p).
    replace (Z.succ (Z.pos (digits2_pos p)) - 1) with (Z.succ (Z.pos (digits2_pos p) - 1)) by lia.
    rewrite Z.pow_succ_r by lia. lia.
Qed.

Lemma digits2_pos_53 p : Z.pos p < 2 ^ 53 -> Z.pos (digits2_pos p) <= 53.
Proof.
  intros Hp. pose proof (digits2_pos_lower p) as Hd.
  destruct (Z_le_gt_dec (Z.pos (digits2_pos p)) 53) as [H|H]; [done|].
  assert (2 ^ 53 <= 2 ^ (Z.pos (digits2_pos p) - 1)) by (apply Z.pow_le_mono_r; lia).
  lia.
Qed.

(** A mantissa of 53 bits with an exponent between -52 and 0 is a float64
    as it stands. *)
Lemma binary_round_aux_exact m e :
  Z.pos (digits2_pos m) = 53 -> -52 <= e <= 0 ->
  binary_round_aux f64_prec f64_emax false (Z.pos m) e loc_Exact = S754_finite false m e.
Proof.
  intros Hd He. unfold binary_round_aux, shr_fexp, fexp, emin, f64_prec, f64_emax.
  cbn [Zdigits2 shr_record_of_loc]. rewrite Hd.
  replace (Z.max (53 + e - 53) (3 - 1024 - 53) - e) with 0 by lia.
  cbn [shr shr_m loc_of_shr_record round_nearest_even Zdigits2 shr_record_of_loc].
  rewrite Hd.
  replace (Z.max (53 + e - 53) (3 - 1024 - 53) - e) with 0 by lia.
  cbn [shr shr_m]. destruct (Z.leb_spec e (1024 - 53)); [reflexivity|lia].
Qed.

Lemma f64_of_Z_pos p :
  Z.pos p < 2 ^ 53 ->
  exists m e, f64_of_Z (Z.pos p) = S754_finite false m e /\
              -52 <= e <= 0 /\ Z.pos m = Z.pos p * 2 ^ (- e).
Proof.
  intros Hp. pose proof (digits2_pos_53 p Hp) as Hd.
  unfold f64_of_Z, binary_normalize, binary_round, shl_align, fexp, emin, f64_prec, f64_emax.
  rewrite Z.add_0_r.
  replace (Z.max (Z.pos (digits2_pos p) - 53) (3 - 1024 - 53) - 0)
    with (Z.pos (digits2_pos p) - 53) by lia.
  replace (Z.max (Z.pos (digits2_pos p) - 53) (3 - 1024 - 53))
    with (Z.pos (digits2_pos p) - 53) by lia.
  destruct (Z.pos (digits2_pos p) - 53) as [|k|k] eqn:E; [| lia |].
  - exists p, 0. split; [|split; [lia|cbn; lia]].
    apply (binary_round_aux_exact p 0); lia.
  - exists (Pos.iter xO p k), (Z.neg k). split; [|split].
    + apply (binary_round_aux_exact (Pos.iter xO p k) (Z.neg k)).
      * rewrite digits2_pos_iter_xO, Pos2Z.inj_add. lia.
      * lia.
    + lia.
    + rewrite Zpos_iter_xO. reflexivity.
Qed.

Lemma astype_int_of_Z z :
  0 <= z < 2 ^ 53 -> astype_int (VFloat (f64_of_Z z)) = Ok (VInt z).
Proof.
  intros Hz. destruct z as [|p|p]; [reflexivity| |lia].
  destruct (f64_of_Z_pos p) as (m & e & -> & He & Hm); [lia|].
  cbn [astype_int f64_trunc cond_Zopp]. rewrite Hm.
  assert (Hv : (if 0 <=? e then Z.pos p * 2 ^ (- e) * 2 ^ e
                else Z.pos p * 2 ^ (- e) / 2 ^ (- e)) = Z.pos p).
  { destruct (Z.leb_spec 0 e).
    - replace e with 0 by lia. cbn. lia.
    - apply Z.div_mul. apply Z.pow_nonzero; lia. }
  rewrite Hv.
  assert (H63 : 2 ^ 53 < 2 ^ 63) by (by vm_compute).
  destruct (Z.leb_spec (- 2 ^ 63) (Z.pos p)); [|lia].
  destruct (Z.ltb_spec (Z.pos p) (2 ^ 63)); [reflexivity|lia].
Qed.

Lemma wrap_int64_small z : 0 <= z < 2 ^ 53 -> wrap_int64 z = z.
Proof.
  intros Hz. unfold wrap_int64.
  assert (H63 : 2 ^ 53 < 2 ^ 63) by (by vm_compute).
  assert (H64 : 2 ^ 64 = 2 * 2 ^ 63) by (by vm_compute).
  rewrite Z.mod_small; lia.
Qed.

(** *** Left merges of keyed frames *)

Lemma remove_positions_from_below {A} k j (l : list A) :
  (j < k)%nat -> remove_positions_from k [j] l = l.
Proof.
  revert k. induction l as [|a l IH]; intros k Hjk; [reflexivity|].
  cbn [remove_positions_from existsb].
  destruct (Nat.eqb_spec k j); [lia|]. cbn [orb]. f_equal. apply IH. lia.
Qed.

Lemma remove_first_position {A} (a : A) (l : list A) :
  remove_positions_from 0 [0%nat] (a :: l) = l.
Proof. cbn. apply remove_positions_from_below. lia. Qed.

Lemma col_pos_keyed cols data ks :
  "municipality" ∉ cols ->
  col_pos (keyed_frame cols data ks) "municipality" = Ok 0%nat.
Proof.
  intros H. unfold col_pos, positions, keyed_frame. cbn [columns positions_from].
  rewrite String.eqb_refl. by rewrite positions_from_absent.
Qed.

Lemma matching_keyed (rdata : value -> list value) (rks : list value) k :
  NoDup rks ->
  matching 0 k (map (fun k' => k' :: rdata k') rks)
  = if bool_decide (k ∈ rks) then [k :: rdata k] else [].
Proof.
  induction rks as [|k' rks IH]; intros Hnd; [reflexivity|].
  apply NoDup_cons in Hnd as [Hnin Hnd].
  unfold matching in *. cbn [map List.filter cell nth].
  destruct (decide (k' = k)) as [->|Hne].
  - rewrite bool_decide_eq_true_2 by done. rewrite IH by done.
    rewrite (bool_decide_eq_false_2 _ Hnin).
    rewrite bool_decide_eq_true_2; [done|by left].
  - rewrite bool_decide_eq_false_2 by done. rewrite IH by done.
    destruct (decide (k ∈ rks)) as [Hin|Hin].
    + rewrite !bool_decide_eq_true_2; [done|by right|done].
    + rewrite !bool_decide_eq_false_2; [done| |done].
      intros H. apply elem_of_cons in H as [->|H]; done.
Qed.

Lemma unmatched_keyed (rdata : value -> list value) (rks ks : list value)
    (ldata : value -> list value) :
  NoDup rks ->
  existsb (fun l => Nat.eqb (length (matching 0 (cell 0 l)
                                      (map (fun k' => k' :: rdata k') rks))) 0)
          (map (fun k => k :: ldata k) ks)
  = existsb (fun k' => negb (bool_decide (k' ∈ rks))) ks.
Proof.
  intros Hnd. induction ks as [|k ks IH]; [reflexivity|].
  cbn [map existsb]. rewrite IH. f_equal. cbn [cell nth].
  rewrite matching_keyed by done. by destruct (bool_decide (k ∈ rks)).
Qed.

Lemma merge_left_rows (cast : value -> value) width
    (ldata rdata : value -> list value) (rks ks : list value) :
  NoDup rks ->
  flat_map (fun l =>
              match matching 0 (cell 0 l) (map (fun k' => k' :: rdata k') rks) with
              | [] => [l ++ repeat NaN width]
              | ms => map (fun r => l ++ map cast (remove_positions_from 0 [0%nat] r)) ms
              end) (map (fun k => k :: ldata k) ks)
  = map (fun k => k :: (ldata k ++ (if bool_decide (k ∈ rks)
                                     then map cast (rdata k)
                                     else repeat NaN width))) ks.
Proof.
  intros Hnd.
  set (F := fun l : list value =>
              match matching 0 (cell 0 l) (map (fun k' => k' :: rdata k') rks) with
              | [] => [l ++ repeat NaN width]
              | ms => map (fun r => l ++ map cast (remove_positions_from 0 [0%nat] r)) ms
              end).
  induction ks as [|k ks IH]; [reflexivity|].
  cbn [map flat_map]. rewrite IH. f_equal.
  subst F. cbn beta. cbn [cell nth]. rewrite matching_keyed by done.
  destruct (bool_decide (k ∈ rks)); [|reflexivity].
  cbn [map app]. by rewrite remove_first_position.
Qed.

(** A left merge of keyed frames without common labels is the keyed frame
    of the joined cells. *)
Lemma merge_left_keyed lcols rcols ldata rdata ks rks :
  "municipality" ∉ lcols -> "municipality" ∉ rcols ->
  (forall c, c ∈ lcols -> c ∉ rcols) ->
  NoDup rks ->
  merge (keyed_frame lcols ldata ks) (keyed_frame rcols rdata rks) "municipality" left
  = Ok (keyed_frame (lcols ++ rcols)
          (fun k => ldata k ++ joined ks rks (length rcols) rdata k) ks).
Proof.
  intros Hl Hr Hdisj Hnd. unfold merge.
  rewrite !col_pos_keyed by done. cbn [mbind result_bind].
  unfold keyed_frame. cbn [columns rows].
  destruct (no_suffix_clash "municipality" 0 ("municipality" :: lcols)
              ("municipality" :: rcols)) as (E1 & E2 & ->).
  { intros c Hc Hc'. apply elem_of_cons in Hc as [->|Hc]; [done|].
    apply elem_of_cons in Hc' as [->|Hc']; [done|]. by destruct (Hdisj c). }
  f_equal. f_equal.
  - unfold merge_columns. rewrite E1, E2. by rewrite remove_first_position.
  - unfold merge_rows. rewrite unmatched_keyed by done.
    replace (length ("municipality" :: rcols) - 1)%nat with (length rcols) by (cbn; lia).
    rewrite merge_left_rows by done. unfold joined. reflexivity.
Qed.

(** *** The frames of the three aggregates *)

Lemma group_keys_NoDup (l : list string) : NoDup (group_keys l).
Proof.
  unfold group_keys. rewrite merge_sort_Permutation. apply NoDup_remove_dups.
Qed.

Lemma group_keys_elem (l : list string) x : x ∈ group_keys l <-> x ∈ l.
Proof.
  unfold group_keys. rewrite merge_sort_Permutation. apply elem_of_remove_dups.
Qed.

Lemma group_cells_NoDup (l : list string) : NoDup (map VStr (group_keys l)).
Proof.
  assert (Hinj : Inj eq eq VStr) by (by intros a b [= ->]).
  apply (NoDup_fmap_2 VStr), group_keys_NoDup.
Qed.

Lemma station_count_frame_keyed st :
  station_count_frame st
  = keyed_frame ["station_count"] (fun k => [VInt (size (records st k))])
      (map VStr (group_keys (map st_municipality st))).
Proof. unfold station_count_frame, keyed_frame. by rewrite map_map. Qed.

Lemma traffic_sum_frame_keyed st :
  traffic_sum_frame st
  = keyed_frame ["total_traffic"] (fun k => [VInt (wrap_int64 (traffic (records st k)))])
      (map VStr (group_keys (map st_municipality st))).
Proof. unfold traffic_sum_frame, keyed_frame. by rewrite map_map. Qed.

Lemma station_type_count_frame_keyed st :
  "municipality" ∉ group_keys (map st_type st) ->
  station_type_count_frame st
  = Ok (keyed_frame
          (map (fun t => String.append t "_count") (group_keys (map st_type st)))
          (fun k => map (fun t => VInt (size (stations_of_type t (records st k))))
                        (group_keys (map st_type st)))
          (map VStr (group_keys (map st_municipality st)))).
Proof.
  intros H. unfold station_type_count_frame, keyed_frame.
  destruct (existsb (String.eqb "municipality") (group_keys (map st_type st))) eqn:E.
  - apply existsb_exists in E as (x & Hx & Hx'). apply String.eqb_eq in Hx'. subst x.
    by apply list_elem_of_In in Hx.
  - by rewrite map_map.
Qed.

(** *** The reference list *)

Lemma drop_duplicates_from_map {A B} `{EqDecision A} `{EqDecision B} (f : A -> B)
    (seen l : list A) :
  (forall a b, f a = f b -> a = b) ->
  drop_duplicates_from (map f seen) (map f l) = map f (drop_duplicates_from seen l).
Proof.
  intros Hinj. revert seen. induction l as [|x l IH]; intros seen; [reflexivity|].
  cbn [map drop_duplicates_from].
  destruct (decide (x ∈ seen)) as [Hin|Hin].
  - rewrite !bool_decide_eq_true_2; [apply IH|done|].
    apply list_elem_of_fmap. by exists x.
  - rewrite !bool_decide_eq_false_2; [|done|].
    + cbn [map]. f_equal. apply (IH (x :: seen)).
    + intros H. apply list_elem_of_fmap in H as (y & Hy & Hy'). apply Hinj in Hy. by subst y.
Qed.

Lemma drop_duplicates_from_elem {A} `{EqDecision A} (seen l : list A) x :
  x ∈ drop_duplicates_from seen l <-> x ∈ l /\ x ∉ seen.
Proof.
  revert seen. induction l as [|y l IH]; intros seen; cbn [drop_duplicates_from].
  - split; [intros H; by apply elem_of_nil in H|intros [H _]; by apply elem_of_nil in H].
  - destruct (decide (y ∈ seen)) as [Hin|Hin].
    + rewrite bool_decide_eq_true_2 by done. rewrite IH, elem_of_cons.
      split; [tauto|]. intros [[->|H] Hs]; [done|tauto].
    + rewrite bool_decide_eq_false_2 by done. rewrite !elem_of_cons, IH, elem_of_cons.
      split.
      * intros [->|[H1 H2]]; [tauto|]. split; [tauto|]. intros H. apply H2. by right.
      * intros [[->|H1] H2]; [by left|].
        destruct (decide (x = y)) as [->|Hne]; [by left|]. right. split; [done|].
        intros [?|?]; done.
Qed.

Lemma drop_duplicates_from_NoDup {A} `{EqDecision A} (seen l : list A) :
  NoDup (drop_duplicates_from seen l).
Proof.
  revert seen. induction l as [|y l IH]; intros seen; cbn [drop_duplicates_from].
  - constructor.
  - destruct (bool_decide (y ∈ seen)); [apply IH|].
    constructor; [|apply IH]. rewrite drop_duplicates_from_elem.
    intros [_ H]. apply H. by left.
Qed.

(** The reference list after reconciliation, selection of the key column
    and removal of duplicates. *)
Lemma reference_frame mapping municipalities_df :
  rectangular municipalities_df -> has_key municipalities_df ->
  exists selected,
    select (renamed mapping municipalities_df) ["municipality"] = Ok selected /\
    reset_index (drop_duplicates selected)
    = keyed_frame [] (fun _ => [])
        (drop_duplicates_from [] (canonical_keys mapping municipalities_df)).
Proof.
  intros Hrect Hkey.
  destruct (renamed_facts mapping _ Hrect Hkey) as (_ & Hraw & _ & i & Hi & _).
  unfold select. cbn [mapM mbind result_bind]. unfold label_positions.
  apply col_pos_Ok in Hi as Hi'. destruct Hi' as [Hpos _]. rewrite Hpos.
  cbn [mbind result_bind concat app map]. eexists. split; [reflexivity|].
  unfold reset_index, drop_duplicates, keyed_frame.
  cbn [columns rows]. f_equal.
  - f_equal. unfold positions in Hpos.
    assert (Hin : i ∈ positions_from 0 "municipality" (columns (renamed mapping municipalities_df)))
      by (rewrite Hpos; by left).
    apply positions_from_elem in Hin as [_ Hin]. rewrite Nat.sub_0_r in Hin.
    by apply nth_lookup_Some.
  - rewrite <- Hraw. unfold raw_keys. rewrite Hi.
    rewrite <- (drop_duplicates_from_map (fun k => [k]) [] _) by (by intros a b [= ->]).
    cbn [map]. by rewrite map_map.
Qed.

(** *** Column labels of the aggregate *)

Lemma append_length (s t : string) :
  String.length (String.append s t) = (String.length s + String.length t)%nat.
Proof.
  induction s as [|a s IH]; [reflexivity|].
  change (S (String.length (String.append s t)) = S (String.length s + String.length t)).
  by rewrite IH.
Qed.

Lemma append_inj_same_length (s1 s2 t : string) :
  String.length s1 = String.length s2 ->
  String.append s1 t = String.append s2 t -> s1 = s2.
Proof.
  revert s2. induction s1 as [|a s1 IH]; intros [|b s2] Hlen H; try discriminate Hlen.
  - reflexivity.
  - cbn in H. injection H as -> H. f_equal. apply IH; [|done]. by injection Hlen.
Qed.

Lemma append_inj (s1 s2 t : string) :
  String.append s1 t = String.append s2 t -> s1 = s2.
Proof.
  intros H. apply (append_inj_same_length s1 s2 t); [|done].
  apply (f_equal String.length) in H. rewrite !append_length in H. lia.
Qed.

Lemma count_label_not_key (t : string) : String.append t "_count" <> "municipality".
Proof.
  intros H.
  do 12 (destruct t as [|? t]; cbn in H; [discriminate H | injection H as _ H]).
  destruct t; discriminate H.
Qed.

Lemma count_label_not_traffic (t : string) : String.append t "_count" <> "total_traffic".
Proof.
  intros H.
  do 13 (destruct t as [|? t]; cbn in H; [discriminate H | injection H as _ H]).
  destruct t; discriminate H.
Qed.

Lemma count_label_station (t : string) :
  String.append t "_count" = "station_count" -> t = "station".
Proof. intros H. by apply (append_inj t "station" "_count"). Qed.

Lemma count_label_has_substring (t : string) :
  has_substring "_count" (String.append t "_count") = true.
Proof.
  induction t as [|a t IH]; [reflexivity|].
  change (String.prefix "_count" (String a (String.append t "_count"))
          || has_substring "_count" (String.append t "_count") = true).
  rewrite IH. apply orb_true_r.
Qed.

Lemma aggregate_columns_NoDup types :
  NoDup types -> "station" ∉ types -> NoDup (aggregate_columns types).
Proof.
  intros Hnd Hst. unfold aggregate_columns.
  assert (Hinj : Inj eq eq (fun t => String.append t "_count")).
  { intros a b H. by apply append_inj in H. }
  assert (Htc : NoDup (map (fun t => String.append t "_count") types ++ ["total_traffic"])).
  { apply NoDup_app. split; [by apply (NoDup_fmap_2 _)|]. split; [|apply NoDup_singleton].
    intros c Hc Hc'. apply list_elem_of_fmap in Hc as (t & -> & _).
    apply list_elem_of_singleton in Hc'. by apply count_label_not_traffic in Hc'. }
  constructor; [|constructor; [|done]].
  - intros H. apply elem_of_cons in H as [H|H]; [discriminate H|].
    apply elem_of_app in H as [H|H].
    + apply list_elem_of_fmap in H as (t & Ht & _). symmetry in Ht.
      by apply count_label_not_key in Ht.
    + apply list_elem_of_singleton in H. discriminate H.
  - intros H. apply elem_of_app in H as [H|H].
    + apply list_elem_of_fmap in H as (t & Ht & Hin). symmetry in Ht.
      apply count_label_station in Ht. by subst t.
    + apply list_elem_of_singleton in H. discriminate H.
Qed.

(** *** Filling and converting the merged frame *)

Lemma existsb_false_Forall {A} (f : A -> bool) (l : list A) :
  Forall (fun x => f x = false) l -> existsb f l = false.
Proof. induction 1 as [|x l Hx _ IH]; [reflexivity|]. cbn. by rewrite Hx, IH. Qed.

Lemma existsb_map_compose {A B} (f : B -> bool) (g : A -> B) (l : list A) :
  existsb f (map g l) = existsb (fun a => f (g a)) l.
Proof. induction l as [|a l IH]; [reflexivity|]. cbn. by rewrite IH. Qed.

Lemma fillna_zero_keyed cols data ks :
  (forall k, k ∈ ks -> Forall (fun v => is_text v = false) (data k)) ->
  fillna_zero (keyed_frame cols data ks)
  = mkDataFrame ("municipality" :: cols)
      (map (fun k => fill_key ks k :: map fill_float (data k)) ks).
Proof.
  intros Hdata. unfold fillna_zero, keyed_frame. cbn [columns rows]. f_equal.
  rewrite map_map. apply map_ext_in. intros k Hk. rewrite imap_cons. f_equal.
  - rewrite existsb_map_compose. reflexivity.
  - transitivity (imap (fun _ => fill_float) (data k)); [|apply imap_const].
    apply imap_ext. intros j v Hv. cbn.
    rewrite existsb_map_compose, existsb_false_Forall; [reflexivity|].
    apply Forall_forall. intros k' Hk'. cbn [cell nth].
    destruct (nth_in_or_default j (data k') NaN) as [Hin | ->]; [|reflexivity].
    specialize (Hdata k' Hk'). rewrite Forall_forall in Hdata.
    apply Hdata. by apply list_elem_of_In.
Qed.

Lemma mapM_app {A B} (f : A -> result B) (l1 l2 : list A) (r1 r2 : list B) :
  mapM f l1 = Ok r1 -> mapM f l2 = Ok r2 -> mapM f (l1 ++ l2) = Ok (r1 ++ r2).
Proof.
  revert r1. induction l1 as [|a l1 IH]; intros r1 H1 H2.
  - injection H1 as <-. exact H2.
  - cbn [mapM app] in *. destruct (f a) as [b|e]; [|discriminate H1].
    cbn [mbind result_bind] in *. destruct (mapM f l1) as [bs|e]; [|discriminate H1].
    cbn [mbind result_bind] in *. injection H1 as <-.
    by rewrite (IH bs eq_refl H2).
Qed.

Lemma mapM_zip_labels labels (cs : list string) (vs : list value) :
  (forall c, c ∈ cs -> existsb (String.eqb c) labels = true) ->
  length cs = length vs ->
  mapM (fun cv : string * value =>
          if existsb (String.eqb (fst cv)) labels then astype_int (snd cv) else Ok (snd cv))
       (zip cs vs)
  = mapM astype_int vs.
Proof.
  revert vs. induction cs as [|c cs IH]; intros [|v vs] Hall Hlen; try discriminate Hlen;
    [reflexivity|].
  cbn [zip zip_with mapM fst snd]. rewrite (Hall c) by left.
  rewrite IH; [reflexivity| |by injection Hlen].
  intros c' Hc'. apply Hall. by right.
Qed.

Lemma f64_of_Z_not_nan z : 0 <= z < 2 ^ 53 -> f64_isnan (f64_of_Z z) = false.
Proof.
  intros Hz. destruct z as [|p|p]; [reflexivity| |lia].
  destruct (f64_of_Z_pos p) as (m & e & -> & _); [lia|reflexivity].
Qed.

(** The cells a left merge appended, after [fillna(0)] and [astype(int)]:
    the integers of the right frame, and 0 where the key had no match. *)
Lemma joined_astype ks rks w (rdata : value -> list value) (zs : list Z) k :
  rdata k = map VInt zs ->
  Forall (fun z => 0 <= z < 2 ^ 53) zs ->
  length zs = w ->
  (k ∉ rks -> Forall (fun z => z = 0) zs) ->
  mapM astype_int (map fill_float (joined ks rks w rdata k)) = Ok (map VInt zs)
  /\ Forall (fun v => is_text v = false) (joined ks rks w rdata k)
  /\ length (joined ks rks w rdata k) = w.
Proof.
  intros Hr Hz Hw Hzero. unfold joined. rewrite Hr.
  destruct (decide (k ∈ rks)) as [Hin|Hin].
  - rewrite bool_decide_eq_true_2 by done. clear Hzero Hr. subst w.
    destruct (existsb _ ks).
    + induction Hz as [|z zs Hz1 _ IH]; [by repeat split|].
      destruct IH as (IH1 & IH2 & IH3). cbn [map mapM upcast length].
      replace (fill_float (VFloat (f64_of_Z z))) with (VFloat (f64_of_Z z))
        by (unfold fill_float; cbn [isna]; by rewrite f64_of_Z_not_nan).
      rewrite astype_int_of_Z by done. cbn [mbind result_bind]. cbn [map] in IH1.
      rewrite IH1. cbn [mbind result_bind]. split; [done|]. split; [by constructor|].
      cbn [map] in IH3. by rewrite IH3.
    + induction Hz as [|z zs Hz1 _ IH]; [by repeat split|].
      destruct IH as (IH1 & IH2 & IH3). cbn [map mapM length].
      cbn [map] in IH1.
      replace (astype_int (fill_float (VInt z))) with (Ok (VInt z) : result value)
        by reflexivity.
      cbn [mbind result_bind]. rewrite IH1. cbn [mbind result_bind]. split; [done|]. split; [by constructor|].
      cbn [map] in IH3. by rewrite IH3.
  - rewrite bool_decide_eq_false_2 by done. specialize (Hzero Hin). clear Hr Hz. subst w.
    induction Hzero as [|z zs -> _ IH]; [by repeat split|].
    destruct IH as (IH1 & IH2 & IH3). cbn [length repeat map mapM].
    replace (astype_int (fill_float NaN)) with (Ok (VInt 0) : result value) by reflexivity.
    cbn [mbind result_bind]. rewrite IH1. cbn [mbind result_bind].
    split; [done|]. split; [by constructor|]. by rewrite IH3.
Qed.

Lemma mapM_map_Ok {A B C} (f : B -> result C) (g : A -> B) (h : A -> C) (l : list A) :
  (forall a, a ∈ l -> f (g a) = Ok (h a)) -> mapM f (map g l) = Ok (map h l).
Proof.
  induction l as [|a l IH]; intros Hf; [reflexivity|].
  cbn [mapM map]. rewrite (Hf a) by left. cbn [mbind result_bind].
  rewrite IH; [reflexivity|]. intros b Hb. apply Hf. by right.
Qed.

Lemma astype_int_columns_keyed cols labels (fk : value -> value)
    (cells outs : value -> list value) (ks : list value) :
  "municipality" ∉ labels ->
  (forall c, c ∈ cols -> c ∈ labels) ->
  (forall l, l ∈ labels -> l ∈ "municipality" :: cols) ->
  (forall k, k ∈ ks ->
     length (cells k) = length cols /\ mapM astype_int (cells k) = Ok (outs k)) ->
  astype_int_columns
    (mkDataFrame ("municipality" :: cols) (map (fun k => fk k :: cells k) ks)) labels
  = Ok (mkDataFrame ("municipality" :: cols) (map (fun k => fk k :: outs k) ks)).
Proof.
  intros Hkey Hcols Hlabels Hcells. unfold astype_int_columns. cbn [columns rows].
  rewrite (mapM_Ok_total _ (fun l => positions l ("municipality" :: cols))).
  - cbn [mbind result_bind].
    rewrite (mapM_map_Ok _ _ (fun k => fk k :: outs k)); [reflexivity|].
    intros k Hk. destruct (Hcells k Hk) as [Hlen Hout].
    cbn [zip zip_with mapM fst snd].
    destruct (existsb (String.eqb "municipality") labels) eqn:E.
    + apply existsb_exists in E as (x & Hx & Hx'). apply String.eqb_eq in Hx'. subst x.
      by apply list_elem_of_In in Hx.
    + cbn [mbind result_bind].
      rewrite (mapM_zip_labels labels cols (cells k)); [by rewrite Hout| |done].
      intros c Hc. apply existsb_exists. exists c. split; [|apply String.eqb_refl].
      by apply list_elem_of_In, Hcols.
  - intros l Hl. unfold label_positions. cbn [columns].
    destruct (positions l ("municipality" :: cols)) eqn:E; [|reflexivity].
    by apply (positions_from_present 0) in E; [|apply Hlabels].
Qed.

(** *** Counts and sums of the groups *)

Lemma stations_in_absent m st : m ∉ map st_municipality st -> stations_in m st = [].
Proof.
  induction st as [|s st IH]; intros H; [reflexivity|].
  cbn [map] in H. apply not_elem_of_cons in H as [Hne H].
  unfold stations_in in *. cbn [List.filter].
  destruct (String.eqb_spec (st_municipality s) m) as [E|_]; [by symmetry in E|by apply IH].
Qed.

Lemma records_unmatched st k :
  k ∉ map VStr (group_keys (map st_municipality st)) -> records st k = [].
Proof.
  intros H. destruct k as [m| |]; try reflexivity. cbn [records].
  apply stations_in_absent. intros Hin. apply H, list_elem_of_fmap.
  exists m. split; [done|]. by apply group_keys_elem.
Qed.

Lemma filter_length_le {A} (f : A -> bool) (l : list A) :
  (length (List.filter f l) <= length l)%nat.
Proof. induction l as [|a l IH]; [done|]. cbn. destruct (f a); cbn; lia. Qed.

Lemma size_records_bounds st k :
  0 <= size (records st k) <= Z.of_nat (length st).
Proof.
  unfold size. split; [lia|]. apply Nat2Z.inj_le.
  destruct k; cbn [records length]; try lia. apply filter_length_le.
Qed.

Lemma size_of_type_bounds st k t :
  0 <= size (stations_of_type t (records st k)) <= Z.of_nat (length st).
Proof.
  pose proof (size_records_bounds st k) as [_ H]. unfold size in *. split; [lia|].
  etransitivity; [|exact H]. apply Nat2Z.inj_le, filter_length_le.
Qed.

Lemma traffic_filter_nonneg (f : station -> bool) st :
  Forall (fun s => 0 <= traffic_count s) st ->
  0 <= traffic (List.filter f st) <= traffic st.
Proof.
  induction 1 as [|s st Hs _ IH]; [cbn; lia|].
  unfold traffic in *. cbn [List.filter]. destruct (f s); cbn [map fold_right]; lia.
Qed.

Lemma traffic_records_nonneg st k :
  Forall (fun s => 0 <= traffic_count s) st -> 0 <= traffic (records st k).
Proof.
  intros H. destruct k; cbn [records]; try (cbn; lia).
  by apply traffic_filter_nonneg.
Qed.

Lemma apply_name_mapping_stations_facts station_df mapping :
  length (apply_name_mapping_stations station_df mapping) = length station_df
  /\ map st_type (apply_name_mapping_stations station_df mapping) = map st_type station_df
  /\ (Forall (fun s => 0 <= traffic_count s) station_df ->
      Forall (fun s => 0 <= traffic_count s) (apply_name_mapping_stations station_df mapping)).
Proof.
  unfold apply_name_mapping_stations. split; [apply length_map|]. split.
  - by rewrite map_map.
  - intros H. apply Forall_map. eapply Forall_impl; [exact H|]. done.
Qed.

(** C6, as the code has it: the aggregate has one row for each key of the
    deduplicated reference list, in its order, with the number of the
    municipality's station records, the number of its records of each
    observed type, and the sum of its traffic counts: non-negative
    integers, 0 for a municipality without records.  This holds when no
    type is called 'station' or 'municipality', and the sums of traffic
    counts stay below 2^53. *)
Theorem count_stations_aggregates mapping station_df municipalities_df :
  let stations := apply_name_mapping_stations station_df mapping in
  let types := group_keys (map st_type station_df) in
  let reference := drop_duplicates_from [] (canonical_keys mapping municipalities_df) in
  rectangular municipalities_df -> has_key municipalities_df ->
  "station" ∉ map st_type station_df ->
  "municipality" ∉ map st_type station_df ->
  Z.of_nat (length station_df) < 2 ^ 53 ->
  Forall (fun s => 0 <= traffic_count s) station_df ->
  (forall m, traffic (stations_in m stations) < 2 ^ 53) ->
  count_stations_per_municipality mapping station_df municipalities_df
  = Ok (mkDataFrame (aggregate_columns types)
          (map (aggregate_row stations types reference) reference))
  /\ NoDup reference
  /\ (forall k, k ∈ reference <-> k ∈ canonical_keys mapping municipalities_df)
  /\ NoDup (aggregate_columns types)
  /\ (forall k, isna k = false -> fill_key reference k = k)
  /\ (forall k t, 0 <= size (records stations k)
                  /\ 0 <= size (stations_of_type t (records stations k))
                  /\ 0 <= traffic (records stations k))
  /\ (forall k t, records stations k = [] ->
                  size (records stations k) = 0
                  /\ size (stations_of_type t (records stations k)) = 0
                  /\ traffic (records stations k) = 0).
Proof.
  intros stations types reference Hrect Hkey Hstation Hmun Hlen Hnonneg Hsum.
  destruct (apply_name_mapping_stations_facts station_df mapping) as (Hl & Ht & Hn).
  specialize (Hn Hnonneg). fold stations in Hl, Ht, Hn.
  assert (Htypes : group_keys (map st_type stations) = types) by (by rewrite Ht).
  assert (Hst : "station" ∉ types) by (unfold types; by rewrite group_keys_elem).
  assert (Hmu : "municipality" ∉ types) by (unfold types; by rewrite group_keys_elem).
  split; [|split; [apply drop_duplicates_from_NoDup|split; [|split; [|split; [|split]]]]].
  - unfold count_stations_per_municipality. fold stations.
    rewrite apply_name_mapping_renamed by done. cbn [mbind result_bind].
    destruct (reference_frame mapping municipalities_df Hrect Hkey) as (sel & Hsel & Href).
    rewrite Hsel. cbn [mbind result_bind]. rewrite Href. fold reference.
    rewrite station_type_count_frame_keyed by (by rewrite Htypes).
    cbn [mbind result_bind]. rewrite Htypes.
    rewrite station_count_frame_keyed, traffic_sum_frame_keyed.
    set (rks := map VStr (group_keys (map st_municipality stations))).
    assert (Hrks : NoDup rks) by apply group_cells_NoDup.
    rewrite merge_left_keyed; [|by apply not_elem_of_nil| |by intros c Hc; apply elem_of_nil in Hc|done].
    2:{ intros H. apply list_elem_of_singleton in H. discriminate H. }
    cbn [mbind result_bind].
    rewrite merge_left_keyed; [| | | |done].
    2:{ cbn [app]. intros H. apply list_elem_of_singleton in H. discriminate H. }
    2:{ intros H. apply list_elem_of_fmap in H as (t & H & _). symmetry in H.
        by apply count_label_not_key in H. }
    2:{ cbn [app]. intros c Hc Hc'. apply list_elem_of_singleton in Hc. subst c.
        apply list_elem_of_fmap in Hc' as (t & H & Hin). symmetry in H.
        apply count_label_station in H. by subst t. }
    cbn [mbind result_bind].
    rewrite merge_left_keyed; [| | | |done].
    2:{ cbn [app]. intros H. apply elem_of_cons in H as [H|H]; [discriminate H|].
        apply list_elem_of_fmap in H as (t & H & _). symmetry in H.
        by apply count_label_not_key in H. }
    2:{ intros H. apply list_elem_of_singleton in H. discriminate H. }
    2:{ cbn [app]. intros c Hc Hc'. apply list_elem_of_singleton in Hc'. subst c.
        apply elem_of_cons in Hc as [H|H]; [discriminate H|].
        apply list_elem_of_fmap in H as (t & H & _). symmetry in H.
        by apply count_label_not_traffic in H. }
    cbn [mbind result_bind].
    assert (Hsize : forall k, 0 <= size (records stations k) < 2 ^ 53).
    { intros k. pose proof (size_records_bounds stations k). lia. }
    assert (Htyped : forall k t, 0 <= size (stations_of_type t (records stations k)) < 2 ^ 53).
    { intros k t. pose proof (size_of_type_bounds stations k t). lia. }
    assert (Htraffic : forall k, 0 <= traffic (records stations k) < 2 ^ 53).
    { intros k. split; [by apply traffic_records_nonneg|].
      destruct k as [m| |]; cbn [records]; [apply Hsum|by vm_compute|by vm_compute]. }
    pose (zs1 := fun k => [size (records stations k)]).
    pose (zs2 := fun k => map (fun t => size (stations_of_type t (records stations k))) types).
    pose (zs3 := fun k => [traffic (records stations k)]).
    assert (H1 : forall k,
      mapM astype_int (map fill_float
        (joined reference rks (length ["station_count"])
           (fun k0 => [VInt (size (records stations k0))]) k)) = Ok (map VInt (zs1 k))
      /\ Forall (fun v => is_text v = false)
           (joined reference rks (length ["station_count"])
              (fun k0 => [VInt (size (records stations k0))]) k)
      /\ length (joined reference rks (length ["station_count"])
                   (fun k0 => [VInt (size (records stations k0))]) k)
         = length ["station_count"]).
    { intros k. apply joined_astype; [reflexivity| |reflexivity|].
      - constructor; [apply Hsize|constructor].
      - intros Hk. unfold zs1. rewrite (records_unmatched _ _ Hk). by repeat constructor. }
    assert (H2 : forall k,
      mapM astype_int (map fill_float
        (joined reference rks (length (map (fun t => String.append t "_count") types))
           (fun k0 => map (fun t => VInt (size (stations_of_type t (records stations k0))))
                          types) k)) = Ok (map VInt (zs2 k))
      /\ Forall (fun v => is_text v = false)
           (joined reference rks (length (map (fun t => String.append t "_count") types))
              (fun k0 => map (fun t => VInt (size (stations_of_type t (records stations k0))))
                             types) k)
      /\ length (joined reference rks (length (map (fun t => String.append t "_count") types))
                   (fun k0 => map (fun t => VInt (size (stations_of_type t
                                                          (records stations k0)))) types) k)
         = length (map (fun t => String.append t "_count") types)).
    { intros k. apply joined_astype.
      - unfold zs2. by rewrite map_map.
      - unfold zs2. apply Forall_map, Forall_forall. intros t _. apply Htyped.
      - unfold zs2. by rewrite !length_map.
      - intros Hk. unfold zs2. rewrite (records_unmatched _ _ Hk).
        apply Forall_map, Forall_forall. intros t _. reflexivity. }
    assert (H3 : forall k,
      mapM astype_int (map fill_float
        (joined reference rks (length ["total_traffic"])
           (fun k0 => [VInt (wrap_int64 (traffic (records stations k0)))]) k))
      = Ok (map VInt (zs3 k))
      /\ Forall (fun v => is_text v = false)
           (joined reference rks (length ["total_traffic"])
              (fun k0 => [VInt (wrap_int64 (traffic (records stations k0)))]) k)
      /\ length (joined reference rks (length ["total_traffic"])
                   (fun k0 => [VInt (wrap_int64 (traffic (records stations k0)))]) k)
         = length ["total_traffic"]).
    { intros k. apply joined_astype; [| |reflexivity|].
      - cbn beta. by rewrite wrap_int64_small by apply Htraffic.
      - constructor; [apply Htraffic|constructor].
      - intros Hk. unfold zs3. rewrite (records_unmatched _ _ Hk). by repeat constructor. }
    rewrite fillna_zero_keyed.
    2:{ intros k _. rewrite !Forall_app.
        destruct (H1 k) as (_ & T1 & _). destruct (H2 k) as (_ & T2 & _).
        destruct (H3 k) as (_ & T3 & _). repeat split; done. }
    cbn [columns].
    rewrite (astype_int_columns_keyed _ _ _ _
               (fun k => (([] ++ map VInt (zs1 k)) ++ map VInt (zs2 k)) ++ map VInt (zs3 k))).
    + unfold aggregate_columns. cbn [app]. f_equal. f_equal.
      apply map_ext. intros k. unfold aggregate_row, zs1, zs2, zs3.
      cbn [app map]. by rewrite map_map.
    + intros H. apply elem_of_app in H as [H|H].
      * apply list_elem_of_In, filter_In in H as [_ H]. discriminate H.
      * apply list_elem_of_singleton in H. discriminate H.
    + cbn [app]. intros c Hc. apply elem_of_app.
      apply elem_of_cons in Hc as [->|Hc].
      { left. apply list_elem_of_In, filter_In. split; [right; by left|reflexivity]. }
      apply elem_of_app in Hc as [Hc|Hc].
      * left. apply list_elem_of_In, filter_In. split.
        -- right. right. apply in_or_app. left. by apply list_elem_of_In.
        -- apply list_elem_of_fmap in Hc as (t & -> & _). apply count_label_has_substring.
      * by right.
    + intros l Hl'. apply elem_of_app in Hl' as [H|H].
      * apply list_elem_of_In, filter_In in H as [H _]. by apply list_elem_of_In.
      * apply list_elem_of_singleton in H. subst l. right. apply elem_of_app. right. by left.
    + intros k _. split.
      * rewrite length_map, !length_app.
        destruct (H1 k) as (_ & _ & ->). destruct (H2 k) as (_ & _ & ->).
        destruct (H3 k) as (_ & _ & ->). reflexivity.
      * rewrite !map_app.
        destruct (H1 k) as (E1 & _). destruct (H2 k) as (E2 & _). destruct (H3 k) as (E3 & _).
        apply mapM_app; [apply mapM_app; [apply mapM_app; [reflexivity|exact E1]|exact E2]|exact E3].
  - intros k. unfold reference. rewrite drop_duplicates_from_elem. split; [tauto|].
    intros H. split; [done|]. apply not_elem_of_nil.
  - apply aggregate_columns_NoDup; [apply group_keys_NoDup|done].
  - intros k Hk. unfold fill_key. by rewrite Hk.
  - intros k t. pose proof (size_records_bounds stations k).
    pose proof (size_of_type_bounds stations k t).
    pose proof (traffic_records_nonneg stations k Hn). lia.
  - intros k t ->. done.
Qed.

Lemma count_stations_aggregates_witness :
  let stations := apply_name_mapping_stations scenario_stations example_mapping in
  let types := group_keys (map st_type scenario_stations) in
  let reference :=
    drop_duplicates_from [] (canonical_keys example_mapping scenario_municipalities) in
  count_stations_per_municipality example_mapping scenario_stations scenario_municipalities
  = Ok (mkDataFrame (aggregate_columns types)
          (map (aggregate_row stations types reference) reference))
  /\ NoDup reference
  /\ (forall k, k ∈ reference <-> k ∈ canonical_keys example_mapping scenario_municipalities)
  /\ NoDup (aggregate_columns types)
  /\ (forall k, isna k = false -> fill_key reference k = k)
  /\ (forall k t, 0 <= size (records stations k)
                  /\ 0 <= size (stations_of_type t (records stations k))
                  /\ 0 <= traffic (records stations k))
  /\ (forall k t, records stations k = [] ->
                  size (records stations k) = 0
                  /\ size (stations_of_type t (records stations k)) = 0
                  /\ traffic (records stations k) = 0).
Proof.
  apply (count_stations_aggregates example_mapping scenario_stations scenario_municipalities).
  - repeat constructor.
  - by exists 0%nat.
  - cbn. rewrite !elem_of_cons, elem_of_nil. intuition discriminate.
  - cbn. rewrite !elem_of_cons, elem_of_nil. intuition discriminate.
  - reflexivity.
  - repeat constructor; cbn; lia.
  - intros m.
    assert (E : apply_name_mapping_stations scenario_stations example_mapping
                = scenario_stations) by (by vm_compute).
    rewrite E.
    assert (H : Forall (fun s => 0 <= traffic_count s) scenario_stations)
      by (repeat constructor; cbn; lia).
    pose proof (traffic_filter_nonneg
                  (fun s => String.eqb (st_municipality s) m) scenario_stations H) as [_ Hle].
    unfold stations_in. eapply Z.le_lt_trans; [exact Hle|]. reflexivity.
Defined.

(** C6, as stated, fails in three ways.  A sum of traffic counts above
    2^53 is rounded when another municipality of the reference list has no
    station, because the merged column is float64 before [astype(int)];
    a type called 'station' takes the label 'station_count', and the merge
    renames both columns; a type called 'municipality' makes
    [reset_index] raise. *)
Lemma count_stations_counterexample :
  count_stations_per_municipality example_mapping big_traffic_stations two_municipalities
  = Ok (mkDataFrame ["municipality"; "station_count"; "A_count"; "total_traffic"]
          [ [VStr "Utrecht"; VInt 1; VInt 1; VInt (2 ^ 53)];
            [VStr "Almere"; VInt 0; VInt 0; VInt 0] ])
  /\ traffic (stations_in "Utrecht" big_traffic_stations) = 2 ^ 53 + 1
  /\ count_stations_per_municipality example_mapping station_typed_stations one_municipality
     = Ok (mkDataFrame
             ["municipality"; "station_count_x"; "station_count_y"; "total_traffic"]
             [ [VStr "Utrecht"; VInt 1; VInt 1; VInt 5] ])
  /\ count_stations_per_municipality example_mapping municipality_typed_stations
       one_municipality
     = Raise ValueError.
Proof. repeat split; by vm_compute. Qed.

(** ** The cleaners, row by row *)

Lemma price_rows_filter str_to_float (rs : list (list value)) :
  Forall (fun r => length r = 4%nat) rs ->
  List.filter (fun r => forallb (fun i => negb (isna (cell i r))) [1%nat])
    (map (fun r => <[1%nat := coerce_cell str_to_float
                                (cell 1 (remove_positions_from 0 [1%nat; 2%nat] r))]>
                     (remove_positions_from 0 [1%nat; 2%nat] r)) rs)
  = omap (price_row str_to_float) rs.
Proof.
  induction 1 as [|r rs Hr _ IH]; [reflexivity|].
  cbn [map List.filter omap]. rewrite IH.
  destruct r as [|m [|a [|b [|v [|? ?]]]]]; try discriminate Hr.
  unfold price_row. cbn.
  destruct (isna (coerce_cell str_to_float v)); reflexivity.
Qed.

Lemma clean_price_data_rows str_to_float data :
  rectangular data -> length (columns data) = 4%nat ->
  clean_price_data str_to_float data
  = Ok (mkDataFrame ["municipality"; "avg_price"]
          (omap (price_row str_to_float) (rows data))).
Proof.
  intros Hrect Hcols. unfold clean_price_data, set_columns.
  rewrite Hcols. cbn [length Nat.eqb mbind result_bind].
  assert (Hdrop : forall rs,
    drop_columns (mkDataFrame ["municipality"; "Subject"; "Currency"; "avg_price"] rs)
      ["Subject"; "Currency"]
    = Ok (mkDataFrame ["municipality"; "avg_price"]
            (map (remove_positions_from 0 [1%nat; 2%nat]) rs))) by reflexivity.
  rewrite Hdrop. cbn [mbind result_bind].
  rewrite (getitem_at _ "avg_price" 1) by reflexivity. cbn [rows mbind result_bind].
  change (to_numeric str_to_float ?s) with (map (coerce_cell str_to_float) s).
  rewrite map_map, (setitem_at _ _ _ 1) by reflexivity. cbn [mbind result_bind].
  assert (Hsub : forall rs,
    dropna_subset (mkDataFrame ["municipality"; "avg_price"] rs) ["avg_price"]
    = Ok (mkDataFrame ["municipality"; "avg_price"]
            (List.filter (fun r => forallb (fun i => negb (isna (cell i r))) [1%nat]) rs)))
    by reflexivity.
  rewrite Hsub. f_equal. f_equal. rewrite map_map.
  unfold rectangular in Hrect. rewrite Hcols in Hrect.
  exact (price_rows_filter str_to_float (rows data) Hrect).
Qed.

Lemma omap_names_sublist (f : list value -> option (list value)) (rs : list (list value)) :
  (forall r r', f r = Some r' -> cell 0 r' = cell 0 r) ->
  map (cell 0) (omap f rs) `sublist_of` map (cell 0) rs.
Proof.
  intros Hf. induction rs as [|r rs IH]; [constructor|].
  cbn [omap list_omap map]. destruct (f r) as [r'|] eqn:E; cbn [map].
  - rewrite (Hf r r' E). by constructor.
  - by constructor.
Qed.

Lemma omap_column (f : list value -> option (list value)) (P : value -> Prop) i
    (rs : list (list value)) :
  (forall r r', f r = Some r' -> P (cell i r')) ->
  Forall P (map (cell i) (omap f rs)).
Proof.
  intros Hf. apply Forall_map, Forall_forall. intros r' Hr'.
  apply list_elem_of_omap in Hr' as (r & _ & Hr). by apply (Hf r).
Qed.

(** X1: on the four-column price file the cleaner keeps, in the order of
    the file, exactly the rows whose price is a number after coercion, as
    the pair of the unchanged name and the coerced price; no row of the
    output has a missing avg_price. *)
Theorem clean_price_data_keeps_priced_rows str_to_float data :
  rectangular data -> length (columns data) = 4%nat ->
  exists out names prices,
    clean_price_data str_to_float data = Ok out /\
    columns out = ["municipality"; "avg_price"] /\
    rows out = omap (price_row str_to_float) (rows data) /\
    getitem out "municipality" = Ok names /\
    getitem out "avg_price" = Ok prices /\
    names `sublist_of` map (cell 0) (rows data) /\
    Forall (fun v => isna v = false) prices.
Proof.
  intros Hrect Hcols.
  exists (mkDataFrame ["municipality"; "avg_price"]
            (omap (price_row str_to_float) (rows data))),
         (map (cell 0) (omap (price_row str_to_float) (rows data))),
         (map (cell 1) (omap (price_row str_to_float) (rows data))).
  split; [by apply clean_price_data_rows|].
  split; [reflexivity|]. split; [reflexivity|].
  split; [reflexivity|]. split; [reflexivity|]. split.
  - apply omap_names_sublist. intros r r'. unfold price_row.
    destruct (isna _); [discriminate|]. by intros [= <-].
  - apply omap_column. intros r r'. unfold price_row.
    destruct (isna _) eqn:E; [discriminate|]. by intros [= <-].
Qed.

Lemma clean_price_data_keeps_priced_rows_witness :
  exists out names prices,
    clean_price_data digits_to_float price_csv = Ok out /\
    columns out = ["municipality"; "avg_price"] /\
    rows out = omap (price_row digits_to_float) (rows price_csv) /\
    getitem out "municipality" = Ok names /\
    getitem out "avg_price" = Ok prices /\
    names `sublist_of` map (cell 0) (rows price_csv) /\
    Forall (fun v => isna v = false) prices.
Proof.
  apply (clean_price_data_keeps_priced_rows digits_to_float price_csv).
  - repeat constructor.
  - reflexivity.
Defined.

Lemma clean_price_data_example :
  clean_price_data digits_to_float price_csv
  = Ok (mkDataFrame ["municipality"; "avg_price"]
          [ [VStr "Utrecht"; VFloat (f64_of_Z 450000)];
            [VStr "Almere"; VFloat (f64_of_Z 300000)] ]).
Proof. by vm_compute. Qed.

(** The surface cleaner on any frame that has, after the renaming, one
    column 'municipality' and one column 'avg_surface'. *)
Lemma select_two df l1 l2 i j :
  col_pos df l1 = Ok i -> col_pos df l2 = Ok j ->
  select df [l1; l2]
  = Ok (mkDataFrame [l1; l2] (map (surface_cells i j) (rows df))).
Proof.
  intros Hi Hj. unfold select, label_positions. cbn [mapM].
  apply col_pos_Ok in Hi as [Hi _]. apply col_pos_Ok in Hj as [Hj _].
  rewrite Hi. cbn [mbind result_bind]. rewrite Hj. cbn [mbind result_bind concat app map].
  assert (Hn : forall l k, positions l (columns df) = [k] -> nth k (columns df) "" = l).
  { intros l k Hk.
    assert (Hin : k ∈ positions_from 0 l (columns df)) by (unfold positions in Hk; rewrite Hk; by left).
    apply positions_from_elem in Hin as [_ Hin]. rewrite Nat.sub_0_r in Hin.
    by apply nth_lookup_Some. }
  by rewrite (Hn l1 i Hi), (Hn l2 j Hj).
Qed.

Lemma clean_surface_data_selected str_to_float data i j :
  col_pos (rename corrected_columns data) "municipality" = Ok i ->
  col_pos (rename corrected_columns data) "avg_surface" = Ok j ->
  clean_surface_data str_to_float data
  = Ok (mkDataFrame ["municipality"; "avg_surface"]
          (map (surface_row str_to_float)
               (tail (List.filter complete (map (surface_cells i j) (rows data)))))).
Proof.
  intros Hi Hj. unfold clean_surface_data.
  rewrite (select_two _ _ _ i j Hi Hj). cbn [mbind result_bind].
  unfold reset_index, drop_first_row, dropna. cbn [columns rows rename].
  fold complete.
  set (rs := tail (List.filter complete (map (surface_cells i j) (rows data)))).
  rewrite (getitem_at _ "avg_surface" 1) by reflexivity. cbn [rows mbind result_bind].
  change (to_numeric str_to_float ?s) with (map (coerce_cell str_to_float) s).
  rewrite map_map, (setitem_at _ _ _ 1) by reflexivity.
  f_equal. f_equal. apply map_ext_in. intros r Hr.
  assert (Hlen : exists a b, r = [a; b]).
  { apply list_elem_of_In in Hr. unfold rs in Hr.
    assert (Hr' : r ∈ List.filter complete (map (surface_cells i j) (rows data))).
    { destruct (List.filter complete _) as [|? ?]; [done|]. by right. }
    apply list_elem_of_In, filter_In in Hr' as [Hr' _].
    apply in_map_iff in Hr' as (r0 & <- & _). by eexists _, _. }
  destruct Hlen as (a & b & ->). reflexivity.
Qed.

(** X2: on a frame that has, after the renaming, one 'municipality' and
    one 'avg_surface' column, the surface cleaner selects the two cells of
    every row, drops the rows with a missing cell, then drops the first of
    the remaining rows whatever it holds, and coerces the surface of the
    others: the output has one row fewer than the file has complete rows. *)
Theorem clean_surface_data_drops_first_complete_row str_to_float data i j :
  col_pos (rename corrected_columns data) "municipality" = Ok i ->
  col_pos (rename corrected_columns data) "avg_surface" = Ok j ->
  exists out,
    clean_surface_data str_to_float data = Ok out /\
    columns out = ["municipality"; "avg_surface"] /\
    rows out = map (surface_row str_to_float)
                 (tail (List.filter complete (map (surface_cells i j) (rows data)))) /\
    length (rows out)
    = pred (length (List.filter complete (map (surface_cells i j) (rows data)))).
Proof.
  intros Hi Hj. eexists. split; [by apply (clean_surface_data_selected _ _ i j)|].
  cbn [columns rows]. split; [reflexivity|]. split; [reflexivity|].
  rewrite length_map. by destruct (List.filter complete _).
Qed.

Lemma clean_surface_data_drops_first_complete_row_witness :
  exists out,
    clean_surface_data digits_to_float wide_surface_csv = Ok out /\
    columns out = ["municipality"; "avg_surface"] /\
    rows out = map (surface_row digits_to_float)
                 (tail (List.filter complete
                          (map (surface_cells 0 2) (rows wide_surface_csv)))) /\
    length (rows out)
    = pred (length (List.filter complete
                      (map (surface_cells 0 2) (rows wide_surface_csv)))).
Proof.
  apply (clean_surface_data_drops_first_complete_row digits_to_float wide_surface_csv 0 2).
  - by vm_compute.
  - by vm_compute.
Defined.

Lemma clean_surface_data_wide_example :
  clean_surface_data digits_to_float wide_surface_csv
  = Ok (mkDataFrame ["municipality"; "avg_surface"]
          [ [VStr "Perioden"; VFloat (f64_of_Z 2023)];
            [VStr "Almere"; VFloat (f64_of_Z 118)];
            [VStr "Ameland"; NaN] ]).
Proof. by vm_compute. Qed.

Lemma corrected_columns_target c label :
  default c (corrected_columns !! c) = label ->
  c = label \/ (c = "Unnamed: 0" /\ label = "municipality")
  \/ (c = "Totaal.1" /\ label = "avg_surface").
Proof.
  unfold corrected_columns. destruct (_ !! c) as [t|] eqn:E; cbn [default].
  - intros <-. apply lookup_insert_Some in E as [[<- <-]|[_ E]]; [tauto|].
    apply lookup_singleton_Some in E as [<- <-]. tauto.
  - tauto.
Qed.

(** X3: a surface file that has neither the column the cleaner renames to
    a selected label nor a column of that label makes the selection raise
    KeyError. *)
Theorem clean_surface_data_missing_column str_to_float data :
  (("Unnamed: 0" ∉ columns data) /\ ("municipality" ∉ columns data)) \/
  (("Totaal.1" ∉ columns data) /\ ("avg_surface" ∉ columns data)) ->
  exists label, clean_surface_data str_to_float data = Raise (KeyError label).
Proof.
  intros H.
  assert (Hren : forall label, label ∈ columns (rename corrected_columns data) ->
            label ∈ columns data
            \/ ("Unnamed: 0" ∈ columns data /\ label = "municipality")
            \/ ("Totaal.1" ∈ columns data /\ label = "avg_surface")).
  { intros label Hin. cbn [rename columns] in Hin.
    apply list_elem_of_fmap in Hin as (c & Hc & Hin). symmetry in Hc.
    apply corrected_columns_target in Hc as [->|[[-> ->]|[-> ->]]]; tauto. }
  unfold clean_surface_data, select, label_positions. cbn [mapM].
  destruct (positions "municipality" (columns (rename corrected_columns data)))
    as [|p ps] eqn:Em.
  { by exists "municipality". }
  cbn [mbind result_bind].
  destruct (positions "avg_surface" (columns (rename corrected_columns data)))
    as [|q qs] eqn:Es.
  { by exists "avg_surface". }
  exfalso.
  assert (Hm : "municipality" ∈ columns (rename corrected_columns data)).
  { assert (Hp : p ∈ positions_from 0 "municipality" (columns (rename corrected_columns data)))
      by (unfold positions in Em; rewrite Em; by left).
    apply positions_from_elem in Hp as [_ Hp]. by apply list_elem_of_lookup_2 in Hp. }
  assert (Hs : "avg_surface" ∈ columns (rename corrected_columns data)).
  { assert (Hq : q ∈ positions_from 0 "avg_surface" (columns (rename corrected_columns data)))
      by (unfold positions in Es; rewrite Es; by left).
    apply positions_from_elem in Hq as [_ Hq]. by apply list_elem_of_lookup_2 in Hq. }
  apply Hren in Hm, Hs.
  destruct H as [[H1 H2]|[H1 H2]].
  - destruct Hm as [?|[[? _]|[_ ?]]]; [done|done|discriminate].
  - destruct Hs as [?|[[_ ?]|[? _]]]; [done|discriminate|done].
Qed.

Lemma clean_surface_data_missing_column_witness :
  exists label, clean_surface_data digits_to_float narrow_surface_csv = Raise (KeyError label).
Proof.
  apply (clean_surface_data_missing_column digits_to_float narrow_surface_csv).
  right. cbn. rewrite !elem_of_cons, !elem_of_nil. split; intros H; intuition discriminate.
Defined.

Lemma municipality_rows_filter str_to_float (rs : list (list value)) :
  Forall (fun r => length r = 5%nat) rs ->
  List.filter (fun r => forallb (fun i => negb (isna (cell i r))) [1%nat; 2%nat; 3%nat])
    (map (fun r => municipality_steps str_to_float (remove_positions_from 0 [1%nat] r)) rs)
  = omap (municipality_row str_to_float) rs.
Proof.
  induction 1 as [|r rs Hr _ IH]; [reflexivity|].
  cbn [map List.filter omap list_omap]. rewrite IH.
  destruct r as [|m [|y [|a [|b [|c [|? ?]]]]]]; try discriminate Hr.
  unfold municipality_row, municipality_steps. cbn.
  destruct (isna (coerce_cell str_to_float (units_cell a)));
    destruct (isna (coerce_cell str_to_float (units_cell b)));
    destruct (isna (coerce_cell str_to_float (units_cell c))); reflexivity.
Qed.

Lemma clean_municipality_data_rows str_to_float data :
  rectangular data -> length (columns data) = 5%nat ->
  clean_municipality_data str_to_float data
  = Ok (mkDataFrame ["municipality"; "population"; "pop_density"; "size"]
          (omap (municipality_row str_to_float) (rows data))).
Proof.
  intros Hrect Hcols. unfold clean_municipality_data, set_columns.
  rewrite Hcols. cbn [length Nat.eqb mbind result_bind].
  assert (Hdrop : forall rs,
    drop_columns (mkDataFrame ["municipality"; "year"; "population"; "pop_density"; "size"] rs)
      ["year"]
    = Ok (mkDataFrame ["municipality"; "population"; "pop_density"; "size"]
            (map (remove_positions_from 0 [1%nat]) rs))) by reflexivity.
  rewrite Hdrop. cbn [mbind result_bind columns tail replace_units_in_columns].
  remember (map (remove_positions_from 0 [1%nat]) (rows data)) as rs0 eqn:E0.
  unfold replace_units.
  rewrite (getitem_at _ "population" 1) by reflexivity. cbn [rows mbind result_bind].
  rewrite map_map, (setitem_at _ _ _ 1) by reflexivity. cbn [mbind result_bind].
  remember (map (fun r => <[1%nat:=units_cell (cell 1 r)]> r) rs0) as rs1 eqn:E1.
  rewrite (getitem_at _ "pop_density" 2) by reflexivity. cbn [rows mbind result_bind].
  rewrite map_map, (setitem_at _ _ _ 2) by reflexivity. cbn [mbind result_bind].
  remember (map (fun r => <[2%nat:=units_cell (cell 2 r)]> r) rs1) as rs2 eqn:E2.
  rewrite (getitem_at _ "size" 3) by reflexivity. cbn [rows mbind result_bind].
  rewrite map_map, (setitem_at _ _ _ 3) by reflexivity. cbn [mbind result_bind].
  remember (map (fun r => <[3%nat:=units_cell (cell 3 r)]> r) rs2) as rs3 eqn:E3.
  change (to_numeric str_to_float ?s) with (map (coerce_cell str_to_float) s).
  rewrite (getitem_at _ "population" 1) by reflexivity. cbn [rows mbind result_bind].
  rewrite map_map, (setitem_at _ _ _ 1) by reflexivity. cbn [mbind result_bind].
  remember (map (fun r => <[1%nat:=coerce_cell str_to_float (cell 1 r)]> r) rs3) as rs4 eqn:E4.
  rewrite (getitem_at _ "pop_density" 2) by reflexivity. cbn [rows mbind result_bind].
  rewrite map_map, (setitem_at _ _ _ 2) by reflexivity. cbn [mbind result_bind].
  remember (map (fun r => <[2%nat:=coerce_cell str_to_float (cell 2 r)]> r) rs4) as rs5 eqn:E5.
  rewrite (getitem_at _ "size" 3) by reflexivity. cbn [rows mbind result_bind].
  rewrite map_map, (setitem_at _ _ _ 3) by reflexivity. cbn [mbind result_bind].
  assert (Hsub : forall rs,
    dropna_subset (mkDataFrame ["municipality"; "population"; "pop_density"; "size"] rs)
      ["population"; "pop_density"; "size"]
    = Ok (mkDataFrame ["municipality"; "population"; "pop_density"; "size"]
            (List.filter (fun r => forallb (fun i => negb (isna (cell i r)))
                                     [1%nat; 2%nat; 3%nat]) rs)))
    by reflexivity.
  rewrite Hsub. cbn [mbind result_bind]. unfold reset_index. f_equal. f_equal.
  subst rs5 rs4 rs3 rs2 rs1 rs0. rewrite !map_map.
  unfold rectangular in Hrect. rewrite Hcols in Hrect.
  exact (municipality_rows_filter str_to_float (rows data) Hrect).
Qed.

Lemma clean_municipality_data_example :
  clean_municipality_data digits_to_float municipality_csv
  = Ok (mkDataFrame ["municipality"; "population"; "pop_density"; "size"]
          [ [VStr "Utrecht"; VFloat (f64_of_Z 361699); VFloat (f64_of_Z 3846);
             VFloat (f64_of_Z 9921)];
            [VStr "Almere"; VFloat (f64_of_Z 222825); VFloat (f64_of_Z 1719);
             VFloat (f64_of_Z 24877)] ]).
Proof. by vm_compute. Qed.

(** X4: on the five-column municipality file the cleaner drops the year,
    strips the separators and units from the three measures, coerces them,
    and keeps, in the order of the file, exactly the rows whose three
    measures are numbers; the names are unchanged and no row of the output
    has a missing population, pop_density or size. *)
Theorem clean_municipality_data_keeps_measured_rows str_to_float data :
  rectangular data -> length (columns data) = 5%nat ->
  exists out names,
    clean_municipality_data str_to_float data = Ok out /\
    columns out = ["municipality"; "population"; "pop_density"; "size"] /\
    rows out = omap (municipality_row str_to_float) (rows data) /\
    getitem out "municipality" = Ok names /\
    names `sublist_of` map (cell 0) (rows data) /\
    (forall label s, label ∈ ["population"; "pop_density"; "size"] ->
       getitem out label = Ok s -> Forall (fun v => isna v = false) s).
Proof.
  intros Hrect Hcols.
  exists (mkDataFrame ["municipality"; "population"; "pop_density"; "size"]
            (omap (municipality_row str_to_float) (rows data))),
         (map (cell 0) (omap (municipality_row str_to_float) (rows data))).
  split; [by apply clean_municipality_data_rows|].
  split; [reflexivity|]. split; [reflexivity|]. split; [reflexivity|]. split.
  - apply omap_names_sublist. intros r r'. unfold municipality_row.
    destruct (_ || _); [discriminate|]. by intros [= <-].
  - intros label s Hlabel Hs.
    assert (Hrow : forall r r', municipality_row str_to_float r = Some r' ->
              isna (cell 1 r') = false /\ isna (cell 2 r') = false /\ isna (cell 3 r') = false).
    { intros r r'. unfold municipality_row.
      destruct (isna (coerce_cell str_to_float (units_cell (cell 2 r)))) eqn:E2;
        [discriminate|].
      destruct (isna (coerce_cell str_to_float (units_cell (cell 3 r)))) eqn:E3;
        [discriminate|].
      destruct (isna (coerce_cell str_to_float (units_cell (cell 4 r)))) eqn:E4;
        [discriminate|].
      by intros [= <-]. }
    rewrite !elem_of_cons, elem_of_nil in Hlabel.
    destruct Hlabel as [->|[->|[->|[]]]];
      [rewrite (getitem_at _ _ 1) in Hs by reflexivity
      |rewrite (getitem_at _ _ 2) in Hs by reflexivity
      |rewrite (getitem_at _ _ 3) in Hs by reflexivity];
      injection Hs as <-; cbn [rows]; apply omap_column; intros r r' Hr;
      by destruct (Hrow r r' Hr) as (? & ? & ?).
Qed.

Lemma clean_municipality_data_keeps_measured_rows_witness :
  exists out names,
    clean_municipality_data digits_to_float municipality_csv = Ok out /\
    columns out = ["municipality"; "population"; "pop_density"; "size"] /\
    rows out = omap (municipality_row digits_to_float) (rows municipality_csv) /\
    getitem out "municipality" = Ok names /\
    names `sublist_of` map (cell 0) (rows municipality_csv) /\
    (forall label s, label ∈ ["population"; "pop_density"; "size"] ->
       getitem out label = Ok s -> Forall (fun v => isna v = false) s).
Proof.
  apply (clean_municipality_data_keeps_measured_rows digits_to_float municipality_csv).
  - repeat constructor.
  - reflexivity.
Defined.

(** X5: the output of the income cleaner has no missing avg_income, and
    its municipality names are names of the file, unchanged and in the
    order of the file. *)
Theorem clean_income_data_no_missing str_to_float missing_incomes data :
  rectangular data -> length (columns data) = 2%nat ->
  exists out names incomes,
    clean_income_data str_to_float missing_incomes data = Ok out /\
    getitem out "municipality" = Ok names /\
    getitem out "avg_income" = Ok incomes /\
    names `sublist_of` map (cell 0) (rows data) /\
    Forall (fun v => isna v = false) incomes.
Proof.
  intros Hrect Hcols.
  exists (mkDataFrame ["municipality"; "avg_income"]
            (omap (income_row str_to_float missing_incomes) (rows data))),
         (map (cell 0) (omap (income_row str_to_float missing_incomes) (rows data))),
         (map (cell 1) (omap (income_row str_to_float missing_incomes) (rows data))).
  split; [by apply clean_income_data_rows|].
  split; [reflexivity|]. split; [reflexivity|]. split.
  - apply omap_names_sublist. intros r r' Hr. unfold income_row in Hr. cbv zeta in Hr.
    match type of Hr with (if ?c then _ else _) = _ => destruct c end;
      [discriminate|]. by injection Hr as <-.
  - apply omap_column. intros r r' Hr. unfold income_row in Hr. cbv zeta in Hr.
    match type of Hr with (if ?c then _ else _) = _ => destruct c eqn:E end;
      [discriminate|]. by injection Hr as <-.
Qed.

Lemma clean_income_data_no_missing_witness :
  exists out names incomes,
    clean_income_data digits_to_float utrecht_incomes income_csv = Ok out /\
    getitem out "municipality" = Ok names /\
    getitem out "avg_income" = Ok incomes /\
    names `sublist_of` map (cell 0) (rows income_csv) /\
    Forall (fun v => isna v = false) incomes.
Proof.
  apply (clean_income_data_no_missing digits_to_float utrecht_incomes income_csv).
  - repeat constructor.
  - reflexivity.
Defined.

(** X6: the three cleaners that assign the column labels refuse a file of
    another width: the assignment raises ValueError. *)
Theorem cleaners_reject_other_widths str_to_float missing_incomes data :
  (length (columns data) <> 4%nat -> clean_price_data str_to_float data = Raise ValueError)
  /\ (length (columns data) <> 5%nat ->
      clean_municipality_data str_to_float data = Raise ValueError)
  /\ (length (columns data) <> 2%nat ->
      clean_income_data str_to_float missing_incomes data = Raise ValueError).
Proof.
  unfold clean_price_data, clean_municipality_data, clean_income_data, set_columns.
  cbn [length].
  split; [|split]; intros H.
  - destruct (Nat.eqb_spec 4 (length (columns data))) as [E|_]; [by rewrite <- E in H|done].
  - destruct (Nat.eqb_spec 5 (length (columns data))) as [E|_]; [by rewrite <- E in H|done].
  - destruct (Nat.eqb_spec 2 (length (columns data))) as [E|_]; [by rewrite <- E in H|done].
Qed.

Lemma cleaners_reject_other_widths_witness :
  clean_price_data digits_to_float income_csv = Raise ValueError
  /\ clean_municipality_data digits_to_float income_csv = Raise ValueError
  /\ clean_income_data digits_to_float utrecht_incomes price_csv = Raise ValueError.
Proof.
  destruct (cleaners_reject_other_widths digits_to_float utrecht_incomes income_csv)
    as (H1 & H2 & _).
  destruct (cleaners_reject_other_widths digits_to_float utrecht_incomes price_csv)
    as (_ & _ & H3).
  split; [apply H1; cbn; lia|]. split; [apply H2; cbn; lia|apply H3; cbn; lia].
Defined.

(** ** The regular-expression replacements *)

Lemma comma_to_dot_no_comma s :
  Forall (fun c => byte_code c <> 44%nat) (list_ascii_of_string (comma_to_dot s)).
Proof.
  induction s as [|c s IH]; [constructor|]. cbn [comma_to_dot].
  destruct (Nat.eqb_spec (byte_code c) 44) as [E|E]; cbn [list_ascii_of_string];
    constructor; done.
Qed.

Lemma remove_spaces_from_Forall (P : ascii -> Prop) s : forall skip,
  Forall P (list_ascii_of_string s) ->
  Forall P (list_ascii_of_string (remove_spaces_from skip s)).
Proof.
  induction s as [|c s IH]; intros skip H; [constructor|].
  cbn [list_ascii_of_string] in H. apply Forall_cons in H as [Hc Hs].
  cbn [remove_spaces_from]. destruct skip as [|k]; [|by apply IH].
  destruct (space_prefix (String c s)) as [|k]; [|by apply IH].
  cbn [list_ascii_of_string]. constructor; [done|by apply IH].
Qed.

Lemma space_prefix_ascii c s :
  space_prefix (String c s) = 0%nat -> is_ascii_space c = false.
Proof.
  unfold space_prefix, is_ascii_space. cbv zeta.
  destruct (_ || _); [discriminate|done].
Qed.

Lemma remove_spaces_from_no_space s : forall skip,
  Forall (fun c => is_ascii_space c = false)
    (list_ascii_of_string (remove_spaces_from skip s)).
Proof.
  induction s as [|c s IH]; intros skip; [constructor|].
  cbn [remove_spaces_from]. destruct skip as [|k]; [|by apply IH].
  destruct (space_prefix (String c s)) as [|k] eqn:E; [|by apply IH].
  cbn [list_ascii_of_string]. constructor; [|by apply IH].
  by apply (space_prefix_ascii c s).
Qed.

Lemma remove_all_from_Forall (P : ascii -> Prop) p s : forall skip,
  Forall P (list_ascii_of_string s) ->
  Forall P (list_ascii_of_string (remove_all_from skip p s)).
Proof.
  induction s as [|c s IH]; intros skip H; [constructor|].
  cbn [list_ascii_of_string] in H. apply Forall_cons in H as [Hc Hs].
  cbn [remove_all_from]. destruct skip as [|k]; [|by apply IH].
  destruct (String.prefix p (String c s)); [by apply IH|].
  cbn [list_ascii_of_string]. constructor; [done|by apply IH].
Qed.

Lemma comma_prefix c s :
  String.prefix "," (String c s) = false -> byte_code c <> 44%nat.
Proof.
  cbn [String.prefix]. destruct (ascii_dec "," c) as [|Hne]; [by destruct s|].
  intros _ E. apply Hne. unfold byte_code in E.
  rewrite <- (ascii_nat_embedding c), E. reflexivity.
Qed.

Lemma remove_all_comma s :
  Forall (fun c => byte_code c <> 44%nat) (list_ascii_of_string (remove_all "," s)).
Proof.
  unfold remove_all. induction s as [|c s IH]; [constructor|].
  cbn [remove_all_from]. destruct (String.prefix "," (String c s)) eqn:E.
  - exact IH.
  - cbn [list_ascii_of_string]. constructor; [by apply (comma_prefix c s)|exact IH].
Qed.

Lemma no_comma_found s :
  has_substring "," s = false ->
  Forall (fun c => byte_code c <> 44%nat) (list_ascii_of_string s).
Proof.
  induction s as [|c s IH]; [constructor|].
  cbn [has_substring]. intros H. apply orb_false_iff in H as [H1 H2].
  cbn [list_ascii_of_string]. constructor; [by apply (comma_prefix c s)|by apply IH].
Qed.

Lemma no_space_found s :
  has_space s = false ->
  Forall (fun c => is_ascii_space c = false) (list_ascii_of_string s).
Proof.
  induction s as [|c s IH]; [constructor|].
  cbn [has_space]. intros H. apply orb_false_iff in H as [H1 H2].
  cbn [list_ascii_of_string]. constructor; [|by apply IH].
  apply (space_prefix_ascii c s). apply negb_false_iff in H1. by apply Nat.eqb_eq.
Qed.

(** X7: the replacement of the income cleaner and the replacement of the
    municipality cleaner turn a text cell into a text without a comma and
    without an ASCII white-space character. *)
Theorem replacements_leave_no_separator (t : string) :
  exists t1 t2,
    replace_cell (VStr t) = VStr t1 /\
    units_cell (VStr t) = VStr t2 /\
    Forall no_separator (list_ascii_of_string t1) /\
    Forall no_separator (list_ascii_of_string t2).
Proof.
  exists (remove_spaces (comma_to_dot t)), (strip_units t).
  split; [reflexivity|]. split; [reflexivity|]. split.
  - apply Forall_and. split.
    + apply remove_spaces_from_Forall, comma_to_dot_no_comma.
    + apply remove_spaces_from_no_space.
  - unfold strip_units. cbv zeta.
    set (t1 := if has_substring "," t then remove_all "," t else t).
    set (t2 := if has_substring " km²" t then remove_all " km²" t1 else t1).
    set (t3 := if has_substring " aantal" t then remove_all " aantal" t2 else t2).
    assert (Hsub : forall (P : ascii -> Prop),
              Forall P (list_ascii_of_string t1) -> Forall P (list_ascii_of_string t3)).
    { intros P H1.
      assert (H2 : Forall P (list_ascii_of_string t2)).
      { unfold t2. destruct (has_substring " km²" t); [|done].
        by apply remove_all_from_Forall. }
      unfold t3. destruct (has_substring " aantal" t); [|done].
      by apply remove_all_from_Forall. }
    assert (Hcomma : Forall (fun c => byte_code c <> 44%nat) (list_ascii_of_string t1)).
    { unfold t1. destruct (has_substring "," t) eqn:E; [apply remove_all_comma|].
      by apply no_comma_found. }
    apply Forall_and. split.
    + destruct (has_space t); [apply remove_spaces_from_Forall|]; by apply Hsub.
    + destruct (has_space t) eqn:E; [apply remove_spaces_from_no_space|].
      apply Hsub. unfold t1. destruct (has_substring "," t).
      * apply remove_all_from_Forall. by apply no_space_found.
      * by apply no_space_found.
Qed.

(** ** Geometry processor: outcomes *)

(** X8: [calculate_centroid_lat_lon] raises exactly when shapely rejects
    the geometry, with shapely's exception; otherwise it returns either
    (None, None) or a pair of two numbers, and it returns numbers exactly
    when the geometry has a centroid and both projections succeed: the
    pair is the (lat, lon) of the second projection's result. *)
Theorem calculate_centroid_lat_lon_outcomes {F} (lib : GeoLib F) (g : geojson_geometry lib) :
  (forall e, calculate_centroid_lat_lon lib g = Raise e <-> shape lib g = Raise e)
  /\ (forall r, calculate_centroid_lat_lon lib g = Ok r ->
        r = (None, None) \/ exists lat lon, r = (Some lat, Some lon))
  /\ (forall lat lon,
        calculate_centroid_lat_lon lib g = Ok (Some lat, Some lon) <->
        exists sg c rest p,
          shape lib g = Ok sg /\
          centroid_coords lib sg = c :: rest /\
          transform_to_3857 lib (fst c) (snd c) = Ok p /\
          transform_to_4326 lib (fst p) (snd p) = Ok (lon, lat)).
Proof.
  unfold calculate_centroid_lat_lon.
  destruct (shape lib g) as [sg|e0]; cbn [mbind result_bind].
  - split; [|split].
    + intros e. split; discriminate.
    + intros r [= <-].
      destruct (centroid_coords lib sg) as [|c rest]; cbn; [by left|].
      destruct (transform_to_3857 lib (fst c) (snd c)) as [p|?]; cbn; [|by left].
      destruct (transform_to_4326 lib (fst p) (snd p)) as [q|?]; cbn; [|by left].
      right. by eexists _, _.
    + intros lat lon. split.
      * intros [= H]. exists sg.
        destruct (centroid_coords lib sg) as [|c rest]; cbn in H; [discriminate|].
        exists c, rest.
        destruct (transform_to_3857 lib (fst c) (snd c)) as [p|?]; cbn in H; [|discriminate].
        exists p.
        destruct (transform_to_4326 lib (fst p) (snd p)) as [[x y]|?]; cbn in H;
          [|discriminate].
        injection H as -> ->. done.
      * intros (sg' & c & rest & p & [= <-] & Hc & Hp & Hq).
        rewrite Hc. cbn [first_coord mbind result_bind]. rewrite Hp. cbn [mbind result_bind].
        rewrite Hq. reflexivity.
  - split; [|split].
    + intros e. split; by intros [= ->].
    + discriminate.
    + intros lat lon. split; [discriminate|]. by intros (sg & c & rest & p & [=] & _).
Qed.

(** ** Haversine distance on the reals *)

Lemma Q2R_Z (z : Z) : Q2R (inject_Z z) = IZR z.
Proof. unfold Q2R, inject_Z. cbn. lra. Qed.

Lemma haversine_a_bounds phi1 phi2 delta_lambda :
  (0 <= haversine_a phi1 phi2 delta_lambda <= 1)%R.
Proof.
  unfold haversine_a.
  pose proof (sin2_cos2 phi1) as H1. pose proof (sin2_cos2 phi2) as H2.
  unfold Rsqr in H1, H2.
  pose proof (cos_2a_sin ((phi2 - phi1) / 2)) as Hd.
  replace (2 * ((phi2 - phi1) / 2))%R with (phi2 - phi1)%R in Hd by lra.
  rewrite cos_minus in Hd.
  pose proof (sin2_cos2 (delta_lambda / 2)) as H3. unfold Rsqr in H3.
  set (s1 := sin phi1) in *. set (c1 := cos phi1) in *.
  set (s2 := sin phi2) in *. set (c2 := cos phi2) in *.
  set (u := sin (delta_lambda / 2)) in *. set (w := cos (delta_lambda / 2)) in *.
  set (d := sin ((phi2 - phi1) / 2)) in *.
  assert (Hd2 : (d ^ 2 = (1 - c2 * c1 - s2 * s1) / 2)%R) by nra.
  rewrite Hd2.
  assert (Hu : (0 <= u ^ 2 <= 1)%R) by nra.
  set (t := (1 - 2 * u ^ 2)%R).
  assert (Ht : (-1 <= t <= 1)%R) by (unfold t; lra).
  assert (Hm1 : (2 - 2 * (s1 * s2 + c1 * c2 * t)
                 = (s1 - s2) ^ 2 + (c1 - c2 * t) ^ 2 + c2 ^ 2 * (1 - t ^ 2))%R) by nra.
  assert (Hm2 : (2 + 2 * (s1 * s2 + c1 * c2 * t)
                 = (s1 + s2) ^ 2 + (c1 + c2 * t) ^ 2 + c2 ^ 2 * (1 - t ^ 2))%R) by nra.
  assert (Hsq : (0 <= c2 ^ 2 * (1 - t ^ 2))%R).
  { apply Rmult_le_pos; [apply pow2_ge_0|nra]. }
  assert (Hp1 : (0 <= (s1 - s2) ^ 2)%R) by apply pow2_ge_0.
  assert (Hp2 : (0 <= (c1 - c2 * t) ^ 2)%R) by apply pow2_ge_0.
  assert (Hp3 : (0 <= (s1 + s2) ^ 2)%R) by apply pow2_ge_0.
  assert (Hp4 : (0 <= (c1 + c2 * t) ^ 2)%R) by apply pow2_ge_0.
  replace ((1 - c2 * c1 - s2 * s1) / 2 + c1 * c2 * u ^ 2)%R
    with ((2 - 2 * (s1 * s2 + c1 * c2 * t)) / 4)%R by (unfold t; lra).
  split; lra.
Qed.

Lemma R_atan2_quadrant y x :
  (0 <= y)%R -> (0 <= x)%R -> (0 <= R_atan2 y x <= PI / 2)%R.
Proof.
  intros Hy Hx. pose proof PI_RGT_0 as Hpi. unfold R_atan2.
  destruct (Rlt_dec 0 x) as [Hpos|Hn].
  - assert (Hq : (0 <= y / x)%R).
    { unfold Rdiv. apply Rmult_le_pos; [lra|]. left. by apply Rinv_0_lt_compat. }
    pose proof (atan_bound (y / x)) as [_ Hb]. split; [|lra].
    destruct Hq as [Hq|<-]; [|rewrite atan_0; lra].
    rewrite <- atan_0. left. by apply atan_increasing.
  - destruct (Rlt_dec x 0); [lra|].
    destruct (Rlt_dec 0 y); [lra|]. destruct (Rlt_dec y 0); lra.
Qed.

(** The value of the haversine distance on the reals. *)
Lemma haversine_real lat1 lon1 lat2 lon2 :
  haversine lat1 lon1 lat2 lon2 = Ok (great_circle lat1 lon1 lat2 lon2).
Proof.
  unfold great_circle.
  set (a := haversine_a (lat1 * (PI / 180)) (lat2 * (PI / 180))
              ((lon2 - lon1) * (PI / 180))).
  pose proof (haversine_a_bounds (lat1 * (PI / 180)) (lat2 * (PI / 180))
                          ((lon2 - lon1) * (PI / 180))) as Ha. fold a in Ha.
  unfold haversine. cbn [float_lit fadd fsub fmul fdiv fpow math_radians math_sin
                          math_cos math_atan2 math_sqrt real_arithmetic].
  change 6371%Q with (inject_Z 6371). change 2%Q with (inject_Z 2).
  change 1%Q with (inject_Z 1). rewrite !Q2R_Z.
  replace ((lat2 - lat1) * (PI / 180) / 2)%R
    with ((lat2 * (PI / 180) - lat1 * (PI / 180)) / 2)%R by lra.
  change (sin ((lat2 * (PI / 180) - lat1 * (PI / 180)) / 2) ^ 2 +
          cos (lat1 * (PI / 180)) * cos (lat2 * (PI / 180)) *
          sin ((lon2 - lon1) * (PI / 180) / 2) ^ 2)%R with a.
  rewrite !R_sqrt_nonneg by lra. reflexivity.
Qed.

(** X9: on the real numbers the haversine distance is defined for every
    pair of points: the two square roots never fail, and the distance lies
    between 0 and half the circumference of the sphere of radius 6371. *)
Theorem haversine_real_bounds (lat1 lon1 lat2 lon2 : R) :
  exists distance,
    haversine lat1 lon1 lat2 lon2 = Ok distance /\
    (0 <= distance <= 6371 * PI)%R.
Proof.
  eexists. split; [apply haversine_real|]. unfold great_circle. cbv zeta.
  pose proof (haversine_a_bounds (lat1 * (PI / 180)) (lat2 * (PI / 180))
                ((lon2 - lon1) * (PI / 180))) as Ha.
  set (a := haversine_a _ _ _) in *.
  pose proof (R_atan2_quadrant (sqrt a) (sqrt (1 - a)) (sqrt_pos _) (sqrt_pos _)) as Hq.
  lra.
Qed.

(** ** Geometry processor: the returned table *)

Lemma mapM_Forall2 {A B} (f : A -> result B) (l : list A) (bs : list B) :
  mapM f l = Ok bs <-> Forall2 (fun a b => f a = Ok b) l bs.
Proof.
  revert bs. induction l as [|a l IH]; intros bs; cbn [mapM].
  - split; [intros [= <-]; constructor|]. intros H. by inversion H.
  - split.
    + intros H. apply bind_Ok in H as (b & Hb & H). apply bind_Ok in H as (bs' & Hbs & [= <-]).
      constructor; [done|]. by apply IH.
    + intros H. inversion H as [|a' b l' bs' Hb Hbs]; subst.
      rewrite Hb. cbn [mbind result_bind]. apply IH in Hbs. by rewrite Hbs.
Qed.

(** One pass of the loop over the features. *)
Lemma geojson_feature_row {F} `{PyFloat F} (lib : GeoLib F) mapping
    (f : feature (geojson_geometry lib)) (row : string * F) :
  (centroid ← calculate_centroid_lat_lon lib (geometry f);
   lat ← as_real_number (fst centroid);
   lon ← as_real_number (snd centroid);
   schiphol_distance ← haversine lat lon (fst schiphol_coords) (snd schiphol_coords);
   Ok (canonicalize mapping (statnaam f), schiphol_distance)) = Ok row
  <-> fst row = canonicalize mapping (statnaam f) /\
      exists lat lon,
        calculate_centroid_lat_lon lib (geometry f) = Ok (Some lat, Some lon) /\
        haversine lat lon (fst schiphol_coords) (snd schiphol_coords) = Ok (snd row).
Proof.
  split.
  - intros Hrow.
    apply bind_Ok in Hrow as ([lat lon] & Hc & Hrow). cbn [fst snd] in Hrow.
    destruct lat as [lat|]; [|discriminate]. destruct lon as [lon|]; [|discriminate].
    cbn [as_real_number mbind result_bind] in Hrow.
    apply bind_Ok in Hrow as (d & Hd & [= <-]). split; [reflexivity|].
    by exists lat, lon.
  - intros (Hname & lat & lon & Hc & Hd). rewrite Hc.
    cbn [mbind result_bind fst snd as_real_number]. rewrite Hd. cbn [mbind result_bind].
    destruct row as [n d]. cbn [fst snd] in *. by subst.
Qed.

(** X10: a table returned by [load_and_process_geojson] has one row per
    feature, in the order of the collection: the reconciled name of the
    feature and the haversine distance from its computed centroid to
    Schiphol. *)
Theorem load_and_process_geojson_rows {F} `{PyFloat F} (lib : GeoLib F) mapping
    (features : list (feature (geojson_geometry lib))) (table : list (string * F)) :
  load_and_process_geojson lib mapping features = Ok table ->
  length table = length features
  /\ map fst table = map (fun f => canonicalize mapping (statnaam f)) features
  /\ Forall2 (fun f row =>
                exists lat lon,
                  calculate_centroid_lat_lon lib (geometry f) = Ok (Some lat, Some lon) /\
                  haversine lat lon (fst schiphol_coords) (snd schiphol_coords)
                  = Ok (snd row)) features table.
Proof.
  unfold load_and_process_geojson. intros Hload. apply mapM_Forall2 in Hload.
  induction Hload as [|f row features table Hrow _ IH].
  - split; [done|]. split; [done|]. constructor.
  - destruct IH as (Hlen & Hnames & Hrows).
    apply geojson_feature_row in Hrow as (Hname & Hrow).
    cbn [length map]. rewrite Hlen, Hnames, Hname.
    split; [done|]. split; [done|]. by constructor.
Qed.

Lemma den_haag_table :
  load_and_process_geojson triangle_lib example_mapping [den_haag_feature]
  = Ok [("'s-Gravenhage", great_circle (north_latitude / 3) 1 (523158 / 10000) (47480 / 10000))].
Proof.
  unfold load_and_process_geojson, den_haag_feature. cbn [mapM geometry statnaam].
  rewrite calculate_centroid_tall_triangle.
  cbn [mbind result_bind as_real_number fst snd]. rewrite haversine_real.
  cbn [mbind result_bind]. reflexivity.
Qed.

Lemma load_and_process_geojson_rows_witness :
  let table :=
    [("'s-Gravenhage",
      great_circle (north_latitude / 3) 1 (523158 / 10000) (47480 / 10000))] in
  length table = length [den_haag_feature]
  /\ map fst table
     = map (fun f => canonicalize example_mapping (statnaam f)) [den_haag_feature]
  /\ Forall2 (fun f row =>
                exists lat lon,
                  calculate_centroid_lat_lon triangle_lib (geometry f)
                  = Ok (Some lat, Some lon) /\
                  haversine lat lon (fst schiphol_coords) (snd schiphol_coords)
                  = Ok (snd row)) [den_haag_feature] table.
Proof.
  intros table.
  apply (load_and_process_geojson_rows triangle_lib example_mapping [den_haag_feature] table).
  exact den_haag_table.
Defined.

(** X11: on the real numbers [load_and_process_geojson] returns a table
    exactly when the centroid of every feature is computed; with one
    feature whose geometry is rejected or whose centroid is (None, None),
    the call raises and no table is returned. *)
Theorem load_and_process_geojson_real_total (lib : GeoLib R) mapping
    (features : list (feature (geojson_geometry lib))) :
  (exists table, load_and_process_geojson lib mapping features = Ok table)
  <-> Forall (fun f => exists lat lon,
                calculate_centroid_lat_lon lib (geometry f) = Ok (Some lat, Some lon))
             features.
Proof.
  unfold load_and_process_geojson. split.
  - intros [table Hload]. apply mapM_Forall2 in Hload.
    induction Hload as [|f row features table Hrow _ IH]; constructor; [|done].
    apply geojson_feature_row in Hrow as (_ & lat & lon & Hc & _). by exists lat, lon.
  - induction 1 as [|f features (lat & lon & Hc) _ [table IH]].
    + by exists [].
    + eexists. cbn [mapM]. rewrite Hc. cbn [mbind result_bind as_real_number fst snd].
      rewrite haversine_real. cbn [mbind result_bind]. rewrite IH. reflexivity.
Qed.

(** ** Dataset merger: order of the rows, layout of the columns *)

Lemma filter_filter_and {A} (f g : A -> bool) (l : list A) :
  List.filter g (List.filter f l) = List.filter (fun x => f x && g x) l.
Proof.
  induction l as [|x l IH]; [reflexivity|]. cbn [List.filter].
  destruct (f x); cbn [List.filter andb]; [|exact IH]. by rewrite IH.
Qed.

Lemma filter_true {A} (l : list A) : List.filter (fun _ => true) l = l.
Proof. induction l as [|x l IH]; [reflexivity|]. cbn. by rewrite IH. Qed.

(** The keys of the merge loop's result, as a list: the keys of the first
    frame that every later frame has, in the order of the first frame. *)
Lemma merge_all_key_list others : forall merged i out,
  col_pos merged "municipality" = Ok i ->
  Forall (fun l => (i < length l)%nat) (rows merged) ->
  Forall has_key others ->
  Forall (fun d => NoDup (raw_keys d)) others ->
  merge_all merged others = Ok out ->
  has_key out /\
  raw_keys out
  = List.filter (fun k => forallb (fun d => bool_decide (k ∈ raw_keys d)) others)
      (raw_keys merged).
Proof.
  induction others as [|data others IH]; intros merged i out Hi Hlen Hkeys Hnds Hout.
  - injection Hout as <-. split; [by exists i|]. cbn [forallb]. by rewrite filter_true.
  - apply Forall_cons in Hkeys as [Hk Hkeys]. apply Forall_cons in Hnds as [Hn Hnds].
    cbn [merge_all] in Hout.
    destruct (merge merged data "municipality" inner) as [m|e] eqn:Hm; [|discriminate Hout].
    cbn [mbind result_bind] in Hout.
    destruct (merge_step merged data i m Hi Hlen Hk Hn Hm) as (Hmi & Hmlen & Hmkeys).
    destruct (IH m i out Hmi Hmlen Hkeys Hnds Hout) as (Hhas & Hlist).
    split; [done|]. rewrite Hlist, Hmkeys, filter_filter_and. reflexivity.
Qed.

(** The merger on frames that have the key column: the merge loop on the
    reconciled frames. *)
Lemma merge_datasets_renamed mapping first others :
  Forall has_key (first :: others) ->
  merge_datasets mapping (first :: others)
  = merge_all (renamed mapping first) (map (renamed mapping) others).
Proof.
  intros Hkey. unfold merge_datasets.
  rewrite (mapM_Ok_total _ (renamed mapping)); [reflexivity|].
  intros d Hd. apply apply_name_mapping_renamed.
  rewrite Forall_forall in Hkey. by apply Hkey.
Qed.

(** A merge that returns was given frames that all have the key column. *)
Lemma merge_datasets_inputs_have_key mapping datasets out :
  merge_datasets mapping datasets = Ok out -> Forall has_key datasets.
Proof.
  unfold merge_datasets. intros H. apply bind_Ok in H as (ds & Hds & _).
  apply mapM_Forall2 in Hds. induction Hds as [|d d' l l' Hd _ IH]; constructor; [|done].
  unfold apply_name_mapping, getitem in Hd.
  destruct (col_pos d "municipality") as [i|e] eqn:Hi; [by exists i|discriminate].
Qed.

Lemma forallb_map_ext {A B} (f : B -> bool) (g : A -> B) (h : A -> bool) (l : list A) :
  (forall a, a ∈ l -> f (g a) = h a) -> forallb f (map g l) = forallb h l.
Proof.
  induction l as [|a l IH]; intros H; [reflexivity|]. cbn [map forallb].
  rewrite H by left. f_equal. apply IH. intros b Hb. apply H. by right.
Qed.

Lemma merge_datasets_key_list mapping first others out :
  Forall rectangular (first :: others) ->
  Forall (fun d => NoDup (canonical_keys mapping d)) others ->
  merge_datasets mapping (first :: others) = Ok out ->
  has_key out /\
  raw_keys out = List.filter (in_all mapping others) (canonical_keys mapping first).
Proof.
  intros Hrect Hnd Hout.
  pose proof (merge_datasets_inputs_have_key _ _ _ Hout) as Hkey.
  rewrite merge_datasets_renamed in Hout by done.
  apply Forall_cons in Hrect as [Hr1 Hrs]. apply Forall_cons in Hkey as [Hk1 Hks].
  destruct (renamed_facts mapping first Hr1 Hk1) as (_ & Hraw1 & _ & i & Hi & Hlen).
  assert (Hothers : forall d, d ∈ others ->
            has_key (renamed mapping d) /\
            raw_keys (renamed mapping d) = canonical_keys mapping d).
  { intros d Hd. rewrite Forall_forall in Hrs, Hks.
    destruct (renamed_facts mapping d (Hrs d Hd) (Hks d Hd)) as (H1 & H2 & _). done. }
  destruct (merge_all_key_list (map (renamed mapping) others) (renamed mapping first) i out
              Hi Hlen) as (Hhas & Hlist); [| |done|].
  { apply Forall_map, Forall_forall. intros d Hd. by apply Hothers. }
  { apply Forall_map, Forall_forall. intros d Hd. cbn.
    destruct (Hothers d Hd) as [_ ->]. rewrite Forall_forall in Hnd. by apply Hnd. }
  split; [done|]. rewrite Hlist, Hraw1. apply filter_ext_in. intros k _.
  unfold in_all. apply forallb_map_ext. intros d Hd.
  by destruct (Hothers d Hd) as [_ ->].
Qed.

(** X12: the merged table lists the keys of the first table that every
    later table has, in the order of the first table and as often as the
    first table has them; only the later tables need distinct keys. *)
Theorem merge_datasets_key_order mapping first others out :
  Forall rectangular (first :: others) ->
  Forall (fun d => NoDup (canonical_keys mapping d)) others ->
  merge_datasets mapping (first :: others) = Ok out ->
  keys out = Ok (List.filter (in_all mapping others) (canonical_keys mapping first))
  /\ length (rows out)
     = length (List.filter (in_all mapping others) (canonical_keys mapping first)).
Proof.
  intros Hrect Hnd Hout.
  destruct (merge_datasets_key_list mapping first others out Hrect Hnd Hout)
    as (Hhas & Hlist).
  split.
  - rewrite (keys_raw_keys out Hhas). by rewrite Hlist.
  - rewrite <- (raw_keys_length out Hhas). by rewrite Hlist.
Qed.

Lemma merge_datasets_repeated_example :
  merge_datasets example_mapping [repeated_prices_table; surfaces_table; incomes_table]
  = Ok (mkDataFrame ["municipality"; "avg_price"; "avg_surface"; "avg_income"]
          [ [VStr "Almere"; VInt 300000; VInt 120; VInt 41];
            [VStr "'s-Gravenhage"; VInt 400000; VInt 95; VInt 45];
            [VStr "Almere"; VInt 310000; VInt 120; VInt 41] ]).
Proof. by vm_compute. Qed.

Lemma merge_datasets_key_order_witness :
  let out :=
    mkDataFrame ["municipality"; "avg_price"; "avg_surface"; "avg_income"]
      [ [VStr "Almere"; VInt 300000; VInt 120; VInt 41];
        [VStr "'s-Gravenhage"; VInt 400000; VInt 95; VInt 45];
        [VStr "Almere"; VInt 310000; VInt 120; VInt 41] ] in
  keys out
  = Ok (List.filter (in_all example_mapping [surfaces_table; incomes_table])
          (canonical_keys example_mapping repeated_prices_table))
  /\ length (rows out)
     = length (List.filter (in_all example_mapping [surfaces_table; incomes_table])
                 (canonical_keys example_mapping repeated_prices_table)).
Proof.
  intros out.
  apply (merge_datasets_key_order example_mapping repeated_prices_table
           [surfaces_table; incomes_table] out).
  - repeat constructor.
  - assert (E1 : canonical_keys example_mapping surfaces_table
                 = [VStr "'s-Gravenhage"; VStr "Almere"]) by (by vm_compute).
    assert (E2 : canonical_keys example_mapping incomes_table
                 = [VStr "Almere"; VStr "'s-Gravenhage"; VStr "Ameland"]) by (by vm_compute).
    apply Forall_cons. split; [rewrite E1|apply Forall_cons; split; [rewrite E2|constructor]];
      apply NoDup_ListNoDup; repeat constructor; cbn; intuition discriminate.
  - by vm_compute.
Defined.

Lemma in_all_spec mapping datasets k :
  in_all mapping datasets k = true
  <-> Forall (fun d => k ∈ canonical_keys mapping d) datasets.
Proof.
  unfold in_all. rewrite forallb_forall, Forall_forall. split.
  - intros H d Hd. apply list_elem_of_In in Hd. specialize (H d Hd).
    by apply bool_decide_eq_true in H.
  - intros H d Hd. apply bool_decide_eq_true. apply H. by apply list_elem_of_In.
Qed.

(** The keys of the merged table as a set, for tables with distinct keys. *)
Lemma merge_datasets_key_set mapping datasets out :
  Forall rectangular datasets ->
  Forall (fun d => NoDup (canonical_keys mapping d)) datasets ->
  merge_datasets mapping datasets = Ok out ->
  exists ks,
    keys out = Ok ks /\ NoDup ks /\
    (forall k, k ∈ ks <-> Forall (fun d => k ∈ canonical_keys mapping d) datasets).
Proof.
  intros Hrect Hnd Hout. destruct datasets as [|first others]; [discriminate|].
  apply Forall_cons in Hnd as [Hn1 Hns].
  destruct (merge_datasets_key_list mapping first others out Hrect Hns Hout)
    as (Hhas & Hlist).
  exists (raw_keys out). split; [by apply keys_raw_keys|]. rewrite Hlist. split.
  - apply NoDup_ListNoDup, List.NoDup_filter. by apply NoDup_ListNoDup.
  - intros k. rewrite Forall_cons, <- in_all_spec. split.
    + intros H. apply list_elem_of_In, filter_In in H as [H1 H2].
      split; [by apply list_elem_of_In|done].
    + intros [H1 H2]. apply list_elem_of_In, filter_In. split; [by apply list_elem_of_In|done].
Qed.

(** X13: for tables with distinct keys, the order in which the tables are
    passed to the merger does not change the set of municipalities of the
    merged table: two merges of the same tables in different orders have
    the same keys, up to the order of the rows. *)
Theorem merge_datasets_order_insensitive mapping datasets datasets' out out' :
  Forall rectangular datasets ->
  Forall (fun d => NoDup (canonical_keys mapping d)) datasets ->
  datasets ≡ₚ datasets' ->
  merge_datasets mapping datasets = Ok out ->
  merge_datasets mapping datasets' = Ok out' ->
  exists ks ks', keys out = Ok ks /\ keys out' = Ok ks' /\ ks ≡ₚ ks'.
Proof.
  intros Hrect Hnd Hperm Hout Hout'.
  destruct (merge_datasets_key_set mapping datasets out Hrect Hnd Hout)
    as (ks & Hks & Hndks & Hiff).
  destruct (merge_datasets_key_set mapping datasets' out') as (ks' & Hks' & Hndks' & Hiff');
    [by rewrite <- Hperm|by rewrite <- Hperm|done|].
  exists ks, ks'. split; [done|]. split; [done|].
  apply NoDup_Permutation; [done|done|].
  intros k. rewrite Hiff, Hiff'. by rewrite Hperm.
Qed.

Lemma merge_datasets_order_insensitive_witness :
  exists ks ks',
    keys (mkDataFrame ["municipality"; "avg_price"; "avg_surface"]
            [ [VStr "'s-Gravenhage"; VInt 400000; VInt 95] ]) = Ok ks /\
    keys (mkDataFrame ["municipality"; "avg_surface"; "avg_price"]
            [ [VStr "'s-Gravenhage"; VInt 95; VInt 400000] ]) = Ok ks' /\
    ks ≡ₚ ks'.
Proof.
  apply (merge_datasets_order_insensitive example_mapping
           [prices_table; surfaces_table] [surfaces_table; prices_table]).
  - repeat constructor.
  - assert (E1 : canonical_keys example_mapping prices_table
                 = [VStr "Utrecht"; VStr "'s-Gravenhage"]) by (by vm_compute).
    assert (E2 : canonical_keys example_mapping surfaces_table
                 = [VStr "'s-Gravenhage"; VStr "Almere"]) by (by vm_compute).
    apply Forall_cons. split; [rewrite E1|apply Forall_cons; split; [rewrite E2|constructor]];
      apply NoDup_ListNoDup; repeat constructor; cbn; intuition discriminate.
  - apply perm_swap.
  - by vm_compute.
  - by vm_compute.
Defined.

Lemma remove_key_position k label j cols :
  positions_from k label cols = [j] ->
  remove_positions_from k [j] cols
  = List.filter (fun c => negb (String.eqb c label)) cols.
Proof.
  revert k. induction cols as [|c cols IH]; intros k; [discriminate|].
  cbn [positions_from remove_positions_from existsb List.filter].
  destruct (String.eqb_spec c label) as [->|Hne]; cbn [negb].
  - intros [= <- Hrest]. rewrite Nat.eqb_refl. cbn [orb].
    rewrite remove_positions_from_below by lia.
    symmetry. apply forallb_filter_id, forallb_forall. intros c Hc.
    apply negb_true_iff, String.eqb_neq. intros ->.
    apply list_elem_of_In in Hc. by apply (positions_from_present (S k)) in Hc.
  - intros Hpos.
    assert (Hj : j ∈ positions_from (S k) label cols) by (rewrite Hpos; by left).
    apply positions_from_elem in Hj as [Hj _].
    destruct (Nat.eqb_spec k j) as [->|_]; [lia|]. cbn [orb]. f_equal. by apply IH.
Qed.

(** The merge loop on frames that share no label but the key: the columns
    of the first frame, then the other columns of every later frame. *)
Lemma merge_all_columns others : forall merged seen,
  has_key merged ->
  (forall c, c ∈ columns merged -> c = "municipality" \/ c ∈ seen) ->
  Forall has_key others ->
  NoDup (seen ++ concat (map non_key_labels others)) ->
  exists out,
    merge_all merged others = Ok out /\
    columns out = columns merged ++ concat (map non_key_labels others).
Proof.
  induction others as [|data others IH]; intros merged seen Hm Hseen Hkeys Hnd.
  - exists merged. split; [done|]. cbn. by rewrite app_nil_r.
  - apply Forall_cons in Hkeys as [[j Hj] Hkeys]. destruct Hm as [i Hi].
    cbn [map concat] in Hnd.
    assert (Hcompat : forall c, c ∈ columns merged -> c ∈ columns data -> c = "municipality").
    { intros c Hc Hc'. destruct (String.eqb_spec c "municipality") as [|Hne]; [done|].
      exfalso. destruct (Hseen c Hc) as [|Hs]; [done|].
      apply NoDup_app in Hnd as (_ & Hdisj & _). apply (Hdisj c Hs).
      apply elem_of_app. left. apply list_elem_of_In, filter_In.
      split; [by apply list_elem_of_In|]. by apply negb_true_iff, String.eqb_neq. }
    destruct (no_suffix_clash "municipality" j _ _ Hcompat) as (E1 & E2 & Eclash).
    cbn [merge_all]. unfold merge. rewrite Hi, Hj. cbn [mbind result_bind].
    rewrite Eclash. cbn [mbind result_bind].
    apply col_pos_Ok in Hi as Hi'. destruct Hi' as [Hpi _].
    apply col_pos_Ok in Hj as Hj'. destruct Hj' as [Hpj _].
    assert (Hcols : merge_columns "municipality" j (columns merged) (columns data)
                    = columns merged ++ non_key_labels data).
    { unfold merge_columns. rewrite E1, E2. f_equal. by apply remove_key_position. }
    destruct (IH (mkDataFrame (merge_columns "municipality" j (columns merged) (columns data))
                    (merge_rows inner i j (length (columns data) - 1)
                       (rows merged) (rows data)))
                 (seen ++ non_key_labels data)) as (out & Hout & Hcolumns).
    + exists i. by apply col_pos_merge.
    + cbn [columns]. rewrite Hcols. intros c Hc.
      apply elem_of_app in Hc as [Hc|Hc].
      * destruct (Hseen c Hc) as [|Hs]; [by left|]. right. apply elem_of_app. by left.
      * right. apply elem_of_app. by right.
    + done.
    + by rewrite <- app_assoc.
    + exists out. split; [done|]. rewrite Hcolumns. cbn [columns map concat].
      by rewrite Hcols, <- app_assoc.
Qed.

(** X14: tables that have the key column and share no other label are
    merged without a refusal, and the merged table has the columns of the
    first table followed by the columns other than the key of every later
    table, in the order of the tables. *)
Theorem merge_datasets_columns mapping first others :
  Forall has_key (first :: others) ->
  NoDup (concat (map non_key_labels (first :: others))) ->
  exists out,
    merge_datasets mapping (first :: others) = Ok out /\
    columns out = columns first ++ concat (map non_key_labels others).
Proof.
  intros Hkey Hlabels. rewrite merge_datasets_renamed by done.
  apply Forall_cons in Hkey as [[i Hi] Hks].
  assert (Hcols : forall d, has_key d -> columns (renamed mapping d) = columns d).
  { intros d [j Hj]. unfold renamed. by rewrite Hj. }
  assert (Hhas : forall d, has_key d -> has_key (renamed mapping d)).
  { intros d [j Hj]. exists j. unfold renamed. rewrite Hj. exact Hj. }
  assert (Hnk : map non_key_labels (map (renamed mapping) others)
                = map non_key_labels others).
  { rewrite map_map. apply map_ext_in. intros d Hd. unfold non_key_labels.
    rewrite Hcols; [done|]. rewrite Forall_forall in Hks. by apply Hks, list_elem_of_In. }
  destruct (merge_all_columns (map (renamed mapping) others) (renamed mapping first)
              (non_key_labels first)) as (out & Hout & Hcolumns).
  - apply Hhas. by exists i.
  - rewrite (Hcols first) by (by exists i). intros c Hc.
    destruct (String.eqb_spec c "municipality") as [|Hne]; [by left|]. right.
    apply list_elem_of_In, filter_In. split; [by apply list_elem_of_In|].
    by apply negb_true_iff, String.eqb_neq.
  - apply Forall_map, Forall_forall. intros d Hd. apply Hhas.
    rewrite Forall_forall in Hks. by apply Hks.
  - by rewrite Hnk.
  - exists out. split; [done|]. rewrite Hcolumns, Hnk, Hcols; [done|by exists i].
Qed.

Lemma merge_datasets_columns_witness :
  exists out,
    merge_datasets example_mapping [prices_table; surfaces_table; incomes_table] = Ok out /\
    columns out
    = columns prices_table ++ concat (map non_key_labels [surfaces_table; incomes_table]).
Proof.
  apply (merge_datasets_columns example_mapping prices_table [surfaces_table; incomes_table]).
  - repeat constructor; [by exists 0%nat|by exists 0%nat|by exists 1%nat].
  - apply NoDup_ListNoDup. repeat constructor; cbn; intuition discriminate.
Defined.

(** X15: the merger called without a table raises IndexError; called with
    one table it returns that table with the municipality names
    reconciled: same columns, same number of rows, every other column as
    it was. *)
Theorem merge_datasets_single_table mapping data :
  rectangular data -> has_key data ->
  merge_datasets mapping [] = Raise IndexError
  /\ exists out,
       merge_datasets mapping [data] = Ok out /\
       columns out = columns data /\
       length (rows out) = length (rows data) /\
       keys out = Ok (canonical_keys mapping data) /\
       (forall label, label <> "municipality" -> getitem out label = getitem data label).
Proof.
  intros Hrect [i Hi]. split; [reflexivity|].
  exists (renamed mapping data). split.
  { rewrite merge_datasets_renamed by (repeat constructor; by exists i). reflexivity. }
  destruct (renamed_facts mapping data Hrect) as (Hhas & Hraw & Hlen & _); [by exists i|].
  split; [unfold renamed; by rewrite Hi|]. split; [done|]. split.
  - rewrite (keys_raw_keys _ Hhas). by rewrite Hraw.
  - intros label Hne. unfold getitem, renamed. rewrite Hi.
    change (col_pos (mkDataFrame (columns data) ?rs) label) with (col_pos data label).
    destruct (col_pos data label) as [j|e] eqn:Hj; [|reflexivity].
    cbn [mbind result_bind rows]. f_equal. rewrite map_map. apply map_ext. intros r.
    apply cell_insert_ne. apply (col_pos_ne data "municipality" label); done.
Qed.

Lemma merge_datasets_single_table_witness :
  merge_datasets example_mapping [] = Raise IndexError
  /\ exists out,
       merge_datasets example_mapping [prices_table] = Ok out /\
       columns out = columns prices_table /\
       length (rows out) = length (rows prices_table) /\
       keys out = Ok (canonical_keys example_mapping prices_table) /\
       (forall label, label <> "municipality" ->
          getitem out label = getitem prices_table label).
Proof.
  apply (merge_datasets_single_table example_mapping prices_table).
  - repeat constructor.
  - by exists 0%nat.
Defined.

(** ** Price per square meter: refusals, repetition, missing values *)




(** Assigning to a column the values it has leaves the frame as it is. *)
Lemma setitem_same df label s :
  rectangular df -> getitem df label = Ok s -> setitem df label s = Ok df.
Proof.
  intros Hrect Hs. unfold getitem in Hs. apply bind_Ok in Hs as (i & Hi & [= <-]).
  apply col_pos_Ok in Hi as [Hpos Hlt]. destruct df as [cols rs]. cbn [columns rows] in *.
  rewrite (setitem_at _ _ _ i) by done. f_equal. f_equal.
  rewrite <- (map_id rs) at 2. apply map_ext_in. intros r Hr.
  unfold rectangular in Hrect. cbn [columns rows] in Hrect. rewrite Forall_forall in Hrect.
  apply list_elem_of_In in Hr. specialize (Hrect r Hr).
  destruct (lookup_lt_is_Some_2 r i) as [x Hx]; [lia|].
  apply list_insert_id. rewrite Hx. f_equal. unfold cell. symmetry. by apply nth_lookup_Some.
Qed.

(** X17: on numeric price and surface columns the price computation is
    idempotent: applied to its own result it returns that result. *)
Theorem process_merged_data_idempotent data prices surfaces out :
  rectangular data -> NoDup (columns data) ->
  getitem data "avg_price" = Ok prices ->
  getitem data "avg_surface" = Ok surfaces ->
  Forall numeric prices -> Forall numeric surfaces ->
  process_merged_data data = Ok out ->
  process_merged_data out = Ok out.
Proof.
  intros Hrect Hnd Hp Hs Hnp Hns Hout.
  destruct (process_merged_data_Ok data prices surfaces Hp Hs Hnp Hns) as [E Hlen].
  destruct (setitem_spec data "m2_price" _ Hrect Hnd Hlen)
    as (out' & Hout' & Hrect' & _ & _ & Hm2 & Hother & _).
  assert (out' = out) by congruence. subst out'.
  assert (Hp' : getitem out "avg_price" = Ok prices) by (by rewrite Hother).
  assert (Hs' : getitem out "avg_surface" = Ok surfaces) by (by rewrite Hother).
  destruct (process_merged_data_Ok out prices surfaces Hp' Hs' Hnp Hns) as [E' _].
  rewrite E'. by apply setitem_same.
Qed.

Lemma process_merged_data_idempotent_witness :
  process_merged_data
    (mkDataFrame ["municipality"; "avg_price"; "avg_surface"; "m2_price"]
       [ [VStr "Utrecht"; VInt 450000; VInt 100; VFloat (f64_of_Z 4500)];
         [VStr "Almere"; VFloat (f64_of_Z 300000); VFloat (f64_of_Z 120);
          VFloat (f64_of_Z 2500)] ])
  = Ok (mkDataFrame ["municipality"; "avg_price"; "avg_surface"; "m2_price"]
          [ [VStr "Utrecht"; VInt 450000; VInt 100; VFloat (f64_of_Z 4500)];
            [VStr "Almere"; VFloat (f64_of_Z 300000); VFloat (f64_of_Z 120);
             VFloat (f64_of_Z 2500)] ]).
Proof.
  apply (process_merged_data_idempotent priced_data
           [VInt 450000; VFloat (f64_of_Z 300000)] [VInt 100; VFloat (f64_of_Z 120)]).
  - repeat constructor.
  - apply NoDup_ListNoDup. repeat constructor; cbn; intuition discriminate.
  - reflexivity.
  - reflexivity.
  - repeat constructor.
  - repeat constructor.
  - by vm_compute.
Defined.

Lemma quotient_missing p s :
  isna p = true \/ isna s = true -> quotient p s = NaN.
Proof.
  intros [H|H].
  - destruct p as [|[]|]; try discriminate H. reflexivity.
  - destruct s as [|[]|]; try discriminate H. unfold quotient. cbn [to_float].
    by destruct (to_float p).
Qed.

(** X18: on numeric price and surface columns, a row whose avg_price or
    avg_surface is missing is kept, and its m2_price is missing. *)
Theorem process_merged_data_missing data prices surfaces :
  rectangular data -> NoDup (columns data) ->
  getitem data "avg_price" = Ok prices ->
  getitem data "avg_surface" = Ok surfaces ->
  Forall numeric prices -> Forall numeric surfaces ->
  exists out m2_price,
    process_merged_data data = Ok out /\
    length (rows out) = length (rows data) /\
    getitem out "m2_price" = Ok m2_price /\
    (forall i p s, prices !! i = Some p -> surfaces !! i = Some s ->
       isna p = true \/ isna s = true -> m2_price !! i = Some NaN).
Proof.
  intros Hrect Hnd Hp Hs Hnp Hns.
  destruct (process_merged_data_Ok data prices surfaces Hp Hs Hnp Hns) as [E Hlen].
  destruct (setitem_spec data "m2_price" _ Hrect Hnd Hlen)
    as (out & Hout & _ & _ & Hrows & Hm2 & _).
  exists out, (zip_with quotient prices surfaces). rewrite E.
  split; [done|]. split; [done|]. split; [done|].
  intros i p s Hpi Hsi Hmiss. apply lookup_zip_with_Some.
  exists p, s. split; [|done]. symmetry. by apply quotient_missing.
Qed.

Lemma process_merged_data_missing_witness :
  exists out m2_price,
    process_merged_data gapped_data = Ok out /\
    length (rows out) = length (rows gapped_data) /\
    getitem out "m2_price" = Ok m2_price /\
    (forall i p s, [NaN; VInt 300000; VInt 300000] !! i = Some p ->
       [VInt 100; NaN; VInt 120] !! i = Some s ->
       isna p = true \/ isna s = true -> m2_price !! i = Some NaN).
Proof.
  apply (process_merged_data_missing gapped_data).
  - repeat constructor.
  - apply NoDup_ListNoDup. repeat constructor; cbn; intuition discriminate.
  - reflexivity.
  - reflexivity.
  - repeat constructor.
  - repeat constructor.
Defined.

(** The frame the aggregator returns: one row per key of the deduplicated
    reference list, with the counts and the traffic of its records. *)
Lemma count_stations_frame mapping station_df municipalities_df :
  let stations := apply_name_mapping_stations station_df mapping in
  let types := group_keys (map st_type station_df) in
  let reference := drop_duplicates_from [] (canonical_keys mapping municipalities_df) in
  rectangular municipalities_df -> has_key municipalities_df ->
  "station" ∉ map st_type station_df ->
  "municipality" ∉ map st_type station_df ->
  Z.of_nat (length station_df) < 2 ^ 53 ->
  Forall (fun s => 0 <= traffic_count s) station_df ->
  (forall m, traffic (stations_in m stations) < 2 ^ 53) ->
  count_stations_per_municipality mapping station_df municipalities_df
  = Ok (mkDataFrame (aggregate_columns types)
          (map (aggregate_row stations types reference) reference)).
Proof.
  intros stations types reference Hrect Hkey Hstation Hmun Hlen Hnonneg Hsum.
  destruct (apply_name_mapping_stations_facts station_df mapping) as (Hl & Ht & Hn).
  specialize (Hn Hnonneg). fold stations in Hl, Ht, Hn.
  assert (Htypes : group_keys (map st_type stations) = types) by (by rewrite Ht).
  assert (Hst : "station" ∉ types) by (unfold types; by rewrite group_keys_elem).
  assert (Hmu : "municipality" ∉ types) by (unfold types; by rewrite group_keys_elem).
  unfold count_stations_per_municipality. fold stations.
  rewrite apply_name_mapping_renamed by done. cbn [mbind result_bind].
  destruct (reference_frame mapping municipalities_df Hrect Hkey) as (sel & Hsel & Href).
  rewrite Hsel. cbn [mbind result_bind]. rewrite Href. fold reference.
  rewrite station_type_count_frame_keyed by (by rewrite Htypes).
  cbn [mbind result_bind]. rewrite Htypes.
  rewrite station_count_frame_keyed, traffic_sum_frame_keyed.
  set (rks := map VStr (group_keys (map st_municipality stations))).
  assert (Hrks : NoDup rks) by apply group_cells_NoDup.
  rewrite merge_left_keyed; [|by apply not_elem_of_nil| |by intros c Hc; apply elem_of_nil in Hc|done].
  2:{ intros H. apply list_elem_of_singleton in H. discriminate H. }
  cbn [mbind result_bind].
  rewrite merge_left_keyed; [| | | |done].
  2:{ cbn [app]. intros H. apply list_elem_of_singleton in H. discriminate H. }
  2:{ intros H. apply list_elem_of_fmap in H as (t & H & _). symmetry in H.
      by apply count_label_not_key in H. }
  2:{ cbn [app]. intros c Hc Hc'. apply list_elem_of_singleton in Hc. subst c.
      apply list_elem_of_fmap in Hc' as (t & H & Hin). symmetry in H.
      apply count_label_station in H. by subst t. }
  cbn [mbind result_bind].
  rewrite merge_left_keyed; [| | | |done].
  2:{ cbn [app]. intros H. apply elem_of_cons in H as [H|H]; [discriminate H|].
      apply list_elem_of_fmap in H as (t & H & _). symmetry in H.
      by apply count_label_not_key in H. }
  2:{ intros H. apply list_elem_of_singleton in H. discriminate H. }
  2:{ cbn [app]. intros c Hc Hc'. apply list_elem_of_singleton in Hc'. subst c.
      apply elem_of_cons in Hc as [H|H]; [discriminate H|].
      apply list_elem_of_fmap in H as (t & H & _). symmetry in H.
      by apply count_label_not_traffic in H. }
  cbn [mbind result_bind].
  assert (Hsize : forall k, 0 <= size (records stations k) < 2 ^ 53).
  { intros k. pose proof (size_records_bounds stations k). lia. }
  assert (Htyped : forall k t, 0 <= size (stations_of_type t (records stations k)) < 2 ^ 53).
  { intros k t. pose proof (size_of_type_bounds stations k t). lia. }
  assert (Htraffic : forall k, 0 <= traffic (records stations k) < 2 ^ 53).
  { intros k. split; [by apply traffic_records_nonneg|].
    destruct k as [m| |]; cbn [records]; [apply Hsum|by vm_compute|by vm_compute]. }
  pose (zs1 := fun k => [size (records stations k)]).
  pose (zs2 := fun k => map (fun t => size (stations_of_type t (records stations k))) types).
  pose (zs3 := fun k => [traffic (records stations k)]).
  assert (H1 : forall k,
    mapM astype_int (map fill_float
      (joined reference rks (length ["station_count"])
         (fun k0 => [VInt (size (records stations k0))]) k)) = Ok (map VInt (zs1 k))
    /\ Forall (fun v => is_text v = false)
         (joined reference rks (length ["station_count"])
            (fun k0 => [VInt (size (records stations k0))]) k)
    /\ length (joined reference rks (length ["station_count"])
                 (fun k0 => [VInt (size (records stations k0))]) k)
       = length ["station_count"]).
  { intros k. apply joined_astype; [reflexivity| |reflexivity|].
    - constructor; [apply Hsize|constructor].
    - intros Hk. unfold zs1. rewrite (records_unmatched _ _ Hk). by repeat constructor. }
  assert (H2 : forall k,
    mapM astype_int (map fill_float
      (joined reference rks (length (map (fun t => String.append t "_count") types))
         (fun k0 => map (fun t => VInt (size (stations_of_type t (records stations k0))))
                        types) k)) = Ok (map VInt (zs2 k))
    /\ Forall (fun v => is_text v = false)
         (joined reference rks (length (map (fun t => String.append t "_count") types))
            (fun k0 => map (fun t => VInt (size (stations_of_type t (records stations k0))))
                           types) k)
    /\ length (joined reference rks (length (map (fun t => String.append t "_count") types))
                 (fun k0 => map (fun t => VInt (size (stations_of_type t
                                                        (records stations k0)))) types) k)
       = length (map (fun t => String.append t "_count") types)).
  { intros k. apply joined_astype.
    - unfold zs2. by rewrite map_map.
    - unfold zs2. apply Forall_map, Forall_forall. intros t _. apply Htyped.
    - unfold zs2. by rewrite !length_map.
    - intros Hk. unfold zs2. rewrite (records_unmatched _ _ Hk).
      apply Forall_map, Forall_forall. intros t _. reflexivity. }
  assert (H3 : forall k,
    mapM astype_int (map fill_float
      (joined reference rks (length ["total_traffic"])
         (fun k0 => [VInt (wrap_int64 (traffic (records stations k0)))]) k))
    = Ok (map VInt (zs3 k))
    /\ Forall (fun v => is_text v = false)
         (joined reference rks (length ["total_traffic"])
            (fun k0 => [VInt (wrap_int64 (traffic (records stations k0)))]) k)
    /\ length (joined reference rks (length ["total_traffic"])
                 (fun k0 => [VInt (wrap_int64 (traffic (records stations k0)))]) k)
       = length ["total_traffic"]).
  { intros k. apply joined_astype; [| |reflexivity|].
    - cbn beta. by rewrite wrap_int64_small by apply Htraffic.
    - constructor; [apply Htraffic|constructor].
    - intros Hk. unfold zs3. rewrite (records_unmatched _ _ Hk). by repeat constructor. }
  rewrite fillna_zero_keyed.
  2:{ intros k _. rewrite !Forall_app.
      destruct (H1 k) as (_ & T1 & _). destruct (H2 k) as (_ & T2 & _).
      destruct (H3 k) as (_ & T3 & _). repeat split; done. }
  cbn [columns].
  rewrite (astype_int_columns_keyed _ _ _ _
             (fun k => (([] ++ map VInt (zs1 k)) ++ map VInt (zs2 k)) ++ map VInt (zs3 k))).
  + unfold aggregate_columns. cbn [app]. f_equal. f_equal.
    apply map_ext. intros k. unfold aggregate_row, zs1, zs2, zs3.
    cbn [app map]. by rewrite map_map.
  + intros H. apply elem_of_app in H as [H|H].
    * apply list_elem_of_In, filter_In in H as [_ H]. discriminate H.
    * apply list_elem_of_singleton in H. discriminate H.
  + cbn [app]. intros c Hc. apply elem_of_app.
    apply elem_of_cons in Hc as [->|Hc].
    { left. apply list_elem_of_In, filter_In. split; [right; by left|reflexivity]. }
    apply elem_of_app in Hc as [Hc|Hc].
    * left. apply list_elem_of_In, filter_In. split.
      -- right. right. apply in_or_app. left. by apply list_elem_of_In.
      -- apply list_elem_of_fmap in Hc as (t & -> & _). apply count_label_has_substring.
    * by right.
  + intros l Hl'. apply elem_of_app in Hl' as [H|H].
    * apply list_elem_of_In, filter_In in H as [H _]. by apply list_elem_of_In.
    * apply list_elem_of_singleton in H. subst l. right. apply elem_of_app. right. by left.
  + intros k _. split.
    * rewrite length_map, !length_app.
      destruct (H1 k) as (_ & _ & ->). destruct (H2 k) as (_ & _ & ->).
      destruct (H3 k) as (_ & _ & ->). reflexivity.
    * rewrite !map_app.
      destruct (H1 k) as (E1 & _). destruct (H2 k) as (E2 & _). destruct (H3 k) as (E3 & _).
      apply mapM_app; [apply mapM_app; [apply mapM_app; [reflexivity|exact E1]|exact E2]|exact E3].
Qed.

(** *** Counting records by a key *)

Lemma count_by_key {A K} `{EqDecision K} (f : A -> K) (ks : list K) (l : list A) :
  NoDup ks ->
  total (map (fun k => Z.of_nat (length (List.filter (fun a => bool_decide (f a = k)) l))) ks)
  = Z.of_nat (length (List.filter (fun a => bool_decide (f a ∈ ks)) l)).
Proof.
  intros Hnd. induction Hnd as [|k ks Hnin Hnd IH].
  - cbn. induction l as [|a l IHl]; [reflexivity|]. cbn [List.filter].
    rewrite bool_decide_eq_false_2 by apply not_elem_of_nil. exact IHl.
  - cbn [map total fold_right]. fold (total (map (fun k0 => Z.of_nat (length
      (List.filter (fun a => bool_decide (f a = k0)) l))) ks)). rewrite IH.
    clear IH. induction l as [|a l IHl]; [reflexivity|]. cbn [List.filter].
    destruct (decide (f a = k)) as [E|E].
    + rewrite (bool_decide_eq_true_2 (f a = k)) by done.
      rewrite (bool_decide_eq_true_2 (f a ∈ k :: ks)) by (rewrite E; by left).
      rewrite (bool_decide_eq_false_2 (f a ∈ ks)) by (by rewrite E).
      cbn [length]. lia.
    + rewrite (bool_decide_eq_false_2 (f a = k)) by done.
      destruct (decide (f a ∈ ks)) as [Hin|Hin].
      * rewrite (bool_decide_eq_true_2 (f a ∈ ks)) by done.
        rewrite (bool_decide_eq_true_2 (f a ∈ k :: ks)) by (by right).
        cbn [length]. lia.
      * rewrite (bool_decide_eq_false_2 (f a ∈ ks)) by done.
        rewrite (bool_decide_eq_false_2 (f a ∈ k :: ks)); [exact IHl|].
        intros H. apply elem_of_cons in H as [?|?]; done.
Qed.

Lemma stations_of_type_decide t (l : list station) :
  stations_of_type t l = List.filter (fun s => bool_decide (st_type s = t)) l.
Proof.
  unfold stations_of_type. apply filter_ext. intros s.
  destruct (String.eqb_spec (st_type s) t) as [E|E].
  - by rewrite bool_decide_eq_true_2.
  - by rewrite bool_decide_eq_false_2.
Qed.

Lemma records_decide stations k :
  records stations k
  = List.filter (fun s => bool_decide (VStr (st_municipality s) = k)) stations.
Proof.
  destruct k as [m|f|z]; cbn [records].
  - unfold stations_in. apply filter_ext. intros s.
    destruct (String.eqb_spec (st_municipality s) m) as [E|E].
    + rewrite bool_decide_eq_true_2; [done|by rewrite E].
    + rewrite bool_decide_eq_false_2; [done|]. by intros [= ?].
  - induction stations as [|s l IH]; [reflexivity|]. cbn [List.filter].
    by rewrite bool_decide_eq_false_2.
  - induction stations as [|s l IH]; [reflexivity|]. cbn [List.filter].
    by rewrite bool_decide_eq_false_2.
Qed.

Lemma filter_all {A} (f : A -> bool) (l : list A) :
  (forall a, a ∈ l -> f a = true) -> List.filter f l = l.
Proof.
  intros H. apply forallb_filter_id, forallb_forall. intros a Ha.
  apply H. by apply list_elem_of_In.
Qed.

(** The per-type counts of the records of one municipality add up to the
    number of its records. *)
Lemma size_by_type stations (types : list string) k :
  NoDup types -> (forall s, s ∈ stations -> st_type s ∈ types) ->
  total (map (fun t => size (stations_of_type t (records stations k))) types)
  = size (records stations k).
Proof.
  intros Hnd Hall. unfold size.
  rewrite (map_ext _ (fun t => Z.of_nat (length (List.filter
             (fun s => bool_decide (st_type s = t)) (records stations k)))))
    by (intros t; by rewrite stations_of_type_decide).
  rewrite (count_by_key st_type types (records stations k) Hnd).
  rewrite filter_all; [done|]. intros s Hs. apply bool_decide_eq_true. apply Hall.
  rewrite records_decide in Hs. apply list_elem_of_In, filter_In in Hs as [Hs _].
  by apply list_elem_of_In.
Qed.

(** X19: in every row of the aggregate the counts per type add up to the
    station count of the row: every record of a municipality is counted
    under exactly one of the type columns. *)
Theorem count_stations_types_add_up mapping station_df municipalities_df :
  let stations := apply_name_mapping_stations station_df mapping in
  let types := group_keys (map st_type station_df) in
  rectangular municipalities_df -> has_key municipalities_df ->
  "station" ∉ map st_type station_df ->
  "municipality" ∉ map st_type station_df ->
  Z.of_nat (length station_df) < 2 ^ 53 ->
  Forall (fun s => 0 <= traffic_count s) station_df ->
  (forall m, traffic (stations_in m stations) < 2 ^ 53) ->
  exists out,
    count_stations_per_municipality mapping station_df municipalities_df = Ok out /\
    Forall (fun row =>
              exists name station_count type_counts total_traffic,
                row = name :: VInt station_count
                      :: map VInt type_counts ++ [VInt total_traffic] /\
                length type_counts = length types /\
                station_count = total type_counts) (rows out).
Proof.
  intros stations types Hrect Hkey Hstation Hmun Hlen Hnonneg Hsum.
  eexists. split; [by apply count_stations_frame|]. cbn [rows].
  apply Forall_map, Forall_forall. intros k _. cbn beta.
  exists (fill_key (drop_duplicates_from [] (canonical_keys mapping municipalities_df)) k),
         (size (records stations k)),
         (map (fun t => size (stations_of_type t (records stations k))) types),
         (traffic (records stations k)).
  split; [|split].
  - unfold aggregate_row. by rewrite map_map.
  - by rewrite length_map.
  - symmetry. apply size_by_type; [apply group_keys_NoDup|].
    intros s Hs. unfold types. apply group_keys_elem.
    destruct (apply_name_mapping_stations_facts station_df mapping) as (_ & <- & _).
    apply list_elem_of_fmap. by exists s.
Qed.

Lemma traffic_below (station_df : list station) m :
  Forall (fun s => 0 <= traffic_count s) station_df ->
  traffic station_df < 2 ^ 53 ->
  traffic (stations_in m station_df) < 2 ^ 53.
Proof.
  intros H Hlt.
  pose proof (traffic_filter_nonneg
                (fun s => String.eqb (st_municipality s) m) station_df H) as [_ Hle].
  unfold stations_in. lia.
Qed.

Lemma count_stations_types_add_up_witness :
  exists out,
    count_stations_per_municipality example_mapping regional_stations
      regional_municipalities = Ok out /\
    Forall (fun row =>
              exists name station_count type_counts total_traffic,
                row = name :: VInt station_count
                      :: map VInt type_counts ++ [VInt total_traffic] /\
                length type_counts = length (group_keys (map st_type regional_stations)) /\
                station_count = total type_counts) (rows out).
Proof.
  apply (count_stations_types_add_up example_mapping regional_stations
           regional_municipalities).
  - repeat constructor.
  - by exists 0%nat.
  - cbn. rewrite !elem_of_cons, elem_of_nil. intuition discriminate.
  - cbn. rewrite !elem_of_cons, elem_of_nil. intuition discriminate.
  - reflexivity.
  - repeat constructor; cbn; lia.
  - intros m. apply traffic_below; [repeat constructor; cbn; lia|reflexivity].
Defined.

Lemma count_stations_regional_example :
  count_stations_per_municipality example_mapping regional_stations regional_municipalities
  = Ok (mkDataFrame ["municipality"; "station_count"; "A_count"; "B_count"; "total_traffic"]
          [ [VStr "Utrecht"; VInt 2; VInt 1; VInt 1; VInt 15];
            [VStr "'s-Gravenhage"; VInt 1; VInt 0; VInt 1; VInt 7];
            [VStr "Almere"; VInt 0; VInt 0; VInt 0; VInt 0] ]).
Proof. by vm_compute. Qed.

Lemma station_count_position types :
  "station" ∉ types ->
  positions "station_count" (aggregate_columns types) = [1%nat].
Proof.
  intros Hst. unfold positions, aggregate_columns. cbn [positions_from].
  change ("municipality" =? "station_count")%string with false.
  rewrite String.eqb_refl. f_equal. apply positions_from_absent.
  intros H. apply elem_of_app in H as [H|H].
  - apply list_elem_of_fmap in H as (t & H & Ht). symmetry in H.
    apply count_label_station in H. by subst t.
  - apply list_elem_of_singleton in H. discriminate H.
Qed.

(** X20: the station counts of the aggregate add up to the number of
    station records whose reconciled municipality is in the reconciled
    reference list: records of other municipalities are not counted, and a
    municipality listed twice is counted once. *)
Theorem count_stations_counts_reference_records mapping station_df municipalities_df :
  let stations := apply_name_mapping_stations station_df mapping in
  rectangular municipalities_df -> has_key municipalities_df ->
  "station" ∉ map st_type station_df ->
  "municipality" ∉ map st_type station_df ->
  Z.of_nat (length station_df) < 2 ^ 53 ->
  Forall (fun s => 0 <= traffic_count s) station_df ->
  (forall m, traffic (stations_in m stations) < 2 ^ 53) ->
  exists out station_counts,
    count_stations_per_municipality mapping station_df municipalities_df = Ok out /\
    getitem out "station_count" = Ok (map VInt station_counts) /\
    total station_counts
    = Z.of_nat (length (List.filter
                          (fun s => bool_decide (VStr (st_municipality s)
                                                 ∈ canonical_keys mapping municipalities_df))
                          stations)).
Proof.
  intros stations Hrect Hkey Hstation Hmun Hlen Hnonneg Hsum.
  set (reference := drop_duplicates_from [] (canonical_keys mapping municipalities_df)).
  exists (mkDataFrame (aggregate_columns (group_keys (map st_type station_df)))
            (map (aggregate_row stations (group_keys (map st_type station_df)) reference)
                 reference)),
         (map (fun k => size (records stations k)) reference).
  split; [by apply count_stations_frame|]. split.
  - rewrite (getitem_at _ _ 1).
    + cbn [rows]. f_equal. rewrite !map_map. reflexivity.
    + apply station_count_position. by rewrite group_keys_elem.
  - unfold size.
    rewrite (map_ext _ (fun k => Z.of_nat (length (List.filter
               (fun s => bool_decide (VStr (st_municipality s) = k)) stations))))
      by (intros k; by rewrite records_decide).
    rewrite (count_by_key (fun s => VStr (st_municipality s)) reference stations)
      by apply drop_duplicates_from_NoDup.
    f_equal. f_equal. apply filter_ext. intros s. unfold reference.
    apply bool_decide_ext. rewrite drop_duplicates_from_elem. split; [tauto|].
    intros H. split; [done|apply not_elem_of_nil].
Qed.

Lemma count_stations_counts_reference_records_witness :
  exists out station_counts,
    count_stations_per_municipality example_mapping regional_stations
      regional_municipalities = Ok out /\
    getitem out "station_count" = Ok (map VInt station_counts) /\
    total station_counts
    = Z.of_nat (length (List.filter
                          (fun s => bool_decide
                                      (VStr (st_municipality s)
                                       ∈ canonical_keys example_mapping
                                           regional_municipalities))
                          (apply_name_mapping_stations regional_stations example_mapping))).
Proof.
  apply (count_stations_counts_reference_records example_mapping regional_stations
           regional_municipalities).
  - repeat constructor.
  - by exists 0%nat.
  - cbn. rewrite !elem_of_cons, elem_of_nil. intuition discriminate.
  - cbn. rewrite !elem_of_cons, elem_of_nil. intuition discriminate.
  - reflexivity.
  - repeat constructor; cbn; lia.
  - intros m. apply traffic_below; [repeat constructor; cbn; lia|reflexivity].
Defined.

(** X21: station records with a type called 'municipality' make the
    aggregator raise ValueError, whatever the other records and the
    reference list: the per-type table cannot take the key as a column. *)
Theorem count_stations_type_named_municipality mapping station_df municipalities_df :
  rectangular municipalities_df -> has_key municipalities_df ->
  "municipality" ∈ map st_type station_df ->
  count_stations_per_municipality mapping station_df municipalities_df = Raise ValueError.
Proof.
  intros Hrect Hkey Htype. unfold count_stations_per_municipality.
  rewrite apply_name_mapping_renamed by done. cbn [mbind result_bind].
  destruct (reference_frame mapping municipalities_df Hrect Hkey) as (sel & Hsel & _).
  rewrite Hsel. cbn [mbind result_bind]. unfold station_type_count_frame.
  destruct (apply_name_mapping_stations_facts station_df mapping) as (_ & -> & _).
  assert (E : existsb (String.eqb "municipality") (group_keys (map st_type station_df)) = true).
  { apply existsb_exists. exists "municipality". split; [|apply String.eqb_refl].
    apply list_elem_of_In. by apply group_keys_elem. }
  by rewrite E.
Qed.

Lemma count_stations_type_named_municipality_witness :
  count_stations_per_municipality example_mapping municipality_typed_stations
    scenario_municipalities = Raise ValueError.
Proof.
  apply (count_stations_type_named_municipality example_mapping municipality_typed_stations
           scenario_municipalities).
  - repeat constructor.
  - by exists 0%nat.
  - cbn. rewrite !elem_of_cons. tauto.
Defined.

(** ** Dataset merger: repeated keys *)

Lemma occurrences_app k l1 l2 :
  occurrences k (l1 ++ l2) = (occurrences k l1 + occurrences k l2)%nat.
Proof. unfold occurrences. by rewrite List.filter_app, length_app. Qed.

Lemma occurrences_cons k x l :
  occurrences k (x :: l)
  = ((if bool_decide (x = k) then 1 else 0) + occurrences k l)%nat.
Proof. unfold occurrences. cbn [List.filter]. by destruct (bool_decide (x = k)). Qed.

Lemma occurrences_map_const {A} k (v : value) (l : list A) :
  occurrences k (map (fun _ => v) l) = if bool_decide (v = k) then length l else 0%nat.
Proof.
  unfold occurrences. induction l as [|a l IH]; [by destruct (bool_decide _)|].
  cbn [map List.filter]. destruct (bool_decide (v = k)); cbn [length]; by rewrite IH.
Qed.

Lemma matching_length j k (rrows : list (list value)) :
  length (matching j k rrows) = occurrences k (map (cell j) rrows).
Proof.
  unfold matching, occurrences. induction rrows as [|r rrows IH]; [reflexivity|].
  cbn [map List.filter]. destruct (bool_decide (cell j r = k)); cbn [length]; by rewrite IH.
Qed.

(** An inner merge has, for every key, as many rows as the product of the
    numbers of rows the two frames have for it. *)
Lemma merge_inner_key_count i j w (lrows rrows : list (list value)) k :
  Forall (fun l => (i < length l)%nat) lrows ->
  occurrences k (map (cell i) (merge_rows inner i j w lrows rrows))
  = (occurrences k (map (cell i) lrows) * occurrences k (map (cell j) rrows))%nat.
Proof.
  intros Hl. induction Hl as [|l lrows Hlen _ IH]; [reflexivity|].
  cbn [merge_rows flat_map map] in *. rewrite map_app, occurrences_app, IH, map_map.
  rewrite (map_ext _ (fun _ => cell i l))
    by (intros r; unfold cell; by rewrite app_nth1).
  rewrite occurrences_map_const, matching_length, occurrences_cons.
  destruct (decide (cell i l = k)) as [E|E].
  - rewrite !bool_decide_eq_true_2 by done. rewrite E. lia.
  - rewrite !bool_decide_eq_false_2 by done. lia.
Qed.

Lemma merge_step_count merged data i out k :
  col_pos merged "municipality" = Ok i ->
  Forall (fun l => (i < length l)%nat) (rows merged) ->
  merge merged data "municipality" inner = Ok out ->
  col_pos out "municipality" = Ok i /\
  Forall (fun l => (i < length l)%nat) (rows out) /\
  occurrences k (raw_keys out)
  = (occurrences k (raw_keys merged) * occurrences k (raw_keys data))%nat.
Proof.
  intros Hi Hlen. unfold merge. rewrite Hi. cbn [mbind result_bind].
  destruct (col_pos data "municipality") as [j|e] eqn:Hj; [|discriminate].
  cbn [mbind result_bind].
  destruct (suffix_clash _ _ _ _); [discriminate|]. intros [= <-].
  apply col_pos_Ok in Hi as Hi'. destruct Hi' as [Hpi _].
  apply col_pos_Ok in Hj as Hj'. destruct Hj' as [Hpj _].
  pose proof (col_pos_merge (columns merged) (columns data) (rows merged) (rows data)
                inner i j Hpi Hpj) as Hcol.
  cbn [merge_rows] in Hcol.
  split; [exact Hcol|]. split.
  - cbn [rows]. by apply (merge_inner_row_length i j (length (columns data) - 1)).
  - unfold raw_keys. rewrite Hcol, Hi, Hj. cbn [rows].
    by apply (merge_inner_key_count i j (length (columns data) - 1)).
Qed.

Lemma merge_all_count others : forall merged i out k,
  col_pos merged "municipality" = Ok i ->
  Forall (fun l => (i < length l)%nat) (rows merged) ->
  merge_all merged others = Ok out ->
  col_pos out "municipality" = Ok i /\
  Forall (fun l => (i < length l)%nat) (rows out) /\
  occurrences k (raw_keys out)
  = (occurrences k (raw_keys merged)
     * fold_right Nat.mul 1 (map (fun d => occurrences k (raw_keys d)) others))%nat.
Proof.
  induction others as [|data others IH]; intros merged i out k Hi Hlen Hout.
  - injection Hout as <-. split; [done|]. split; [done|]. cbn. lia.
  - cbn [merge_all] in Hout.
    destruct (merge merged data "municipality" inner) as [m|e] eqn:Hm; [|discriminate Hout].
    cbn [mbind result_bind] in Hout.
    destruct (merge_step_count merged data i m k Hi Hlen Hm) as (Hmi & Hmlen & Hcount).
    destruct (IH m i out k Hmi Hmlen Hout) as (Hhas & Hlens & Hrest).
    split; [done|]. split; [done|]. rewrite Hrest, Hcount. cbn [map fold_right]. lia.
Qed.

(** X22: whatever the multiplicities of the keys, the merged table has for
    every municipality as many rows as the product of the numbers of rows
    the input tables have for it after reconciliation: a municipality
    that one table lacks is absent, and a municipality that occurs twice
    in two tables occurs four times in the merged table. *)
Theorem merge_datasets_key_multiplicity mapping first others out :
  Forall rectangular (first :: others) ->
  merge_datasets mapping (first :: others) = Ok out ->
  exists ks,
    keys out = Ok ks /\
    length (rows out) = length ks /\
    (forall k, occurrences k ks = multiplicity mapping (first :: others) k).
Proof.
  intros Hrect Hout.
  pose proof (merge_datasets_inputs_have_key _ _ _ Hout) as Hkey.
  rewrite merge_datasets_renamed in Hout by done.
  apply Forall_cons in Hrect as [Hr1 Hrs]. apply Forall_cons in Hkey as [Hk1 Hks].
  destruct (renamed_facts mapping first Hr1 Hk1) as (_ & Hraw1 & _ & i & Hi & Hlen).
  assert (Hothers : forall d, d ∈ others ->
            has_key (renamed mapping d) /\
            raw_keys (renamed mapping d) = canonical_keys mapping d).
  { intros d Hd. rewrite Forall_forall in Hrs, Hks.
    destruct (renamed_facts mapping d (Hrs d Hd) (Hks d Hd)) as (H1 & H2 & _). done. }
  assert (Hhas : has_key out).
  { exists i. by destruct (merge_all_count _ _ i out NaN Hi Hlen Hout). }
  exists (raw_keys out). split; [by apply keys_raw_keys|].
  split; [by rewrite raw_keys_length|]. intros k.
  destruct (merge_all_count _ _ i out k Hi Hlen Hout) as (_ & _ & ->).
  unfold multiplicity. cbn [map fold_right]. rewrite Hraw1. f_equal. f_equal.
  rewrite map_map. apply map_ext_in. intros d Hd. apply list_elem_of_In in Hd.
  by destruct (Hothers d Hd) as [_ ->].
Qed.

Lemma merge_datasets_key_multiplicity_witness :
  exists ks,
    keys (mkDataFrame ["municipality"; "avg_price"; "avg_surface"]
            [ [VStr "Utrecht"; VInt 450000; VInt 100];
              [VStr "Almere"; VInt 300000; VInt 120];
              [VStr "Almere"; VInt 300000; VInt 125];
              [VStr "Almere"; VInt 310000; VInt 120];
              [VStr "Almere"; VInt 310000; VInt 125] ]) = Ok ks /\
    length (rows (mkDataFrame ["municipality"; "avg_price"; "avg_surface"]
            [ [VStr "Utrecht"; VInt 450000; VInt 100];
              [VStr "Almere"; VInt 300000; VInt 120];
              [VStr "Almere"; VInt 300000; VInt 125];
              [VStr "Almere"; VInt 310000; VInt 120];
              [VStr "Almere"; VInt 310000; VInt 125] ])) = length ks /\
    (forall k, occurrences k ks
               = multiplicity example_mapping
                   [repeated_prices_table; repeated_surfaces_table] k).
Proof.
  apply (merge_datasets_key_multiplicity example_mapping repeated_prices_table
           [repeated_surfaces_table]).
  - repeat constructor.
  - by vm_compute.
Defined.

(** ** The pipeline of the entry point *)

Lemma raises_bind {A B} (r : result A) (k : A -> result B) :
  (forall a, r = Ok a -> raises (k a)) -> raises (r ≫= k).
Proof.
  intros H. destruct r as [a|e]; [by apply H|]. by exists e.
Qed.

(** X23: one feature whose geometry shapely rejects, or whose centroid
    cannot be computed, makes the whole pipeline raise, whatever the other
    input files hold: no output table is produced. *)
Theorem main_geometry_failure_is_fatal `{PyFloat float64} (lib : GeoLib float64)
    str_to_float mapping missing_incomes prices surface mun_size incomes
    (features : list (feature (geojson_geometry lib))) stations f :
  f ∈ features ->
  calculate_centroid_lat_lon lib (geometry f) = Ok (None, None)
  \/ raises (shape lib (geometry f)) ->
  raises (main lib str_to_float mapping missing_incomes prices surface mun_size incomes
            features stations).
Proof.
  intros Hin Hf. unfold main.
  do 4 (apply raises_bind; intros ? _).
  destruct (load_and_process_geojson_raises lib mapping features f Hin Hf) as [e ->].
  by exists e.
Qed.

Lemma main_geometry_failure_is_fatal_witness :
  raises (main (H := nan_arithmetic) point_lib digits_to_float example_mapping
            utrecht_incomes utrecht_prices_csv utrecht_surface_csv utrecht_mun_size_csv
            utrecht_incomes_csv [utrecht_point; pointless_feature] scenario_stations).
Proof.
  apply (main_geometry_failure_is_fatal (H := nan_arithmetic) point_lib digits_to_float
           example_mapping utrecht_incomes utrecht_prices_csv utrecht_surface_csv
           utrecht_mun_size_csv utrecht_incomes_csv [utrecht_point; pointless_feature]
           scenario_stations pointless_feature).
  - right. left.
  - left. reflexivity.
Defined.

Lemma main_utrecht_example :
  main (H := nan_arithmetic) point_lib digits_to_float example_mapping utrecht_incomes
    utrecht_prices_csv utrecht_surface_csv utrecht_mun_size_csv utrecht_incomes_csv
    [utrecht_point] scenario_stations
  = Ok utrecht_final_data.
Proof. by vm_compute. Qed.

Lemma occurrences_pos k (l : list value) : k ∈ l <-> (0 < occurrences k l)%nat.
Proof.
  unfold occurrences. induction l as [|x l IH].
  - cbn. split; [intros H; by apply elem_of_nil in H|lia].
  - cbn [List.filter]. rewrite elem_of_cons, IH.
    destruct (decide (x = k)) as [E|E].
    + rewrite bool_decide_eq_true_2 by done. cbn [length]. split; [lia|]. by left.
    + rewrite bool_decide_eq_false_2 by done. split; [|by right].
      intros [->|?]; done.
Qed.

(** The keys of a merged table are keys of the first table. *)
Lemma merge_datasets_keys_of_first mapping first others out :
  rectangular first ->
  merge_datasets mapping (first :: others) = Ok out ->
  exists i,
    col_pos out "municipality" = Ok i /\
    Forall (fun l => (i < length l)%nat) (rows out) /\
    (forall k, k ∈ raw_keys out -> k ∈ canonical_keys mapping first).
Proof.
  intros Hrect Hout.
  pose proof (merge_datasets_inputs_have_key _ _ _ Hout) as Hkey.
  rewrite merge_datasets_renamed in Hout by done.
  apply Forall_cons in Hkey as [Hk1 _].
  destruct (renamed_facts mapping first Hrect Hk1) as (_ & Hraw1 & _ & i & Hi & Hlen).
  exists i.
  destruct (merge_all_count _ _ i out NaN Hi Hlen Hout) as (Hcol & Hlens & _).
  split; [done|]. split; [done|]. intros k Hk.
  destruct (merge_all_count _ _ i out k Hi Hlen Hout) as (_ & _ & Hcount).
  apply occurrences_pos in Hk. rewrite <- Hraw1. apply occurrences_pos. nia.
Qed.

Lemma cell_foldr_insert i ps (r : list value) (v : value) :
  i ∉ ps -> cell i (foldr (fun p r' => <[p:=v]> r') r ps) = cell i r.
Proof.
  induction ps as [|p ps IH]; intros Hnin; [reflexivity|]. cbn [foldr].
  apply not_elem_of_cons in Hnin as [Hne Hnin].
  rewrite cell_insert_ne by done. by apply IH.
Qed.

(** The price computation leaves the key column as it is. *)
Lemma process_merged_data_keeps_keys data out i :
  col_pos data "municipality" = Ok i ->
  Forall (fun l => (i < length l)%nat) (rows data) ->
  process_merged_data data = Ok out ->
  getitem out "municipality" = getitem data "municipality"
  /\ "m2_price" ∈ columns out
  /\ length (rows out) = length (rows data).
Proof.
  intros Hi Hlen Hout. unfold process_merged_data in Hout.
  apply bind_Ok in Hout as (prices & _ & Hout).
  apply bind_Ok in Hout as (surfaces & _ & Hout).
  apply bind_Ok in Hout as (s & _ & Hout).
  unfold setitem in Hout.
  destruct (Nat.eqb_spec (length s) (length (rows data))) as [Hs|]; [|discriminate].
  cbn [negb] in Hout.
  apply col_pos_Ok in Hi as Hi'. destruct Hi' as [Hpi _].
  rewrite Forall_forall in Hlen.
  destruct (positions "m2_price" (columns data)) as [|p ps] eqn:Eps.
  - injection Hout as <-. cbn [columns rows]. split; [|split].
    + unfold getitem, col_pos, positions. cbn [columns rows].
      rewrite positions_from_app. cbn [positions_from].
      change ("m2_price" =? "municipality")%string with false. rewrite app_nil_r.
      unfold positions in Hpi. rewrite Hpi. cbn [mbind result_bind]. f_equal.
      rewrite (map_zip_with_rows _ _ (fun r _ => cell i r)).
      * rewrite <- (zip_with_fst_eq (rows data) s) at 2 by done.
        symmetry. apply (map_zip_with_rows (fun r _ => r)). done.
      * intros r v Hr. apply cell_app_l. by apply Hlen.
    + apply elem_of_app. right. by left.
    + rewrite length_zip_with. lia.
  - injection Hout as <-. cbn [columns rows]. split; [|split].
    + unfold getitem. unfold col_pos at 1. cbn [columns rows].
      fold (col_pos data "municipality"). rewrite Hi. cbn [mbind result_bind]. f_equal.
      rewrite (map_zip_with_rows _ _ (fun r _ => cell i r)).
      * rewrite <- (zip_with_fst_eq (rows data) s) at 2 by done.
        symmetry. apply (map_zip_with_rows (fun r _ => r)). done.
      * intros r v Hr.
        change (cell i (foldr (fun p0 r' => <[p0:=v]> r') r (p :: ps)) = cell i r).
        apply cell_foldr_insert. intros Hin.
        assert (H1 : i ∈ positions_from 0 "m2_price" (columns data))
          by (unfold positions in Eps; by rewrite Eps).
        assert (H2 : i ∈ positions_from 0 "municipality" (columns data))
          by (unfold positions in Hpi; rewrite Hpi; by left).
        apply positions_from_elem in H1 as [_ H1]. apply positions_from_elem in H2 as [_ H2].
        rewrite H1 in H2. discriminate H2.
    + assert (Hp : p ∈ positions_from 0 "m2_price" (columns data))
        by (unfold positions in Eps; rewrite Eps; by left).
      apply positions_from_elem in Hp as [_ Hp]. by apply list_elem_of_lookup_2 in Hp.
    + rewrite length_zip_with. lia.
Qed.

(** X24: every municipality of the table the pipeline writes is the
    reconciled name of a row of the price file whose price is a number;
    the table has the column m2_price. *)
Theorem main_keeps_priced_municipalities `{PyFloat float64} (lib : GeoLib float64)
    str_to_float mapping missing_incomes prices surface mun_size incomes
    (features : list (feature (geojson_geometry lib))) stations final_data :
  rectangular prices ->
  main lib str_to_float mapping missing_incomes prices surface mun_size incomes
    features stations = Ok final_data ->
  exists ks,
    keys final_data = Ok ks /\
    length (rows final_data) = length ks /\
    "m2_price" ∈ columns final_data /\
    (forall k, k ∈ ks ->
       exists r, r ∈ rows prices /\
                 isna (coerce_cell str_to_float (cell 3 r)) = false /\
                 k = canonical_cell mapping (cell 0 r)).
Proof.
  intros Hrect Hmain. unfold main in Hmain.
  apply bind_Ok in Hmain as (data_prices & Hprices & Hmain).
  apply bind_Ok in Hmain as (data_surface & _ & Hmain).
  apply bind_Ok in Hmain as (data_mun_size & _ & Hmain).
  apply bind_Ok in Hmain as (data_incomes & _ & Hmain).
  apply bind_Ok in Hmain as (data_schiphol & _ & Hmain).
  apply bind_Ok in Hmain as (reference & _ & Hmain).
  apply bind_Ok in Hmain as (data_stations_count & _ & Hmain).
  apply bind_Ok in Hmain as (merged & Hmerged & Hfinal).
  assert (Hcols : length (columns prices) = 4%nat).
  { unfold clean_price_data, set_columns in Hprices. cbn [length] in Hprices.
    destruct (Nat.eqb_spec 4 (length (columns prices))) as [E|_]; [done|discriminate]. }
  rewrite (clean_price_data_rows _ _ Hrect Hcols) in Hprices. injection Hprices as <-.
  assert (Hrect' : rectangular (mkDataFrame ["municipality"; "avg_price"]
                                  (omap (price_row str_to_float) (rows prices)))).
  { unfold rectangular. cbn [columns rows]. apply Forall_forall. intros r' Hr'.
    apply list_elem_of_omap in Hr' as (r & _ & Hr). unfold price_row in Hr.
    destruct (isna _); [discriminate|]. by injection Hr as <-. }
  destruct (merge_datasets_keys_of_first _ _ _ _ Hrect' Hmerged) as (i & Hi & Hlen & Hsub).
  destruct (process_merged_data_keeps_keys merged final_data i Hi Hlen Hfinal)
    as (Hkeys & Hm2 & Hrows).
  exists (raw_keys merged). unfold keys. rewrite Hkeys.
  split; [apply keys_raw_keys; by exists i|].
  split; [rewrite Hrows; symmetry; apply raw_keys_length; by exists i|].
  split; [done|]. intros k Hk. apply Hsub in Hk.
  unfold canonical_keys in Hk. cbn in Hk.
  apply list_elem_of_fmap in Hk as (r' & -> & Hr').
  apply list_elem_of_omap in Hr' as (r & Hr & Hrow). exists r. split; [done|].
  unfold price_row in Hrow.
  destruct (isna (coerce_cell str_to_float (cell 3 r))) eqn:E; [discriminate|].
  injection Hrow as <-. by split.
Qed.

Lemma main_keeps_priced_municipalities_witness :
  exists ks,
    keys utrecht_final_data = Ok ks /\
    length (rows utrecht_final_data) = length ks /\
    "m2_price" ∈ columns utrecht_final_data /\
    (forall k, k ∈ ks ->
       exists r, r ∈ rows utrecht_prices_csv /\
                 isna (coerce_cell digits_to_float (cell 3 r)) = false /\
                 k = canonical_cell example_mapping (cell 0 r)).
Proof.
  apply (main_keeps_priced_municipalities (H := nan_arithmetic) point_lib digits_to_float
           example_mapping utrecht_incomes utrecht_prices_csv utrecht_surface_csv
           utrecht_mun_size_csv utrecht_incomes_csv [utrecht_point] scenario_stations).
  - repeat constructor.
  - by vm_compute.
Defined.
